(** * OpenChessMate: the web asset compiler and its route matcher

    A shallow embedding of [src/web/build/generate_pages.py] (the
    PlatformIO pre-build script that turns the minified web assets into
    [web_pages.h], [web_pages.cpp] and [page_router.cpp]) and of the C++
    function [findPage] that the script emits, with the properties of
    the specification stated and settled over them.

    Conventions of the model.
    - A Python [str] and a C string are a [string]; a character is one
      [ascii] code.  A file name is taken byte-wise, as the UTF-8 form
      of its text: searching, replacing and comparing act on it as they
      act on the text.  [str.upper()] follows the Unicode character
      database: on ASCII text it maps the letters a-z, on any other
      text it is an interface ([PyStr.Unicode]).  (The console lines
      of [master_emulator.py] are texts of characters below U+0100,
      one code each.)
    - A Python [bytes] is a [list byte].
    - The directory [src/web/build] is a list of entries in the order
      [iterdir()] happens to yield them; paths are POSIX paths, compared
      by name, code by code.
    - [time.time()] is an oracle: the n-th reading of a run is
      [clock n].
    - The [gzip] module is the one of CPython 3.11; zlib's raw deflate
      codec is an interface ([Zlib]), and the model fixes the gzip
      container around it, byte for byte.

    Beside them, the other scripts of the repository:
    [src/web/build/minify.py], which fills [src/web/build] (the shell
    and the minifiers behind it are an interface, [Minify.Shell]);
    [ui_slave/src/pieces/convert_v8.py], which turns the PNG of a chess
    piece into an LVGL array (an image is its size and its RGBA
    pixels, as PIL hands them over); and the console commands of
    [ui_slave/sim/master_emulator.py]. *)

From Stdlib Require Import NArith ZArith Ascii String DecimalString DecimalNat.
From Stdlib.Strings Require Import Byte.
From stdpp Require Import base tactics option list strings gmap sorting.

Local Open Scope string_scope.
Local Open Scope list_scope.

(** ** Python's built-in string operations *)

Module PyStr.

(** [s.startswith(p)] *)
Definition startswith (p s : string) : bool := String.prefix p s.

(** [sub in s] *)
Fixpoint contains (sub s : string) : bool :=
  startswith sub s ||
  match s with
  | EmptyString => false
  | String _ s' => contains sub s'
  end.

(** [s.replace(old, new)] for a non-empty [old]: the occurrences are
    taken left to right and do not overlap; [skip] counts the
    characters of the occurrence just replaced that are still to be
    passed over. *)
Fixpoint replace_go (old new : string) (skip : nat) (s : string) : string :=
  match s with
  | EmptyString => EmptyString
  | String c s' =>
      match skip with
      | S k => replace_go old new k s'
      | O =>
          if startswith old s
          then new +:+ replace_go old new (String.length old - 1) s'
          else String c (replace_go old new 0 s')
      end
  end.

(** [s.replace("", new)] puts [new] before every character and at the
    end. *)
Fixpoint replace_empty (new s : string) : string :=
  match s with
  | EmptyString => new
  | String c s' => new +:+ String c (replace_empty new s')
  end.

Definition replace (old new s : string) : string :=
  match old with
  | EmptyString => replace_empty new s
  | _ => replace_go old new 0 s
  end.

Definition is_ascii_lower (c : ascii) : bool :=
  ((97 <=? N_of_ascii c) && (N_of_ascii c <=? 122))%N.

Definition is_ascii_upper (c : ascii) : bool :=
  ((65 <=? N_of_ascii c) && (N_of_ascii c <=? 90))%N.

Definition upper_char (c : ascii) : ascii :=
  if is_ascii_lower c then ascii_of_N (N_of_ascii c - 32) else c.

Definition lower_char (c : ascii) : ascii :=
  if is_ascii_upper c then ascii_of_N (N_of_ascii c + 32) else c.

Fixpoint map_chars (f : ascii -> ascii) (s : string) : string :=
  match s with
  | EmptyString => EmptyString
  | String c s' => String (f c) (map_chars f s')
  end.

(** [s.isascii()] *)
Fixpoint isascii (s : string) : bool :=
  match s with
  | EmptyString => true
  | String c s' => (N_of_ascii c <? 128)%N && isascii s'
  end.

(** The case mappings of Python follow the Unicode character database.
    On a text of ASCII characters [s.upper()] maps the letters a-z and
    nothing else; for any other text (where one character may become
    two, as the sharp s, or change in no way ASCII can tell) the
    database enters as an interface: the text in, its upper-cased form
    out, both in UTF-8. *)
Class Unicode := {
  upper_beyond_ascii : string -> string;
}.

(** [s.upper()] *)
Definition upper {uc : Unicode} (s : string) : string :=
  if isascii s then map_chars upper_char s else upper_beyond_ascii s.

(** [s.lower()], as it acts on ASCII text; it is applied to suffixes
    only, to look them up among [.html], [.css] and [.js]. *)
Definition lower : string -> string := map_chars lower_char.

(** A database in which no character beyond ASCII has an upper-case
    form of its own.  It stands in for Unicode where a concrete
    database is wanted. *)
Definition caseless : Unicode := {| upper_beyond_ascii := fun s => s |}.

(** [s.rfind(c)] for a one-character needle: the highest index, or -1. *)
Fixpoint rfind_go (c : ascii) (s : string) (i : Z) (last : Z) : Z :=
  match s with
  | EmptyString => last
  | String d s' => rfind_go c s' (i + 1) (if Ascii.eqb d c then i else last)
  end.

Definition rfind (c : ascii) (s : string) : Z := rfind_go c s 0 (-1).

(** [s[i:]] for [0 <= i] *)
Fixpoint slice_from (i : nat) (s : string) : string :=
  match i, s with
  | O, _ => s
  | S k, EmptyString => EmptyString
  | S k, String _ s' => slice_from k s'
  end.

(** [str(n)] and the [{n}] of an f-string, for a non-negative integer *)
Definition str_of_nat (n : nat) : string :=
  NilEmpty.string_of_uint (Nat.to_uint n).

(** [str(b).lower()] of a [bool] *)
Definition str_of_bool_lower (b : bool) : string :=
  lower (if b then "True" else "False").

Definition hex_digit (n : N) : ascii :=
  if (n <? 10)%N then ascii_of_N (48 + n) else ascii_of_N (87 + n).

(** [f"{b:02x}"] for a byte *)
Definition format_02x (b : byte) : string :=
  String (hex_digit (Byte.to_N b / 16))
    (String (hex_digit (Byte.to_N b mod 16)) EmptyString).

End PyStr.

(** ** pathlib *)

Module Pathlib.

(** [PurePath.suffix]: the last suffix of the name, with its period;
    empty when the only period leads or ends the name. *)
Definition suffix (name : string) : string :=
  let i := PyStr.rfind "."%char name in
  if ((0 <? i) && (i <? Z.of_nat (String.length name) - 1))%Z
  then PyStr.slice_from (Z.to_nat i) name
  else EmptyString.

End Pathlib.

(** ** zlib and gzip *)

(** What [decompressobj(wbits=-15).decompress(data)] leaves behind: the
    stream ended ([eof]) after [consumed] bytes of [data] (the rest is
    [unused_data]) and decoded to [out]; or the data ran out before the
    end of the stream; or the data is not a deflate stream. *)
Inductive inflate_result :=
| InflateEof (out : list byte) (consumed : nat)
| InflateMore
| InflateError.

(** The raw deflate codec of zlib, as the gzip module uses it. *)
Class Zlib := {
  (** [zlib.compress(data, level=level, wbits=-15)] *)
  raw_deflate : Z -> list byte -> list byte;
  (** [zlib.decompressobj(wbits=-15)] fed [data] once *)
  raw_inflate : list byte -> inflate_result;
}.

(** A deflate stream ends itself: whatever follows it, inflating gives
    the input back and stops at the end of the stream. *)
Class ZlibLaws (zl : Zlib) : Prop :=
  inflate_deflate : forall level raw rest,
    raw_inflate (raw_deflate level raw ++ rest)
    = InflateEof raw (length (raw_deflate level raw)).

Module Struct.

(** The byte of [n]'s low eight bits. *)
Definition byte_of_N (n : N) : byte :=
  default x00 (Byte.of_N (n mod 256)%N).

(** [struct.pack("<L", n)] for [n < 2^32] (Python raises beyond; the
    model keeps the low 32 bits). *)
Definition pack_L (n : N) : list byte :=
  [byte_of_N n; byte_of_N (n / 256); byte_of_N (n / 65536);
   byte_of_N (n / 16777216)].

(** [struct.unpack("<L", b)] of the first four bytes *)
Definition unpack_L (b : list byte) : option N :=
  match b with
  | b0 :: b1 :: b2 :: b3 :: _ =>
      Some (Byte.to_N b0 + 256 * Byte.to_N b1 + 65536 * Byte.to_N b2
            + 16777216 * Byte.to_N b3)%N
  | _ => None
  end.

(** [struct.unpack("<H", b)] of the first two bytes *)
Definition unpack_H (b : list byte) : option N :=
  match b with
  | b0 :: b1 :: _ => Some (Byte.to_N b0 + 256 * Byte.to_N b1)%N
  | _ => None
  end.

End Struct.

Module Gzip.

Inductive error := BadGzipFile | EOFError | ZlibError.

Inductive result (A : Type) :=
| Ok (a : A)
| Raise (e : error).
Arguments Ok {A} a.
Arguments Raise {A} e.

Definition FHCRC : N := 2%N.
Definition FEXTRA : N := 4%N.
Definition FNAME : N := 8%N.
Definition FCOMMENT : N := 16%N.

(** One step of the bit-wise CRC-32 (reflected polynomial EDB88320). *)
Definition crc32_bit (crc : N) : N :=
  if N.odd crc then N.lxor (N.shiftr crc 1) 3988292384%N
  else N.shiftr crc 1.

Definition crc32_byte (crc : N) (b : byte) : N :=
  Nat.iter 8 crc32_bit (N.lxor crc (Byte.to_N b)).

(** [zlib.crc32(data)] *)
Definition crc32 (data : list byte) : N :=
  N.lxor (fold_left crc32_byte data 4294967295%N) 4294967295%N.

(** [_create_simple_gzip_header(compresslevel, mtime)], [mtime] being
    the clock reading [int(time.time())] when the caller passes none:
    magic, method 8 (deflate), no flags, MTIME, XFL, OS 255. *)
Definition create_simple_gzip_header (compresslevel : Z) (mtime : N)
  : list byte :=
  let xfl := if (compresslevel =? 9)%Z then x02
             else if (compresslevel =? 1)%Z then x04 else x00 in
  [x1f; x8b; x08; x00] ++ Struct.pack_L mtime ++ [xfl; xff].

Section WithZlib.
Context {zl : Zlib}.

(** [gzip.compress(data, compresslevel)] called without [mtime], at a
    moment when the clock reads [now]. *)
Definition compress (now : N) (data : list byte) (compresslevel : Z)
  : list byte :=
  let header := create_simple_gzip_header compresslevel now in
  let trailer :=
    Struct.pack_L (crc32 data)
    ++ Struct.pack_L (N.land (N.of_nat (length data)) 4294967295%N) in
  header ++ raw_deflate compresslevel data ++ trailer.

Definition bind {A B} (r : result A) (k : A -> result B) : result B :=
  match r with
  | Ok a => k a
  | Raise e => Raise e
  end.

(** [_read_exact(fp, n)]: the next [n] bytes and what follows them. *)
Definition read_exact (n : nat) (d : list byte)
  : result (list byte * list byte) :=
  if decide (n <= length d) then Ok (take n d, drop n d)
  else Raise EOFError.

(** Reading byte by byte up to and including a zero byte, or to the
    end of the data. *)
Fixpoint skip_zero_terminated (d : list byte) : list byte :=
  match d with
  | [] => []
  | b :: d' => if Byte.eqb b x00 then d' else skip_zero_terminated d'
  end.

Definition has_flag (flag : byte) (f : N) : bool :=
  negb (N.land (Byte.to_N flag) f =? 0)%N.

(** [_read_gzip_header(fp)]: nothing at the end of the data, else
    the header's MTIME, and the data after the header. *)
Definition read_gzip_header (d : list byte)
  : result (option (N * list byte)) :=
  match d with
  | [] => Ok None
  | [_] => Raise BadGzipFile
  | m0 :: m1 :: d0 =>
      if negb (Byte.eqb m0 x1f && Byte.eqb m1 x8b) then Raise BadGzipFile
      else
        bind (read_exact 8 d0) (fun '(h, d1) =>
        match h with
        | method :: flag :: mt =>
            if negb (Byte.eqb method x08) then Raise BadGzipFile
            else
              let last_mtime := default 0%N (Struct.unpack_L mt) in
              bind (if has_flag flag FEXTRA
                    then bind (read_exact 2 d1) (fun '(el, d2) =>
                         bind (read_exact
                                 (N.to_nat (default 0%N (Struct.unpack_H el)))
                                 d2) (fun '(_, d3) => Ok d3))
                    else Ok d1) (fun d4 =>
              let d5 := if has_flag flag FNAME
                        then skip_zero_terminated d4 else d4 in
              let d6 := if has_flag flag FCOMMENT
                        then skip_zero_terminated d5 else d5 in
              bind (if has_flag flag FHCRC
                    then bind (read_exact 2 d6) (fun '(_, d7) => Ok d7)
                    else Ok d6) (fun d8 =>
              Ok (Some (last_mtime, d8))))
        | _ => Raise EOFError
        end)
  end.

(** [b.lstrip(b"\x00")] *)
Fixpoint lstrip_zero (d : list byte) : list byte :=
  match d with
  | [] => []
  | b :: d' => if Byte.eqb b x00 then lstrip_zero d' else d
  end.

(** The [while True] of [gzip.decompress], one member a turn.  A
    member takes at least eighteen bytes, so as many turns as the
    data has bytes, and one, are never used up. *)
Fixpoint decompress_members (turns : nat) (data : list byte)
    (decompressed_members : list (list byte)) : result (list byte) :=
  match turns with
  | O => Raise EOFError
  | S turns' =>
      bind (read_gzip_header data) (fun hdr =>
      match hdr with
      | None => Ok (concat decompressed_members)
      | Some (_, body) =>
          match raw_inflate body with
          | InflateError => Raise ZlibError
          | InflateMore => Raise EOFError
          | InflateEof decompressed consumed =>
              let unused_data := drop consumed body in
              if (length unused_data <? 8)%nat then Raise EOFError
              else
                let crc := default 0%N (Struct.unpack_L unused_data) in
                let len :=
                  default 0%N (Struct.unpack_L (drop 4 unused_data)) in
                if negb (crc =? crc32 decompressed)%N
                then Raise BadGzipFile
                else if negb (len =? N.land (N.of_nat (length decompressed))
                                            4294967295)%N
                then Raise BadGzipFile
                else decompress_members turns'
                       (lstrip_zero (drop 8 unused_data))
                       (decompressed_members ++ [decompressed])
          end
      end)
  end.

(** [gzip.decompress(data)] *)
Definition decompress (data : list byte) : result (list byte) :=
  decompress_members (S (length data)) data [].

End WithZlib.

End Gzip.

(** ** The file system the script sees *)

Module Fs.

(** An entry of a directory: its name and, when [is_file()] holds, the
    bytes [read_bytes()] returns; [None] for a subdirectory or any
    other entry that is not a regular file. *)
Record path := Path { name : string; file : option (list byte) }.

Definition is_file (f : path) : bool :=
  match file f with Some _ => true | None => false end.

(** [p <= q] for two paths of one directory. *)
Definition path_le (p q : path) : Prop := String.le (name p) (name q).

Global Instance path_le_dec : RelDecision path_le.
Proof. intros p q. unfold path_le. apply _. Defined.

(** [sorted(d.iterdir())] *)
Definition sorted (listing : list path) : list path :=
  merge_sort path_le listing.

(** The three generated sources under [src/]; [None] while a file does
    not exist. *)
Record generated := Generated {
  web_pages_h : option string;
  web_pages_cpp : option string;
  page_router_cpp : option string;
}.

(** [src/web/build] ([None] when it does not exist, else its entries as
    [iterdir()] yields them) and the generated sources. *)
Record world := World { WEB : option (list path); SRC : generated }.

End Fs.

(** ** generate_pages.py *)

Module GeneratePages.
Import Fs.

Definition nl : string := String "010"%char EmptyString.
Definition dq : string := String "034"%char EmptyString.

Definition MIME : gmap string string :=
  {[ ".html" := "text/html";
     ".css" := "text/css";
     ".js" := "application/javascript" ]}.

Definition symbol {uc : PyStr.Unicode} (name : string) : string :=
  PyStr.replace "-" "_" (PyStr.replace "." "_" (PyStr.upper name)).

Definition is_nogz (filename : string) : bool :=
  PyStr.contains ".nogz." filename.

(** The dict [gen] appends to [pages]. *)
Module Page.
Record t := Make {
  url : string;
  symbol : string;
  data : list byte;
  len : nat;
  mime : string;
  gzip : bool;
}.
End Page.

(** What a run leaves: the lines printed, the generated sources, and
    the status passed to [exit], if the script called it. *)
Record outcome := Outcome {
  stdout : list string;
  src : generated;
  exited : option Z;
}.

(** The URL of line 45. *)
Definition url_of (name : string) : string :=
  if String.eqb name "index.html" then "/"
  else "/" +:+ PyStr.replace ".nogz" "" name.

Section Run.
Context {uc : PyStr.Unicode} {zl : Zlib}.
(** [clock n] is what [int(time.time())] gives at the n-th call of
    [gzip.compress] in the run. *)
Variable clock : nat -> N.

(** The loop of lines 37-64 over the sorted entries [fs]; [pages] is
    the list built so far and [tick] the number of clock readings
    taken so far. *)
Fixpoint gen_loop (fs : list path) (pages : list Page.t) (tick : nat)
  : list Page.t * nat :=
  match fs with
  | [] => (pages, tick)
  | f :: fs' =>
      match file f with
      | None => gen_loop fs' pages tick
      | Some raw =>
          let ext := PyStr.lower (Pathlib.suffix (name f)) in
          match MIME !! ext with
          | None => gen_loop fs' pages tick
          | Some mime_ext =>
              let url := url_of (name f) in
              let gzip_enabled := negb (is_nogz (name f)) in
              let '(data, tick') :=
                if gzip_enabled
                then (Gzip.compress (clock tick) raw 9, S tick)
                else (raw, tick) in
              gen_loop fs'
                (pages ++
                 [ {| Page.url := url;
                      Page.symbol :=
                        symbol (name f)
                        +:+ (if gzip_enabled then "_GZ" else "");
                      Page.data := data;
                      Page.len := length data;
                      Page.mime := mime_ext;
                      Page.gzip := gzip_enabled |} ])
                tick'
          end
      end
  end.

(** The [pages] list after the loop. *)
Definition gen_pages (listing : list path) : list Page.t :=
  fst (gen_loop (sorted listing) [] 0).

End Run.

(** [for p in pages: f.write(body p)] *)
Fixpoint write_each {A} (body : A -> string) (l : list A) : string :=
  match l with
  | [] => ""
  | p :: l' => body p +:+ write_each body l'
  end.

(** Lines 67-76. *)
Definition write_pages_h (pages : list Page.t) : string :=
  "#ifndef WEB_PAGES_H" +:+ nl
  +:+ "#define WEB_PAGES_H" +:+ nl +:+ nl
  +:+ "#include <Arduino.h>" +:+ nl +:+ nl
  +:+ write_each (fun p =>
        "extern const uint8_t " +:+ Page.symbol p +:+ "[];" +:+ nl
        +:+ "extern const size_t " +:+ Page.symbol p +:+ "_LEN;" +:+ nl
        +:+ nl) pages
  +:+ "#endif" +:+ nl.

(** Lines 85-88: [for i, b in enumerate(data)], from index [i] on. *)
Fixpoint write_bytes (i : nat) (data : list byte) : string :=
  match data with
  | [] => ""
  | b :: data' =>
      "0x" +:+ PyStr.format_02x b +:+ ","
      +:+ (if (i mod 12 =? 11)%nat then nl else "")
      +:+ write_bytes (S i) data'
  end.

(** Lines 84-90: the array of one page and its length constant. *)
Definition write_page_cpp (p : Page.t) : string :=
  "const uint8_t " +:+ Page.symbol p +:+ "[] PROGMEM = {" +:+ nl
  +:+ write_bytes 0 (Page.data p)
  +:+ nl +:+ "};" +:+ nl
  +:+ "const size_t " +:+ Page.symbol p +:+ "_LEN = "
  +:+ PyStr.str_of_nat (Page.len p) +:+ ";" +:+ nl +:+ nl.

(** Lines 79-90. *)
Definition write_pages_cpp (pages : list Page.t) : string :=
  "#include <Arduino.h>" +:+ nl
  +:+ "#include " +:+ dq +:+ "web_pages.h" +:+ dq +:+ nl +:+ nl
  +:+ write_each write_page_cpp pages.

(** Lines 100-102: one row of the table. *)
Definition write_page_row (p : Page.t) : string :=
  "  { " +:+ dq +:+ Page.url p +:+ dq +:+ ", " +:+ Page.symbol p +:+ ", "
  +:+ Page.symbol p +:+ "_LEN, " +:+ dq +:+ Page.mime p +:+ dq +:+ ", "
  +:+ PyStr.str_of_bool_lower (Page.gzip p) +:+ " }," +:+ nl.

Fixpoint unlines (ls : list string) : string :=
  match ls with
  | [] => ""
  | l :: ls' => l +:+ nl +:+ unlines ls'
  end.

(** Lines 105-135: the text of the route matcher, the same in every
    run. *)
Definition findPage_source : string :=
  unlines
    [ "const Page *findPage(const char *path)";
      "{";
      "  size_t plen = strlen(path);";
      "";
      "  for (auto &p : pages)";
      "  {";
      "    const char *ppath = p.path;";
      "    size_t flen = strlen(ppath);";
      "";
      "    // 1) Exact match: " +:+ dq +:+ "/foo.js" +:+ dq +:+ " == "
        +:+ dq +:+ "/foo.js" +:+ dq;
      "    if (plen == flen && memcmp(path, ppath, plen) == 0)";
      "      return &p;";
      "";
      "    // 2) Extensionless match: " +:+ dq +:+ "/foo" +:+ dq +:+ " == "
        +:+ dq +:+ "/foo.<ext>" +:+ dq;
      "    // Find '.' in stored path";
      "    const char *dot = strchr(ppath, '.');";
      "    if (!dot)";
      "      continue;";
      "";
      "    size_t baseLen = dot - ppath;";
      "";
      "    if (plen == baseLen && memcmp(path, ppath, baseLen) == 0)";
      "      return &p;";
      "  }";
      "";
      "  return nullptr;";
      "}" ].

(** Lines 93-135. *)
Definition write_router_cpp (pages : list Page.t) : string :=
  "#include <string.h>" +:+ nl
  +:+ "#include " +:+ dq +:+ "page_router.h" +:+ dq +:+ nl
  +:+ "#include " +:+ dq +:+ "web_pages.h" +:+ dq +:+ nl +:+ nl
  +:+ "static const Page pages[] = {" +:+ nl
  +:+ write_each write_page_row pages
  +:+ "};" +:+ nl +:+ nl
  +:+ findPage_source.

Section Script.
Context {uc : PyStr.Unicode} {zl : Zlib}.
Variable clock : nat -> N.

(** [gen()] over the entries of [src/web/build]: the three files are
    opened for writing (and so replaced) and one line is printed. *)
Definition gen (listing : list path) : generated * string :=
  let pages := gen_pages clock listing in
  ({| web_pages_h := Some (write_pages_h pages);
      web_pages_cpp := Some (write_pages_cpp pages);
      page_router_cpp := Some (write_router_cpp pages) |},
   "Generated " +:+ PyStr.str_of_nat (length pages) +:+ " web assets").

(** [not WEB.exists() or not any(WEB.iterdir())] *)
Definition nothing_to_do (w : world) : bool :=
  match WEB w with
  | None => true
  | Some listing => match listing with [] => true | _ :: _ => false end
  end.

(** The script from its first line to its last. *)
Definition script (w : world) : outcome :=
  if nothing_to_do w then
    {| stdout :=
         [ "Warning: No minified files found in src/web/build/";
           "Skipping code generation. Using existing pre-generated files from repository.";
           "To regenerate, ensure minify.py runs first or minified files exist." ];
       src := SRC w;
       exited := Some 0%Z |}
  else
    let '(files, line) := gen (default [] (WEB w)) in
    {| stdout := [line]; src := files; exited := None |}.

End Script.

End GeneratePages.

(** ** page_router.cpp: the emitted route matcher *)

Module PageRouter.

(** Modelled from the spec: [struct Page] is declared in
    [page_router.h], which is not among the sources; its fields are
    the descriptor record [{url, data, length, mime, gzip}] of the
    specification, in the order of the rows [generate_pages.py]
    writes, the first one under the name [findPage] uses for it. *)
Module Page.
Record t := Make {
  path : string;
  data : list byte;
  len : nat;
  mime : string;
  gzip : bool;
}.
End Page.

(** [strlen(s)] *)
Definition strlen (s : string) : nat := String.length s.

(** [memcmp(a, b, n)] on two C strings: the difference at the first of
    the [n] bytes where they differ, 0 when there is none.  The byte
    after the last character is the terminating zero; [findPage] never
    compares beyond it. *)
Fixpoint memcmp (a b : string) (n : nat) : Z :=
  match n with
  | O => 0
  | S n' =>
      match a, b with
      | String x a', String y b' =>
          if Ascii.eqb x y then memcmp a' b' n'
          else Z.of_N (N_of_ascii x) - Z.of_N (N_of_ascii y)
      | String x _, EmptyString => Z.of_N (N_of_ascii x)
      | EmptyString, String y _ => - Z.of_N (N_of_ascii y)
      | EmptyString, EmptyString => 0
      end
  end.

(** [strchr(s, c)] for a non-zero [c]: the offset of the first [c] in
    [s], [None] for the null pointer. *)
Fixpoint strchr (s : string) (c : ascii) : option nat :=
  match s with
  | EmptyString => None
  | String d s' => if Ascii.eqb d c then Some O else S <$> strchr s' c
  end.

(** The [for (auto &p : pages)] of [findPage] with [todo] elements
    left, the next one at index [i].  The result is the index of the
    element whose address is returned ([None] for [nullptr]), and the
    array as the call leaves it. *)
Fixpoint findPage_loop (path : string) (todo i : nat) (pages : list Page.t)
  : option nat * list Page.t :=
  match todo with
  | O => (None, pages)
  | S todo' =>
      match pages !! i with
      | None => (None, pages)
      | Some p =>
          let plen := strlen path in
          let ppath := Page.path p in
          let flen := strlen ppath in
          if (plen =? flen)%nat && (memcmp path ppath plen =? 0)%Z
          then (Some i, pages)
          else
            match strchr ppath "."%char with
            | None => findPage_loop path todo' (S i) pages
            | Some baseLen =>
                if (plen =? baseLen)%nat && (memcmp path ppath baseLen =? 0)%Z
                then (Some i, pages)
                else findPage_loop path todo' (S i) pages
            end
      end
  end.

Definition findPage (path : string) (pages : list Page.t)
  : option nat * list Page.t :=
  findPage_loop path (length pages) 0 pages.

(** The array the rows of [page_router.cpp] initialise: one element a
    page, in the order of the rows. *)
Definition table_of (pages : list GeneratePages.Page.t) : list Page.t :=
  (fun p => {| Page.path := GeneratePages.Page.url p;
               Page.data := GeneratePages.Page.data p;
               Page.len := GeneratePages.Page.len p;
               Page.mime := GeneratePages.Page.mime p;
               Page.gzip := GeneratePages.Page.gzip p |}) <$> pages.

End PageRouter.

(** ** A deflate codec of stored blocks

    The simplest member of the deflate family (what zlib writes at level
    0): the data cut into blocks of at most 65535 bytes, each behind a
    five-byte header.  It stands in for zlib where a concrete codec is
    wanted. *)

Module Stored.

Definition block_max : nat := N.to_nat 65535.

Definition pack_H (n : N) : list byte :=
  [Struct.byte_of_N n; Struct.byte_of_N (n / 256)%N].

(** A stored block: BFINAL with BTYPE 00, LEN, its complement, the
    bytes. *)
Definition block (final : bool) (chunk : list byte) : list byte :=
  [if final then x01 else x00]
  ++ pack_H (N.of_nat (length chunk))
  ++ pack_H (65535 - N.of_nat (length chunk))%N
  ++ chunk.

Fixpoint deflate_go (more : nat) (data : list byte) : list byte :=
  match more with
  | O => block true data
  | S more' =>
      if decide (length data <= block_max) then block true data
      else block false (take block_max data)
           ++ deflate_go more' (drop block_max data)
  end.

Definition deflate (data : list byte) : list byte :=
  deflate_go (length data) data.

Fixpoint inflate_go (more : nat) (d out : list byte) (consumed : nat)
  : inflate_result :=
  match more with
  | O => InflateMore
  | S more' =>
      match d with
      | hdr :: l0 :: l1 :: n0 :: n1 :: d' =>
          let len := default 0%N (Struct.unpack_H [l0; l1]) in
          let nlen := default 0%N (Struct.unpack_H [n0; n1]) in
          if negb (Byte.eqb hdr x00 || Byte.eqb hdr x01) then InflateError
          else if negb (len + nlen =? 65535)%N then InflateError
          else if (length d' <? N.to_nat len)%nat then InflateMore
          else
            let out' := out ++ take (N.to_nat len) d' in
            let consumed' := consumed + 5 + N.to_nat len in
            if Byte.eqb hdr x01 then InflateEof out' consumed'
            else inflate_go more' (drop (N.to_nat len) d') out' consumed'
      | _ => InflateMore
      end
  end.

Definition inflate (d : list byte) : inflate_result :=
  inflate_go (S (length d)) d [] 0.

Definition zlib : Zlib :=
  {| raw_deflate := fun _ data => deflate data;
     raw_inflate := inflate |}.

End Stored.

(** ** Characters of names and of symbols *)

Module Ident.

Definition is_digit (c : ascii) : bool :=
  ((48 <=? N_of_ascii c) && (N_of_ascii c <=? 57))%N.

(** The characters a file name of the web directory is made of:
    letters, digits, period, hyphen, underscore. *)
Definition is_name_char (c : ascii) : bool :=
  PyStr.is_ascii_lower c || PyStr.is_ascii_upper c || is_digit c
  || Ascii.eqb c "."%char || Ascii.eqb c "-"%char || Ascii.eqb c "_"%char.

(** The characters of a C identifier that has no lower-case letter. *)
Definition is_symbol_char (c : ascii) : bool :=
  PyStr.is_ascii_upper c || is_digit c || Ascii.eqb c "_"%char.

Fixpoint all_chars (P : ascii -> bool) (s : string) : bool :=
  match s with
  | EmptyString => true
  | String c s' => P c && all_chars P s'
  end.

End Ident.

(** ** The vocabulary of the statements *)

Module Spec.
Import Fs GeneratePages.

(** The entries the loop gives a descriptor: the regular files whose
    lower-cased suffix is a key of [MIME]. *)
Definition qualifies (f : path) : bool :=
  is_file f &&
  match MIME !! PyStr.lower (Pathlib.suffix (name f)) with
  | Some _ => true
  | None => false
  end.

(** The qualifying entries in the order the loop meets them. *)
Definition sources (listing : list path) : list path :=
  filter qualifies (sorted listing).

(** [made_from t f p]: [p] is the dict the loop body builds for the
    file [f] when the clock reads [t]. *)
Definition made_from {uc : PyStr.Unicode} {zl : Zlib} (t : N) (f : path) (p : Page.t) : Prop :=
  exists raw mime_ext,
    file f = Some raw /\
    MIME !! PyStr.lower (Pathlib.suffix (name f)) = Some mime_ext /\
    let gzip_enabled := negb (is_nogz (name f)) in
    let data := if gzip_enabled then Gzip.compress t raw 9 else raw in
    p = {| Page.url := url_of (name f);
           Page.symbol :=
             symbol (name f) +:+ (if gzip_enabled then "_GZ" else "");
           Page.data := data;
           Page.len := length data;
           Page.mime := mime_ext;
           Page.gzip := gzip_enabled |}.

(** An entry with one of the extensions html, css, js, as written. *)
Definition has_listed_extension (f : path) : bool :=
  is_file f &&
  bool_decide (Pathlib.suffix (name f) ∈ [".html"; ".css"; ".js"]).

(** The opt-out marker of the specification, as its examples write
    it. *)
Definition marker : string := ".nogz".

(** How often [m] occurs in [s], every position counted. *)
Fixpoint occurrences (m s : string) : nat :=
  (if PyStr.startswith m s then 1 else 0)
  + match s with
    | EmptyString => 0
    | String _ s' => occurrences m s'
    end.

(** [s] with the first occurrence of [m] removed (section 4.1, step
    1). *)
Fixpoint remove_first (m s : string) : string :=
  if PyStr.startswith m s then PyStr.slice_from (String.length m) s
  else match s with
       | EmptyString => EmptyString
       | String c s' => String c (remove_first m s')
       end.

(** The names the specification gives a URL (section 4.1, step 1, and
    section 9): the marker appears at most once, and then as a segment
    of its own, a period behind it.  (A name that begins with the
    marker is let in as well.) *)
Definition marker_well_placed (name : string) : bool :=
  match occurrences marker name with
  | 0 => true
  | 1 => PyStr.contains (marker +:+ ".") name
  | _ => false
  end.

(** The value of a hexadecimal digit. *)
Definition hex_value (c : ascii) : option N :=
  let n := N_of_ascii c in
  if ((48 <=? n) && (n <=? 57))%N then Some (n - 48)%N
  else if ((97 <=? n) && (n <=? 102))%N then Some (n - 87)%N
  else None.

(** Reading the elements of an array initialiser back: [0xhh,] after
    [0xhh,], line breaks between them. *)
Fixpoint read_array (s : string) : option (list byte) :=
  match s with
  | EmptyString => Some []
  | String c s1 =>
      if Ascii.eqb c "010"%char then read_array s1
      else
        match s1 with
        | String x (String h (String l (String k s5))) =>
            if Ascii.eqb c "0"%char && Ascii.eqb x "x"%char
               && Ascii.eqb k ","%char
            then
              match hex_value h, hex_value l, read_array s5 with
              | Some hi, Some lo, Some bs =>
                  Some (Struct.byte_of_N (16 * hi + lo)%N :: bs)
              | _, _, _ => None
              end
            else None
        | _ => None
        end
  end.

(** Reading a decimal constant back. *)
Definition read_nat (s : string) : option nat :=
  Nat.of_uint <$> NilEmpty.uint_of_string s.

(** [s] has no period. *)
Definition no_dot (s : string) : Prop :=
  forall i, String.get i s <> Some "."%char.

(** The two ways a descriptor answers a request path: its URL is the
    path, or its URL has a period and is the path up to the first
    one. *)
Definition matches (path : string) (d : PageRouter.Page.t) : Prop :=
  PageRouter.Page.path d = path
  \/ (no_dot path
      /\ exists rest, PageRouter.Page.path d = path +:+ String "."%char rest).

(** *** Reading the emitted table back *)

(** A row of the table as its text gives it: the URL, the names of the
    array and of its length, the MIME type, the flag. *)
Record row := Row {
  row_url : string;
  row_data : string;
  row_len : string;
  row_mime : string;
  row_gzip : bool;
}.

(** [s] behind the prefix [p]. *)
Fixpoint strip_prefix (p s : string) : option string :=
  match p with
  | EmptyString => Some s
  | String a p' =>
      match s with
      | EmptyString => None
      | String b s' => if Ascii.eqb a b then strip_prefix p' s' else None
      end
  end.

(** The text before the first [c], and the text behind it. *)
Fixpoint split_at (c : ascii) (s : string) : option (string * string) :=
  match s with
  | EmptyString => None
  | String d s' =>
      if Ascii.eqb d c then Some (EmptyString, s')
      else match split_at c s' with
           | Some (a, b) => Some (String d a, b)
           | None => None
           end
  end.

Definition read_bool (s : string) : option bool :=
  if String.eqb s "true" then Some true
  else if String.eqb s "false" then Some false
  else None.

(** One row, [{ "url", DATA, LEN, "mime", flag },] and a line break,
    and the text behind it.  The two string literals are read up to
    their closing quote, the two names up to the comma. *)
Definition read_row (s : string) : option (row * string) :=
  match strip_prefix "  { " s with
  | None => None
  | Some s =>
  match strip_prefix dq s with
  | None => None
  | Some s =>
  match split_at "034"%char s with
  | None => None
  | Some (url, s) =>
  match strip_prefix ", " s with
  | None => None
  | Some s =>
  match split_at ","%char s with
  | None => None
  | Some (data, s) =>
  match strip_prefix " " s with
  | None => None
  | Some s =>
  match split_at ","%char s with
  | None => None
  | Some (len, s) =>
  match strip_prefix " " s with
  | None => None
  | Some s =>
  match strip_prefix dq s with
  | None => None
  | Some s =>
  match split_at "034"%char s with
  | None => None
  | Some (mime, s) =>
  match strip_prefix ", " s with
  | None => None
  | Some s =>
  match split_at " "%char s with
  | None => None
  | Some (flag, s) =>
  match strip_prefix "}," s with
  | None => None
  | Some s =>
  match strip_prefix nl s with
  | None => None
  | Some s =>
  match read_bool flag with
  | None => None
  | Some gzip => Some (Row url data len mime gzip, s)
  end end end end end end end end end end end end end end end.

(** Rows up to the closing [};] of the initialiser; [fuel] bounds their
    number. *)
Fixpoint read_rows (fuel : nat) (s : string) : option (list row) :=
  if PyStr.startswith "};" s then Some []
  else match fuel with
       | O => None
       | S fuel' =>
           match read_row s with
           | None => None
           | Some (r, s') =>
               match read_rows fuel' s' with
               | None => None
               | Some rs => Some (r :: rs)
               end
           end
       end.

(** The rows of [page_router.cpp]: what stands between the opening of
    [pages[]] behind the three includes and its closing. *)
Definition read_table (text : string) : option (list row) :=
  match strip_prefix
          ("#include <string.h>" +:+ nl
           +:+ "#include " +:+ dq +:+ "page_router.h" +:+ dq +:+ nl
           +:+ "#include " +:+ dq +:+ "web_pages.h" +:+ dq +:+ nl +:+ nl
           +:+ "static const Page pages[] = {" +:+ nl) text with
  | None => None
  | Some s => read_rows (String.length s) s
  end.

(** The characters that stand for themselves in a C string literal and
    end no name in a list: the printable ASCII characters but the
    double quote, the backslash and the comma. *)
Definition plain_char (c : ascii) : bool :=
  let n := N_of_ascii c in
  ((32 <=? n) && (n <? 127) && negb (n =? 34) && negb (n =? 92)
   && negb (n =? 44))%N.

Definition plain (s : string) : bool := Ident.all_chars plain_char s.

End Spec.

(** ** ui_slave/src/pieces/convert_v8.py *)

Module ConvertV8.

Definition nl : string := GeneratePages.nl.
Definition dq : string := GeneratePages.dq.

(** The hexadecimal digits of [n], the most significant first, [acc]
    behind them; [more] bounds the number of digits. *)
Fixpoint hex_go (more : nat) (n : N) (acc : string) : string :=
  match more with
  | O => acc
  | S more' =>
      let acc' := String (PyStr.hex_digit (n mod 16)) acc in
      if (n / 16 =? 0)%N then acc' else hex_go more' (n / 16) acc'
  end.

(** [f"{n:x}"] for [0 <= n] *)
Definition format_x (n : Z) : string :=
  hex_go (S (N.size_nat (Z.to_N n))) (Z.to_N n) "".

(** [f"{n:02x}"] for [0 <= n]: at least two digits. *)
Definition format_02x (n : Z) : string :=
  let s := format_x n in
  if (String.length s <? 2)%nat then "0" +:+ s else s.

(** [str(n)] for [0 <= n] *)
Definition str_of_Z (n : Z) : string := PyStr.str_of_nat (Z.to_nat n).

(** An image in mode RGBA, as [Image.open(p).convert("RGBA")] hands it
    over: its size and, row after row, its pixels, each of four 8-bit
    channels. *)
Record image := Image {
  size : Z * Z;
  getdata : list (byte * byte * byte * byte);
}.

Definition channel (c : byte) : Z := Z.of_N (Byte.to_N c).

(** Lines 60-63. *)
Definition rgb565 (r g b : Z) : Z :=
  let r5 := Z.land (Z.shiftr r 3) 31 in
  let g6 := Z.land (Z.shiftr g 2) 63 in
  let b5 := Z.land (Z.shiftr b 3) 31 in
  Z.lor (Z.lor (Z.shiftl r5 11) (Z.shiftl g6 5)) b5.

(** Lines 60-66: the three numbers a pixel adds to [row_bytes]. *)
Definition pixel_bytes (px : byte * byte * byte * byte) : list Z :=
  let '(r, g, b, a) := px in
  let v := rgb565 (channel r) (channel g) (channel b) in
  let lo := Z.land v 255 in
  let hi := Z.land (Z.shiftr v 8) 255 in
  [lo; hi; channel a].

(** Lines 69-70: the line of one row. *)
Definition row_line (row_bytes : list Z) : string :=
  "    "
  +:+ String.concat "," ((fun b => "0x" +:+ format_02x b) <$> row_bytes)
  +:+ ",".

(** The loop of lines 58-71 from pixel number [i] on; [None] when
    [(i + 1) % w] divides by zero. *)
Fixpoint rows_loop (w : Z) (i : Z) (pixels : list (byte * byte * byte * byte))
    (lines : list string) (row_bytes : list Z) : option (list string) :=
  match pixels with
  | [] => Some lines
  | px :: pixels' =>
      let row_bytes := row_bytes ++ pixel_bytes px in
      if (w =? 0)%Z then None
      else if ((i + 1) mod w =? 0)%Z
           then rows_loop w (i + 1) pixels' (lines ++ [row_line row_bytes]) []
           else rows_loop w (i + 1) pixels' lines row_bytes
  end.

(** The text [TEMPLATE.format(...)] gives. *)
Definition template (name NAME filename w h data data_size : string)
  : string :=
  GeneratePages.unlines
    [ "/*";
      " * Auto-generated LVGL v8 image: " +:+ name;
      " * Source: " +:+ filename;
      " * Size: " +:+ w +:+ "x" +:+ h +:+ ", True color with alpha";
      " */";
      "#ifdef LV_LVGL_H_INCLUDE_SIMPLE";
      "#include " +:+ dq +:+ "lvgl.h" +:+ dq;
      "#else";
      "#include " +:+ dq +:+ "lvgl/lvgl.h" +:+ dq;
      "#endif";
      "";
      "#ifndef LV_ATTRIBUTE_MEM_ALIGN";
      "#define LV_ATTRIBUTE_MEM_ALIGN";
      "#endif";
      "";
      "#ifndef LV_ATTRIBUTE_" +:+ NAME;
      "#define LV_ATTRIBUTE_" +:+ NAME;
      "#endif";
      "";
      "static const";
      "LV_ATTRIBUTE_MEM_ALIGN LV_ATTRIBUTE_LARGE_CONST LV_ATTRIBUTE_" +:+ NAME;
      "uint8_t " +:+ name +:+ "_map[] = {";
      data;
      "};";
      "";
      "const lv_img_dsc_t " +:+ name +:+ " = {";
      "  .header.always_zero = 0,";
      "  .header.w = " +:+ w +:+ ",";
      "  .header.h = " +:+ h +:+ ",";
      "  .header.cf = LV_IMG_CF_TRUE_COLOR_ALPHA,";
      "  .data_size = " +:+ data_size +:+ ",";
      "  .data = " +:+ name +:+ "_map,";
      "};" ].

(** What one conversion leaves: the text written to [out_path] and the
    line printed. *)
Record converted := Converted {
  data_str : string;
  data_size : Z;
  c_code : string;
  printed : string;
}.

(** [png_to_lvgl_v8(png_path, out_path, name)], the PNG read as [img];
    [basename] is [os.path.basename(png_path)]. *)
Definition png_to_lvgl_v8 {uc : PyStr.Unicode} (img : image)
    (basename out_path name : string)
  : option converted :=
  let '(w, h) := size img in
  match rows_loop w 0 (getdata img) [] [] with
  | None => None
  | Some lines =>
      let data_size := (w * h * 3)%Z in
      let data_str := String.concat nl lines in
      Some {| data_str := data_str;
              data_size := data_size;
              c_code := template name (PyStr.upper name) basename
                          (str_of_Z w) (str_of_Z h) data_str
                          (str_of_Z data_size);
              printed := "  " +:+ name +:+ ": " +:+ str_of_Z w +:+ "x"
                         +:+ str_of_Z h +:+ ", " +:+ str_of_Z data_size
                         +:+ " bytes -> " +:+ out_path |}
  end.

(** What PIL keeps true of an image: it has as many pixels as its
    size says. *)
Definition well_formed (img : image) : Prop :=
  (0 <= fst (size img))%Z /\ (0 <= snd (size img))%Z /\
  Z.of_nat (length (getdata img)) = (fst (size img) * snd (size img))%Z.

(** What [Image.open] returns: PIL refuses a file whose image has no
    pixels, so both sides are positive. *)
Definition opened (img : image) : Prop :=
  well_formed img /\ (0 < fst (size img))%Z /\ (0 < snd (size img))%Z.

(** The byte an array element [0 <= z < 256] stands for. *)
Definition byte_of_Z (z : Z) : byte := Struct.byte_of_N (Z.to_N z).

(** Reading an array text back: [0xhh,] after [0xhh,], blanks and line
    breaks between them. *)
Fixpoint read_hex_text (s : string) : option (list byte) :=
  match s with
  | EmptyString => Some []
  | String c s1 =>
      if Ascii.eqb c "010"%char || Ascii.eqb c " "%char then read_hex_text s1
      else
        match s1 with
        | String x (String h (String l (String k s5))) =>
            if Ascii.eqb c "0"%char && Ascii.eqb x "x"%char
               && Ascii.eqb k ","%char
            then
              match Spec.hex_value h, Spec.hex_value l, read_hex_text s5 with
              | Some hi, Some lo, Some bs =>
                  Some (Struct.byte_of_N (16 * hi + lo)%N :: bs)
              | _, _, _ => None
              end
            else None
        | _ => None
        end
  end.

(** [os.path.join(a, b)] and [os.path.basename(p)] of posixpath *)
Definition endswith_sep (a : string) : bool :=
  match String.get (String.length a - 1) a with
  | Some c => Ascii.eqb c "/"%char
  | None => false
  end.

Definition path_join (a b : string) : string :=
  if PyStr.startswith "/" b then b
  else if (String.length a =? 0)%nat || endswith_sep a then a +:+ b
  else a +:+ "/" +:+ b.

Definition basename (p : string) : string :=
  PyStr.slice_from (Z.to_nat (PyStr.rfind "/"%char p + 1)) p.

Definition piece_names : list string :=
  ["wK"; "wQ"; "wR"; "wB"; "wN"; "wP"; "bK"; "bQ"; "bR"; "bB"; "bN"; "bP"].

(** What is at a path where a PNG is looked for: nothing, a file PIL
    cannot read as an image, or an image. *)
Inductive png_file :=
| Missing
| Unreadable
| Png (img : image).

(** What a run leaves: the files written, in order, each with its
    text; the lines printed; whether it ended in an exception. *)
Record outcome := Outcome {
  written : list (string * string);
  stdout : list string;
  raised : bool;
}.

Section Main.
Context {uc : PyStr.Unicode}.

Variable PIECES_DIR : string.
Variable fs : string -> png_file.

(** [os.path.exists(png)] *)
Definition png_exists (png : string) : bool :=
  match fs png with
  | Missing => false
  | _ => true
  end.

(** The loop of lines 88-95. *)
Fixpoint main_loop (names : list string) (written : list (string * string))
    (stdout : list string) : outcome :=
  match names with
  | [] => Outcome written stdout false
  | name :: names' =>
      let png := path_join PIECES_DIR (name +:+ ".png") in
      let out := path_join PIECES_DIR (name +:+ ".c") in
      match fs png with
      | Missing =>
          main_loop names' written
            (stdout ++ ["  SKIP " +:+ name +:+ ": " +:+ png +:+ " not found"])
      | Unreadable => Outcome written stdout true
      | Png img =>
          match png_to_lvgl_v8 img (basename png) out name with
          | None => Outcome written stdout true
          | Some c =>
              main_loop names' (written ++ [(out, c_code c)])
                (stdout ++ [printed c])
          end
      end
  end.

(** Lines 99-103: the text of [pieces.h]. *)
Definition header_text (names : list string) : string :=
  "#pragma once" +:+ nl
  +:+ "#ifdef LV_LVGL_H_INCLUDE_SIMPLE" +:+ nl
  +:+ "#include " +:+ dq +:+ "lvgl.h" +:+ dq +:+ nl
  +:+ "#else" +:+ nl
  +:+ "#include " +:+ dq +:+ "lvgl/lvgl.h" +:+ dq +:+ nl
  +:+ "#endif" +:+ nl +:+ nl
  +:+ GeneratePages.write_each
        (fun name => "extern const lv_img_dsc_t " +:+ name +:+ ";" +:+ nl)
        names.

(** [main()], over the list [names] of pieces. *)
Definition main_of (names : list string) : outcome :=
  let r :=
    main_loop names []
      ["Converting " +:+ PyStr.str_of_nat (length names)
       +:+ " pieces to LVGL v8 C arrays..."] in
  if raised r then r
  else
    let header := path_join PIECES_DIR "pieces.h" in
    {| written := written r ++ [(header, header_text names)];
       stdout := stdout r ++ ["Header -> " +:+ header; "Done!"];
       raised := false |}.

Definition main : outcome := main_of piece_names.

End Main.

End ConvertV8.

(** ** minify.py *)

Module Minify.
Import Fs.

Definition dq : string := GeneratePages.dq.

(** How [subprocess.run(cmd, shell=True, capture_output=True,
    check=False, timeout=1)] ends: the shell ran the command to its end
    with an exit status, the second passed first, or the shell could not
    be started. *)
Inductive completion :=
| CompletedProcess (returncode : Z)
| TimeoutExpired
| OSError.

(** The programs behind the shell.  [probe cmd] is how the run of the
    command [cmd] of line 15 ends.  [check_call cmd web build] is
    [subprocess.check_call(cmd, shell=True)] with the entries [web] of
    [src/web] and [build] of [src/web/build]: the entries of
    [src/web/build] after exit status 0, [None] for any other status
    ([CalledProcessError]). *)
Class Shell := {
  probe : string -> completion;
  check_call : string -> list path -> list path -> option (list path);
}.

(** What is at [src/web/build]. *)
Inductive node :=
| Absent
| NotDir
| Dir (entries : list path).

(** [src/web]: its entries other than [build] as [iterdir()] yields
    them ([None] when there is no such directory), and [build]. *)
Record tree := Tree { web : option (list path); build : node }.

Inductive exn :=
| FileNotFoundError
| FileExistsError
| CalledProcessError.

(** How the script ends: in an exception, through [exit(code)], or at
    its last line; with the entries of [src/web/build] and the lines
    printed. *)
Inductive outcome :=
| Raise (e : exn)
| Exit (code : Z) (build : list path) (stdout : list string)
| Finish (build : list path) (stdout : list string).

(** Line 9: [DST.mkdir(exist_ok=True)]. *)
Definition mkdir (t : tree) : exn + list path :=
  match web t with
  | None => inl FileNotFoundError
  | Some _ =>
      match build t with
      | Absent => inr []
      | NotDir => inl FileExistsError
      | Dir entries => inr entries
      end
  end.

(** [shutil.copy(f, out)] seen from the entries of [src/web/build]: a
    file of that name is replaced, a directory of that name takes the
    copy inside, else the file is new. *)
Fixpoint copy (name : string) (data : list byte) (entries : list path)
  : list path :=
  match entries with
  | [] => [Path name (Some data)]
  | e :: entries' =>
      if String.eqb (Fs.name e) name
      then (if is_file e then Path name (Some data) else e) :: entries'
      else e :: copy name data entries'
  end.

(** [str(f)] and [str(out)] of lines 44 and 48. *)
Definition src_path (name : string) : string := "src/web/" +:+ name.
Definition dst_path (name : string) : string := "src/web/build/" +:+ name.

(** The commands of lines 51-58, 61 and 64. *)
Definition html_cmd (name : string) : string :=
  "html-minifier-terser " +:+ dq +:+ src_path name +:+ dq +:+ " "
  +:+ "--collapse-whitespace "
  +:+ "--remove-comments "
  +:+ "--minify-css true "
  +:+ "--minify-js true "
  +:+ "-o " +:+ dq +:+ dst_path name +:+ dq.

Definition css_cmd (name : string) : string :=
  "cleancss -O2 " +:+ dq +:+ src_path name +:+ dq
  +:+ " -o " +:+ dq +:+ dst_path name +:+ dq.

Definition js_cmd (name : string) : string :=
  "terser " +:+ dq +:+ src_path name +:+ dq
  +:+ " -c -m -o " +:+ dq +:+ dst_path name +:+ dq.

Section Script.
Context {sh : Shell}.

(** Lines 12-20: any exception gives [False], an exit status none. *)
Definition command_exists (cmd : string) : bool :=
  match probe cmd with
  | CompletedProcess _ => true
  | TimeoutExpired => false
  | OSError => false
  end.

(** The loop of lines 44-67 over the entries still to visit; [None]
    when a command fails. *)
Fixpoint loop (web : list path) (todo : list path) (build : list path)
  : option (list path) :=
  match todo with
  | [] => Some build
  | f :: todo' =>
      match file f with
      | None => loop web todo' build
      | Some data =>
          let suffix := Pathlib.suffix (name f) in
          if String.eqb suffix ".html" then
            match check_call (html_cmd (name f)) web build with
            | None => None
            | Some build' => loop web todo' build'
            end
          else if String.eqb suffix ".css" then
            match check_call (css_cmd (name f)) web build with
            | None => None
            | Some build' => loop web todo' build'
            end
          else if String.eqb suffix ".js" then
            match check_call (js_cmd (name f)) web build with
            | None => None
            | Some build' => loop web todo' build'
            end
          else loop web todo' (copy (name f) data build)
      end
  end.

(** The script from its first line to its last. *)
Definition script (t : tree) : outcome :=
  match mkdir t with
  | inl e => Raise e
  | inr build =>
      let has_html_minifier := command_exists "html-minifier-terser --version" in
      let has_cleancss := command_exists "cleancss --version" in
      let has_terser := command_exists "terser --version" in
      if negb (has_html_minifier && has_cleancss && has_terser) then
        Exit 0 build
          (["Warning: Minifiers not found. Skipping minification.";
            "Using existing pre-generated files from repository."]
           ++ (if negb has_html_minifier
               then ["  - html-minifier-terser: not installed"] else [])
           ++ (if negb has_cleancss
               then ["  - clean-css-cli: not installed"] else [])
           ++ (if negb has_terser
               then ["  - terser: not installed"] else [])
           ++ ["To enable minification, install: npm install -g html-minifier-terser clean-css-cli terser"])
      else
        match loop (default [] (web t)) (default [] (web t)) build with
        | None => Raise CalledProcessError
        | Some build' => Finish build' ["Web assets minified"]
        end
  end.

End Script.

(** The entries of [src/web/build] before the run. *)
Definition entries_of (n : node) : list path :=
  match n with
  | Absent => []
  | NotDir => []
  | Dir entries => entries
  end.

(** [src/web/build] before the run, as [Fs.world] has it: its entries
    when it is a directory. *)
Definition listing_of (n : node) : option (list path) :=
  match n with
  | Absent => None
  | NotDir => None
  | Dir entries => Some entries
  end.

(** The three commands of lines 28-30. *)
Definition version_cmds : list string :=
  ["html-minifier-terser --version"; "cleancss --version";
   "terser --version"].

(** A minifier that ends with status 0 has written its output file, as
    a copy of some bytes would, and nothing else in [src/web/build]. *)
Class MinifierLaws (sh : Shell) : Prop :=
  writes_output : forall name web build build',
    check_call (html_cmd name) web build = Some build'
    \/ check_call (css_cmd name) web build = Some build'
    \/ check_call (js_cmd name) web build = Some build' ->
    exists data, build' = copy name data build.

(** A machine without the three tools: the shell runs each command to
    its end with status 127, command not found. *)
Module NoTools.

Definition shell : Shell :=
  {| probe := fun _ => CompletedProcess 127;
     check_call := fun _ _ _ => None |}.

End NoTools.

(** A machine where the probes time out. *)
Module SlowTools.

Definition shell : Shell :=
  {| probe := fun _ => TimeoutExpired;
     check_call := fun _ _ _ => None |}.

End SlowTools.

(** Three minifiers that write their input out as it is: the poorest
    minifiers there are.  They stand in for the tools where concrete
    ones are wanted. *)
Module Cat.

Fixpoint run (cmd : string) (todo : list path) (build : list path)
  : option (list path) :=
  match todo with
  | [] => None
  | f :: todo' =>
      match file f with
      | Some data =>
          if String.eqb cmd (html_cmd (name f))
             || String.eqb cmd (css_cmd (name f))
             || String.eqb cmd (js_cmd (name f))
          then Some (copy (name f) data build)
          else run cmd todo' build
      | None => run cmd todo' build
      end
  end.

Definition shell : Shell :=
  {| probe := fun _ => CompletedProcess 0;
     check_call := fun cmd web build => run cmd web build |}.

End Cat.

End Minify.

(** ** ui_slave/sim/master_emulator.py: the console commands *)

Module MasterEmulator.

Definition nl : string := GeneratePages.nl.

(** [c.isspace()] for a character below U+0100. *)
Definition is_space (c : ascii) : bool :=
  let n := N_of_ascii c in
  (((9 <=? n) && (n <=? 13)) || ((28 <=? n) && (n <=? 32))
   || (n =? 133) || (n =? 160))%N.

(** [s.lstrip()], [s.rstrip()] and [s.strip()] *)
Fixpoint lstrip (s : string) : string :=
  match s with
  | EmptyString => EmptyString
  | String c s' => if is_space c then lstrip s' else s
  end.

Fixpoint rstrip (s : string) : string :=
  match s with
  | EmptyString => EmptyString
  | String c s' =>
      match rstrip s' with
      | EmptyString => if is_space c then EmptyString else String c EmptyString
      | String d r => String c (String d r)
      end
  end.

Definition strip (s : string) : string := rstrip (lstrip s).

(** What one turn of the loop of [stdin_loop] makes of the line read:
    it sleeps, prints the usage line, or has a payload for the
    clients. *)
Inductive turn :=
| Sleep
| Usage
| Payload (payload : string).

(** Lines 40-53; [read] is [(await reader.readline()).decode()]. *)
Definition command (read : string) : turn :=
  let line := strip read in
  if String.eqb line "" then Sleep
  else if PyStr.startswith "state " line then
    Payload ("STATE|fen=" +:+ PyStr.slice_from (String.length "state ") line
             +:+ nl)
  else if PyStr.startswith "hint " line then
    Payload ("HINT|move=" +:+ PyStr.slice_from (String.length "hint ") line
             +:+ nl)
  else if PyStr.startswith "raw " line then
    Payload (PyStr.slice_from (String.length "raw ") line +:+ nl)
  else Usage.

End MasterEmulator.

(** * Properties *)

Import Fs GeneratePages.

#[local] Arguments String.append : simpl nomatch.

(** ** The model at work *)

Example suffix_examples :
  Pathlib.suffix "app.nogz.js" = ".js" /\ Pathlib.suffix ".js" = ""
  /\ Pathlib.suffix "notes." = "" /\ Pathlib.suffix "README" = "".
Proof. repeat split. Qed.

Example replace_examples :
  PyStr.replace ".nogz" "" "app.nogz.js" = "app.js"
  /\ PyStr.replace ".nogz" "" "a.no.nogzgz.js" = "a.nogz.js"
  /\ PyStr.replace "aa" "b" "aaa" = "ba"
  /\ PyStr.replace "" "-" "abc" = "-a-b-c-".
Proof. repeat split. Qed.

Example symbol_example (uc : PyStr.Unicode) :
  symbol "app-x.nogz.js" = "APP_X_NOGZ_JS".
Proof. reflexivity. Qed.

(** The check value of CRC-32. *)
Example crc32_check :
  Gzip.crc32 (list_byte_of_string "123456789") = 3421780262%N.
Proof. vm_compute. reflexivity. Qed.

(** [gzip.compress(b"", 9)] around stored blocks, the clock at
    1700000000. *)
Example compress_example :
  Gzip.compress (zl := Stored.zlib) 1700000000 [] 9
  = [x1f; x8b; x08; x00; x00; xf1; x53; x65; x02; xff;
     x01; x00; x00; xff; xff;
     x00; x00; x00; x00; x00; x00; x00; x00].
Proof. vm_compute. reflexivity. Qed.

Example sorted_example :
  name <$> sorted [Path "style.css" None; Path "index.html" None;
                   Path "A.HTML" None; Path "app.js" None]
  = ["A.HTML"; "app.js"; "index.html"; "style.css"].
Proof. vm_compute. reflexivity. Qed.

(** ** The loop of [gen] *)

Section GenLoop.
Context {uc : PyStr.Unicode} {zl : Zlib}.
Variable clock : nat -> N.

Lemma qualifies_inv f :
  Spec.qualifies f = true ->
  exists raw m, file f = Some raw
    /\ MIME !! PyStr.lower (Pathlib.suffix (name f)) = Some m.
Proof.
  unfold Spec.qualifies, is_file.
  destruct (file f) as [raw|]; [|done].
  destruct (MIME !! _) as [m|]; [|done]. eauto.
Qed.

Lemma qualifies_false f :
  Spec.qualifies f = false ->
  file f = None \/ MIME !! PyStr.lower (Pathlib.suffix (name f)) = None.
Proof.
  unfold Spec.qualifies, is_file.
  destruct (file f); [|by left].
  destruct (MIME !! _); [done|by right].
Qed.

(** The loop appends, to the pages it is given, one dict for each
    qualifying entry, in the order of the entries, and nothing else. *)
Lemma gen_loop_spec fs : forall pages tick,
  exists pages',
    fst (gen_loop clock fs pages tick) = pages ++ pages'
    /\ Forall2 (fun f p => exists t, Spec.made_from t f p)
         (filter Spec.qualifies fs) pages'.
Proof.
  induction fs as [|f fs IH]; intros pages tick; simpl.
  - exists []. by rewrite app_nil_r.
  - destruct (Spec.qualifies f) eqn:Hq.
    + rewrite filter_cons_True by (by apply Is_true_true).
      destruct (qualifies_inv f Hq) as (raw & m & Hfile & Hm).
      rewrite Hfile, Hm.
      destruct (negb (is_nogz (name f))) eqn:Hgz.
      * destruct (IH (pages ++ [ {|
            Page.url := url_of (name f);
            Page.symbol := symbol (name f) +:+ "_GZ";
            Page.data := Gzip.compress (clock tick) raw 9;
            Page.len := length (Gzip.compress (clock tick) raw 9);
            Page.mime := m; Page.gzip := true |} ]) (S tick))
          as (pages' & -> & HF).
        eexists (_ :: pages'). rewrite <- app_assoc. split; [done|].
        constructor; [|done].
        exists (clock tick), raw, m. by rewrite Hgz.
      * destruct (IH (pages ++ [ {|
            Page.url := url_of (name f);
            Page.symbol := symbol (name f) +:+ "";
            Page.data := raw;
            Page.len := length raw;
            Page.mime := m; Page.gzip := false |} ]) tick)
          as (pages' & -> & HF).
        eexists (_ :: pages'). rewrite <- app_assoc. split; [done|].
        constructor; [|done].
        exists 0%N, raw, m. by rewrite Hgz.
    + rewrite filter_cons_False by (by apply Is_true_false).
      destruct (qualifies_false f Hq) as [-> | Hm]; [apply IH|].
      destruct (file f); [|apply IH]. rewrite Hm. apply IH.
Qed.

Lemma gen_pages_spec listing :
  Forall2 (fun f p => exists t, Spec.made_from t f p)
    (Spec.sources listing) (gen_pages clock listing).
Proof.
  unfold gen_pages, Spec.sources.
  destruct (gen_loop_spec (sorted listing) [] 0) as (pages' & -> & HF).
  done.
Qed.

End GenLoop.

(** ** Strings *)

Lemma string_app_length a b :
  String.length (a +:+ b) = String.length a + String.length b.
Proof. induction a; simpl; congruence. Qed.

Lemma string_app_nil_r a : a +:+ "" = a.
Proof. induction a; simpl; congruence. Qed.

Lemma string_app_assoc a b c : (a +:+ b) +:+ c = a +:+ b +:+ c.
Proof. induction a; simpl; congruence. Qed.

(** ** The route matcher *)

Section FindPage.
Import PageRouter.

Lemma ascii_diff_nonzero x y :
  x <> y -> (Z.of_N (N_of_ascii x) - Z.of_N (N_of_ascii y) <> 0)%Z.
Proof.
  intros Hxy Hz. apply Hxy.
  rewrite <- (ascii_N_embedding x), <- (ascii_N_embedding y).
  f_equal. lia.
Qed.

(** Comparing as many bytes as [a] has: zero exactly when [a] starts
    [b]. *)
Lemma memcmp_prefix a : forall b,
  String.length a <= String.length b ->
  memcmp a b (String.length a) = 0%Z <-> exists rest, b = a +:+ rest.
Proof.
  induction a as [|x a IH]; intros b Hlen; simpl.
  - split; [eauto|done].
  - destruct b as [|y b]; simpl in *; [lia|].
    destruct (Ascii.eqb_spec x y) as [->|Hxy].
    + rewrite IH by lia.
      split; intros [rest Hr]; exists rest; simpl in *. all: congruence.
    + split.
      * intros H. by apply ascii_diff_nonzero in H.
      * intros [rest Hr]. simpl in Hr. congruence.
Qed.

Lemma memcmp_eq a b :
  String.length a = String.length b ->
  memcmp a b (String.length a) = 0%Z <-> a = b.
Proof.
  intros Hlen. rewrite memcmp_prefix by lia. split.
  - intros [rest ->]. rewrite string_app_length in Hlen.
    destruct rest; simpl in *; [|lia]. by rewrite string_app_nil_r.
  - intros ->. exists "". by rewrite string_app_nil_r.
Qed.

Lemma no_dot_cons c s :
  Spec.no_dot (String c s) <-> c <> "."%char /\ Spec.no_dot s.
Proof.
  unfold Spec.no_dot. split.
  - intros H. split.
    + intros ->. by apply (H 0).
    + intros i. apply (H (S i)).
  - intros [Hc Hs] [|i]; simpl; [congruence|apply Hs].
Qed.

Lemma no_dot_nil : Spec.no_dot "".
Proof. by intros [|i]. Qed.

(** [strchr] finds the first period: what precedes it has none. *)
Lemma strchr_Some s : forall n,
  strchr s "."%char = Some n <->
  exists pre post, s = pre +:+ String "."%char post
    /\ String.length pre = n /\ Spec.no_dot pre.
Proof.
  induction s as [|d s IH]; intros n; simpl.
  - split; [done|]. intros (pre & post & H & _). by destruct pre.
  - destruct (Ascii.eqb_spec d "."%char) as [->|Hd].
    + split.
      * intros [= <-]. exists "", s. split; [done|]. split; [done|].
        apply no_dot_nil.
      * intros (pre & post & H & Hl & Hnd).
        destruct pre as [|c pre]; simpl in *; [congruence|].
        injection H as <- _. apply no_dot_cons in Hnd. by destruct Hnd.
    + split.
      * destruct (strchr s "."%char) as [m|] eqn:Hs; [|done].
        intros [= <-]. destruct (proj1 (IH m) eq_refl)
          as (pre & post & -> & Hl & Hnd).
        exists (String d pre), post. simpl. split; [done|].
        split; [by rewrite Hl|]. by apply no_dot_cons.
      * intros (pre & post & H & Hl & Hnd).
        destruct pre as [|c pre]; simpl in *; [congruence|].
        injection H as <- ->. apply no_dot_cons in Hnd.
        destruct Hnd as [_ Hnd].
        rewrite (proj2 (IH (String.length pre))); [by rewrite <- Hl|].
        eauto.
Qed.

Lemma strchr_None s :
  strchr s "."%char = None -> Spec.no_dot s.
Proof.
  induction s as [|d s IH]; simpl; [intros; apply no_dot_nil|].
  destruct (Ascii.eqb_spec d "."%char) as [->|Hd]; [done|].
  destruct (strchr s "."%char); [done|]. intros _.
  apply no_dot_cons. auto.
Qed.

(** The two tests of a turn of the loop, against the two ways of
    matching. *)
Lemma turn_matches path p :
  Spec.matches path p <->
  ((strlen path =? strlen (Page.path p))%nat
   && (memcmp path (Page.path p) (strlen path) =? 0)%Z = true
   \/ exists baseLen,
       strchr (Page.path p) "."%char = Some baseLen
       /\ (strlen path =? baseLen)%nat
          && (memcmp path (Page.path p) baseLen =? 0)%Z = true).
Proof.
  unfold Spec.matches, strlen. split.
  - intros [Heq | (Hnd & rest & Hurl)].
    + left. rewrite Heq, Nat.eqb_refl. simpl.
      apply Z.eqb_eq. by apply memcmp_eq.
    + right. exists (String.length path). split.
      * apply strchr_Some. eauto.
      * rewrite Nat.eqb_refl. simpl. apply Z.eqb_eq.
        apply memcmp_prefix; [|eauto].
        rewrite Hurl, string_app_length. lia.
  - intros [H | (baseLen & Hdot & H)];
      apply andb_true_iff in H as [Hlen Hcmp];
      apply Nat.eqb_eq in Hlen; apply Z.eqb_eq in Hcmp.
    + left. symmetry. by apply memcmp_eq.
    + right. subst baseLen.
      apply strchr_Some in Hdot as (pre & post & Hurl & Hl & Hnd).
      apply memcmp_prefix in Hcmp as [rest Hrest].
      2:{ rewrite Hurl, string_app_length. lia. }
      assert (pre = path) as ->.
      { rewrite Hurl in Hrest. clear -Hl Hrest.
        revert path Hl Hrest.
        induction pre as [|c pre IH]; intros [|d path] Hl Hr;
          simpl in *; try done.
        injection Hr as -> Hr. f_equal. apply IH; [lia|done]. }
      split; [done|]. eauto.
Qed.

(** The loop from index [i] on: the array is left as it was, and the
    index returned is that of the first element from [i] on that
    matches; none is returned when no element from [i] on matches. *)
Lemma findPage_loop_spec path pages : forall todo i,
  todo + i = length pages ->
  snd (findPage_loop path todo i pages) = pages
  /\ match fst (findPage_loop path todo i pages) with
     | Some k =>
         i <= k
         /\ (exists d, pages !! k = Some d /\ Spec.matches path d)
         /\ (forall j d, i <= j < k -> pages !! j = Some d ->
                         ~ Spec.matches path d)
     | None =>
         forall j d, i <= j -> pages !! j = Some d -> ~ Spec.matches path d
     end.
Proof.
  induction todo as [|todo IH]; intros i Hlen; simpl.
  - split; [done|]. intros j d Hj Hd.
    apply lookup_lt_Some in Hd. lia.
  - destruct (pages !! i) as [p|] eqn:Hp.
    2:{ apply lookup_ge_None in Hp. lia. }
    assert (forall r : option nat * list Page.t,
      ~ Spec.matches path p ->
      r = findPage_loop path todo (S i) pages ->
      snd r = pages
      /\ match fst r with
         | Some k =>
             i <= k
             /\ (exists d, pages !! k = Some d /\ Spec.matches path d)
             /\ (forall j d, i <= j < k -> pages !! j = Some d ->
                             ~ Spec.matches path d)
         | None =>
             forall j d, i <= j -> pages !! j = Some d ->
                         ~ Spec.matches path d
         end) as Hnext.
    { intros r Hno ->.
      destruct (IH (S i) ltac:(lia)) as [Hsnd Hfst]. split; [done|].
      destruct (fst (findPage_loop path todo (S i) pages)) as [k|].
      - destruct Hfst as (Hk & Hd & Hfirst). split; [lia|]. split; [done|].
        intros j d Hj Hjd. destruct (decide (j = i)) as [->|].
        + by simplify_eq.
        + apply (Hfirst j d); [lia|done].
      - intros j d Hj Hjd. destruct (decide (j = i)) as [->|].
        + by simplify_eq.
        + apply (Hfst j d); [lia|done]. }
    pose proof (turn_matches path p) as Hturn.
    destruct ((strlen path =? strlen (Page.path p))%nat
              && (memcmp path (Page.path p) (strlen path) =? 0)%Z) eqn:H1.
    { simpl. split; [done|]. split; [done|]. split.
      - exists p. split; [done|]. apply Hturn. by left.
      - intros j d Hj. lia. }
    destruct (strchr (Page.path p) "."%char) as [baseLen|] eqn:Hdot.
    2:{ apply Hnext; [|done]. rewrite Hturn.
        intros [?|(? & ? & _)]; done. }
    destruct ((strlen path =? baseLen)%nat
              && (memcmp path (Page.path p) baseLen =? 0)%Z) eqn:H2.
    { simpl. split; [done|]. split; [done|]. split.
      - exists p. split; [done|]. apply Hturn. right. eauto.
      - intros j d Hj. lia. }
    apply Hnext; [|done]. rewrite Hturn.
    intros [?|(b & Hb & Hc)]; [done|]. simplify_eq. congruence.
Qed.

End FindPage.

(** ** Which entries get a descriptor, and in which order *)

Lemma MIME_lookup ext m :
  MIME !! ext = Some m <->
  (ext = ".html" /\ m = "text/html")
  \/ (ext = ".css" /\ m = "text/css")
  \/ (ext = ".js" /\ m = "application/javascript").
Proof.
  unfold MIME.
  destruct (decide (ext = ".html")) as [->|H1].
  { rewrite lookup_insert_eq. split; [intros [= <-]; auto|].
    intros [[_ ->] | [[? _] | [? _]]]; done. }
  rewrite lookup_insert_ne by done.
  destruct (decide (ext = ".css")) as [->|H2].
  { rewrite lookup_insert_eq. split; [intros [= <-]; auto|].
    intros [[? _] | [[_ ->] | [? _]]]; done. }
  rewrite lookup_insert_ne by done.
  destruct (decide (ext = ".js")) as [->|H3].
  { rewrite lookup_singleton_eq. split; [intros [= <-]; auto|].
    intros [[? _] | [[? _] | [_ ->]]]; done. }
  rewrite lookup_singleton_ne by done.
  split; [done|]. intros [[? _] | [[? _] | [? _]]]; done.
Qed.

Lemma qualifies_iff f :
  Spec.qualifies f = true <->
  is_file f = true
  /\ PyStr.lower (Pathlib.suffix (name f)) ∈ [".html"; ".css"; ".js"].
Proof.
  unfold Spec.qualifies. rewrite andb_true_iff.
  apply and_iff_compat_l.
  destruct (MIME !! _) as [m|] eqn:Hm.
  - apply MIME_lookup in Hm. split; [intros _|done].
    destruct Hm as [[-> _] | [[-> _] | [-> _]]]; set_solver.
  - split; [done|]. intros Hin.
    assert (exists m, MIME !! PyStr.lower (Pathlib.suffix (name f)) = Some m)
      as [m Hm']; [|congruence].
    repeat (apply elem_of_cons in Hin as [-> | Hin]);
      [eexists; apply MIME_lookup; eauto..|].
    by apply elem_of_nil in Hin.
Qed.

Global Instance path_le_trans : Transitive path_le.
Proof. intros p q r. unfold path_le. apply transitivity. Qed.

Global Instance path_le_total : Total path_le.
Proof. intros p q. unfold path_le. apply total, _. Qed.

Lemma sorted_StronglySorted listing : StronglySorted path_le (sorted listing).
Proof. apply StronglySorted_merge_sort; apply _. Qed.

Lemma sorted_Permutation listing : sorted listing ≡ₚ listing.
Proof. apply merge_sort_Permutation. Qed.

Lemma StronglySorted_filter {A} (R : relation A) (P : A -> Prop)
    `{forall x, Decision (P x)} l :
  StronglySorted R l -> StronglySorted R (filter P l).
Proof.
  induction 1 as [|x l Hl IH Hx]; [constructor|].
  rewrite filter_cons. case_decide; [|done].
  constructor; [done|]. rewrite Forall_forall in Hx |- *.
  intros y [_ Hy]%list_elem_of_filter. auto.
Qed.

Lemma sources_Permutation listing :
  Spec.sources listing ≡ₚ filter Spec.qualifies listing.
Proof. unfold Spec.sources. by rewrite sorted_Permutation. Qed.

Lemma sources_StronglySorted listing :
  StronglySorted path_le (Spec.sources listing).
Proof. apply StronglySorted_filter, sorted_StronglySorted. Qed.

(** Entries of one directory have different names; then their ascending
    order is one order only, however [iterdir()] lists them. *)
Lemma sorted_listing_order listing listing' :
  NoDup (name <$> listing) -> listing ≡ₚ listing' ->
  sorted listing = sorted listing'.
Proof.
  intros Hnd Hperm.
  apply (StronglySorted_unique_strong path_le);
    [|apply sorted_StronglySorted..|by rewrite !sorted_Permutation].
  intros p q Hp Hq Hpq Hqp.
  rewrite sorted_Permutation in Hp. rewrite sorted_Permutation, <- Hperm in Hq.
  assert (name p = name q) as Hname by (by apply (anti_symm String.le)).
  clear -Hnd Hp Hq Hname.
  induction listing as [|x l IH]; [by apply elem_of_nil in Hp|].
  apply NoDup_cons in Hnd as [Hx Hnd].
  apply elem_of_cons in Hp as [->|Hp]; apply elem_of_cons in Hq as [->|Hq];
    [done| | |by apply IH].
  - destruct Hx. rewrite Hname. by apply list_elem_of_fmap_2.
  - destruct Hx. rewrite <- Hname. by apply list_elem_of_fmap_2.
Qed.


(** C8.  When [src/web/build] is absent or empty the script generates
    nothing: the three generated sources are what they were, three lines
    of warning are printed, and the script ends through [exit(0)]. *)
Theorem skip_when_nothing_to_do (uc : PyStr.Unicode) (zl : Zlib)
    (clock : nat -> N) (w : world) :
  WEB w = None \/ WEB w = Some [] ->
  src (script clock w) = SRC w
  /\ exited (script clock w) = Some 0%Z
  /\ stdout (script clock w)
     = [ "Warning: No minified files found in src/web/build/";
         "Skipping code generation. Using existing pre-generated files from repository.";
         "To regenerate, ensure minify.py runs first or minified files exist." ].
Proof.
  intros Hweb. unfold script, nothing_to_do.
  destruct Hweb as [-> | ->]; done.
Qed.

Lemma skip_when_nothing_to_do_witness :
  let w := World (Some [])
             (Generated (Some "old h") (Some "old cpp") (Some "old router")) in
  src (script (uc := PyStr.caseless) (zl := Stored.zlib)
      (fun _ => 0%N) w) = SRC w
  /\ exited (script (uc := PyStr.caseless) (zl := Stored.zlib)
      (fun _ => 0%N) w) = Some 0%Z
  /\ stdout (script (uc := PyStr.caseless) (zl := Stored.zlib) (fun _ => 0%N) w)
     = [ "Warning: No minified files found in src/web/build/";
         "Skipping code generation. Using existing pre-generated files from repository.";
         "To regenerate, ensure minify.py runs first or minified files exist." ].
Proof.
  apply (skip_when_nothing_to_do PyStr.caseless Stored.zlib). right.
  reflexivity.
Defined.

(** C2.  For every request path and every table, [findPage] returns the
    first element, in the order of the table, whose URL is the path or
    has a period and is the path up to its first period: index [i] is
    returned exactly when element [i] matches and no element before it
    does.  In particular, with the descriptors of [/foo.css] and
    [/foo.js] in this order, [findPage("/foo")] returns the first, and
    so it does on the table generated from a directory that holds
    [foo.js] and [foo.css]. *)
Theorem findPage_first_match :
  (forall path pages i,
     fst (PageRouter.findPage path pages) = Some i <->
     exists d, pages !! i = Some d /\ Spec.matches path d
       /\ forall j d', j < i -> pages !! j = Some d' ->
                       ~ Spec.matches path d')
  /\ (forall da la ma ga db lb mb gb,
        fst (PageRouter.findPage "/foo"
               [PageRouter.Page.Make "/foo.css" da la ma ga;
                PageRouter.Page.Make "/foo.js" db lb mb gb]) = Some 0)
  /\ (forall (uc : PyStr.Unicode) (zl : Zlib) clock js css,
        let table :=
          PageRouter.table_of
            (gen_pages clock [Path "foo.js" (Some js);
                              Path "foo.css" (Some css)]) in
        fst (PageRouter.findPage "/foo" table) = Some 0
        /\ PageRouter.Page.path <$> table !! 0 = Some "/foo.css").
Proof.
  split; [|split].
  - intros path pages i. unfold PageRouter.findPage.
    destruct (findPage_loop_spec path pages (length pages) 0 ltac:(lia))
      as [_ Hfst].
    destruct (fst (PageRouter.findPage_loop path (length pages) 0 pages))
      as [k|].
    + destruct Hfst as (_ & (d & Hd & Hm) & Hfirst). split.
      * intros [= <-]. exists d. split; [done|]. split; [done|].
        intros j d' Hj. apply Hfirst. lia.
      * intros (d' & Hd' & Hm' & Hfirst'). f_equal.
        destruct (Nat.lt_trichotomy k i) as [Hlt | [-> | Hgt]]; [|done|].
        -- destruct (Hfirst' k d Hlt Hd Hm).
        -- destruct (Hfirst i d' ltac:(lia) Hd' Hm').
    + split; [done|]. intros (d & Hd & Hm & _).
      destruct (Hfst i d ltac:(lia) Hd Hm).
  - reflexivity.
  - intros uc zl clock js css. split; reflexivity.
Qed.

(** C5.  For a request path that matches no element of the table,
    neither as its URL nor as its URL up to the first period, [findPage]
    returns the null pointer; it does so as a plain result (there is no
    error to raise in it) and leaves the table as it was. *)
Theorem findPage_miss path pages :
  (forall d, d ∈ pages -> ~ Spec.matches path d) ->
  PageRouter.findPage path pages = (None, pages).
Proof.
  intros Hno. unfold PageRouter.findPage.
  destruct (findPage_loop_spec path pages (length pages) 0 ltac:(lia))
    as [Hsnd Hfst].
  destruct (PageRouter.findPage_loop path (length pages) 0 pages)
    as [r pages'] eqn:Hr.
  simpl in *. subst pages'. f_equal.
  destruct r as [k|]; [|done].
  destruct Hfst as (_ & (d & Hd & Hm) & _).
  destruct (Hno d); [|done]. by eapply list_elem_of_lookup_2.
Qed.

Lemma findPage_miss_witness :
  PageRouter.findPage "/missing"
    [PageRouter.Page.Make "/" [x3c] 1 "text/html" false;
     PageRouter.Page.Make "/style.css" [x7b; x7d] 2 "text/css" false]
  = (None,
     [PageRouter.Page.Make "/" [x3c] 1 "text/html" false;
      PageRouter.Page.Make "/style.css" [x7b; x7d] 2 "text/css" false]).
Proof.
  apply findPage_miss.
  intros d Hd [Heq | (_ & rest & Heq)];
    repeat (apply elem_of_cons in Hd as [-> | Hd]);
    try (by apply elem_of_nil in Hd); simpl in Heq; discriminate.
Defined.

(** What the pages of a directory owe to its files, read off
    [gen_pages_spec] field by field. *)
Lemma gen_pages_fields (uc : PyStr.Unicode) (zl : Zlib)
    (clock : nat -> N) (listing : list path) :
  Forall2 (fun f p =>
      Page.url p = url_of (name f)
      /\ Page.gzip p = negb (is_nogz (name f))
      /\ MIME !! PyStr.lower (Pathlib.suffix (name f)) = Some (Page.mime p)
      /\ Page.len p = length (Page.data p)
      /\ exists raw, file f = Some raw
         /\ (is_nogz (name f) = true -> Page.data p = raw)
         /\ (is_nogz (name f) = false ->
             exists t, Page.data p = Gzip.compress t raw 9))
    (Spec.sources listing) (gen_pages clock listing).
Proof.
  eapply Forall2_impl; [apply gen_pages_spec|].
  intros f p (t & raw & m & Hfile & Hm & ->). simpl.
  repeat split; [done..|]. exists raw. split; [done|].
  split; intros ->; simpl; eauto.
Qed.

(** A directory of one qualifying file. *)
Lemma sources_singleton f :
  Spec.qualifies f = true -> Spec.sources [f] = [f].
Proof.
  intros Hq. unfold Spec.sources. change (sorted [f]) with [f].
  by rewrite filter_cons_True by (by apply Is_true_true).
Qed.

(** C7 (as amended).  The extension is compared in lower case: an entry
    gets a descriptor exactly when it is a regular file whose
    lower-cased suffix is [.html], [.css] or [.js]; there are as many
    pages as such entries, and the pages are, one for one, made from
    them (each entry once), with the MIME type of its lower-cased
    suffix; every other entry is passed over, and the run ends without
    an error status. *)
Theorem descriptor_per_asset (uc : PyStr.Unicode) (zl : Zlib) (clock : nat -> N)
    (listing : list path) :
  (forall f, Spec.qualifies f = true <->
     is_file f = true
     /\ PyStr.lower (Pathlib.suffix (name f)) ∈ [".html"; ".css"; ".js"])
  /\ Spec.sources listing ≡ₚ filter Spec.qualifies listing
  /\ length (gen_pages clock listing)
     = length (filter Spec.qualifies listing)
  /\ Forall2 (fun f p =>
         let ext := PyStr.lower (Pathlib.suffix (name f)) in
         (ext = ".html" /\ Page.mime p = "text/html")
         \/ (ext = ".css" /\ Page.mime p = "text/css")
         \/ (ext = ".js" /\ Page.mime p = "application/javascript"))
       (Spec.sources listing) (gen_pages clock listing)
  /\ (forall generated,
        let run := script clock (World (Some listing) generated) in
        exited run = None \/ exited run = Some 0%Z).
Proof.
  split; [apply qualifies_iff|].
  split; [apply sources_Permutation|]. split; [|split].
  - rewrite <- (Forall2_length _ _ _ (gen_pages_fields uc zl clock listing)).
    by rewrite sources_Permutation.
  - eapply Forall2_impl; [apply gen_pages_fields|].
    intros f p (_ & _ & Hm & _). by apply MIME_lookup.
  - intros generated. unfold script. simpl.
    destruct listing; simpl; auto.
Qed.

(** C7 as stated fails: a file [A.HTML], whose extension is none of
    html, css, js as written, gets a descriptor. *)
Lemma uppercase_extension_counterexample :
  ~ (exists uc : PyStr.Unicode,
       forall (zl : Zlib) (clock : nat -> N) (listing : list path),
         length (gen_pages clock listing)
         = length (filter Spec.has_listed_extension listing)).
Proof.
  intros [uc H].
  specialize (H Stored.zlib (fun _ => 0%N) [Path "A.HTML" (Some [])]).
  vm_compute in H. discriminate.
Qed.

(** ** Taking [.nogz] out of a name *)

Lemma startswith_length m : forall s,
  PyStr.startswith m s = true -> String.length m <= String.length s.
Proof.
  unfold PyStr.startswith.
  induction m as [|a m IH]; intros [|b s] H; simpl in *; try done; try lia.
  destruct (ascii_dec a b); [|done]. apply IH in H. lia.
Qed.

Lemma prefix_cons a m b s :
  String.prefix (String a m) (String b s)
  = if ascii_dec a b then String.prefix m s else false.
Proof. reflexivity. Qed.

Lemma prefix_nil_r a m : String.prefix (String a m) "" = false.
Proof. reflexivity. Qed.

Lemma prefix_nil_l s : String.prefix "" s = true.
Proof. by destruct s. Qed.

Lemma startswith_app_self m b : PyStr.startswith m (m +:+ b) = true.
Proof.
  unfold PyStr.startswith. induction m as [|c m IH]; [apply prefix_nil_l|].
  change (String c m +:+ b) with (String c (m +:+ b)).
  rewrite prefix_cons. by destruct (ascii_dec c c).
Qed.

(** An occurrence of [.nogz] that starts in [a] lies within [a]: it
    cannot run into the [.nogz] that follows. *)
Lemma startswith_nogz_app c a b :
  PyStr.startswith ".nogz" (String c a +:+ ".nogz" +:+ b)
  = PyStr.startswith ".nogz" (String c a).
Proof.
  unfold PyStr.startswith.
  destruct a as [|c1 [|c2 [|c3 [|c4 a]]]]; cbn [String.append];
    repeat (rewrite ?prefix_cons, ?prefix_nil_r, ?prefix_nil_l;
            try match goal with
            | |- context [ascii_dec ?x ?y] =>
                destruct (ascii_dec x y) as [E|E];
                [try discriminate E; subst|]
            end; try done).
Qed.

Lemma replace_go_nogz_app b : forall a k,
  k <= String.length a ->
  PyStr.replace_go ".nogz" "" k (a +:+ ".nogz" +:+ b)
  = PyStr.replace_go ".nogz" "" k a +:+ PyStr.replace_go ".nogz" "" 0 b.
Proof.
  induction a as [|c a IH]; intros k Hk.
  - simpl in Hk. replace k with 0 by lia. by destruct b.
  - destruct k as [|k].
    + change (PyStr.replace_go ".nogz" "" 0 (String c a +:+ ".nogz" +:+ b))
        with (if PyStr.startswith ".nogz" (String c a +:+ ".nogz" +:+ b)
              then "" +:+ PyStr.replace_go ".nogz" "" 4 (a +:+ ".nogz" +:+ b)
              else String c
                     (PyStr.replace_go ".nogz" "" 0 (a +:+ ".nogz" +:+ b))).
      change (PyStr.replace_go ".nogz" "" 0 (String c a))
        with (if PyStr.startswith ".nogz" (String c a)
              then "" +:+ PyStr.replace_go ".nogz" "" 4 a
              else String c (PyStr.replace_go ".nogz" "" 0 a)).
      rewrite startswith_nogz_app.
      destruct (PyStr.startswith ".nogz" (String c a)) eqn:Hs.
      * apply startswith_length in Hs. simpl in Hs.
        simpl. apply IH. lia.
      * simpl. f_equal. apply IH. lia.
    + simpl in *. apply IH. lia.
Qed.

(** [replace(".nogz", "")] takes out every occurrence: a name without
    one is left as it is, and at an occurrence the result is what is
    made of the part before it followed by what is made of the part
    after it. *)
Lemma replace_nogz_absent s :
  PyStr.contains ".nogz" s = false -> PyStr.replace ".nogz" "" s = s.
Proof.
  unfold PyStr.replace.
  induction s as [|c s IH]; intros H; [done|].
  change (PyStr.startswith ".nogz" (String c s) || PyStr.contains ".nogz" s
          = false) in H.
  apply orb_false_iff in H as [Hs Hc].
  change (PyStr.replace_go ".nogz" "" 0 (String c s))
    with (if PyStr.startswith ".nogz" (String c s)
          then "" +:+ PyStr.replace_go ".nogz" "" 4 s
          else String c (PyStr.replace_go ".nogz" "" 0 s)).
  rewrite Hs. f_equal. by apply IH.
Qed.

Lemma replace_nogz_app a b :
  PyStr.replace ".nogz" "" (a +:+ ".nogz" +:+ b)
  = PyStr.replace ".nogz" "" a +:+ PyStr.replace ".nogz" "" b.
Proof. apply replace_go_nogz_app. lia. Qed.

Lemma startswith_app m : forall s,
  PyStr.startswith m s = true -> exists b, s = m +:+ b.
Proof.
  unfold PyStr.startswith.
  induction m as [|a m IH]; intros s H; [by exists s|].
  destruct s as [|c s]; [done|]. rewrite prefix_cons in H.
  destruct (ascii_dec a c) as [->|]; [|done].
  destruct (IH s H) as [b ->]. by exists b.
Qed.

Lemma contains_app m s :
  PyStr.contains m s = true -> exists a b, s = a +:+ m +:+ b.
Proof.
  induction s as [|c s IH]; intros H.
  - change (PyStr.startswith m "" || false = true) in H.
    apply orb_true_iff in H as [H|H]; [|done].
    apply startswith_app in H as [b Hb]. by exists "", b.
  - change (PyStr.startswith m (String c s) || PyStr.contains m s = true) in H.
    apply orb_true_iff in H as [H|H].
    + apply startswith_app in H as [b Hb]. by exists "", b.
    + destruct (IH H) as (a & b & ->). by exists (String c a), b.
Qed.

Lemma replace_go_length old s : forall k,
  String.length (PyStr.replace_go old "" k s) <= String.length s.
Proof.
  induction s as [|c s IH]; intros k; [done|].
  destruct k as [|k]; cbn [PyStr.replace_go String.length].
  - destruct (PyStr.startswith old (String c s));
      cbn [String.append String.length].
    + specialize (IH (String.length old - 1)). lia.
    + specialize (IH 0). lia.
  - specialize (IH k). lia.
Qed.

(** A name that contains [.nogz] comes out shorter. *)
Lemma replace_nogz_present s :
  PyStr.contains ".nogz" s = true -> PyStr.replace ".nogz" "" s <> s.
Proof.
  intros (a & b & ->)%contains_app Heq.
  apply (f_equal String.length) in Heq.
  rewrite replace_nogz_app, !string_app_length in Heq.
  pose proof (replace_go_length ".nogz" a 0).
  pose proof (replace_go_length ".nogz" b 0).
  unfold PyStr.replace in Heq. simpl in *. lia.
Qed.

(** ** The marker where the specification defines it *)

Lemma contains_cons m c s :
  PyStr.contains m (String c s)
  = PyStr.startswith m (String c s) || PyStr.contains m s.
Proof. reflexivity. Qed.

Lemma contains_mid m b : forall a, PyStr.contains m (a +:+ m +:+ b) = true.
Proof.
  induction a as [|c a IH].
  - change ("" +:+ m +:+ b) with (m +:+ b).
    destruct (m +:+ b) as [|x r] eqn:E.
    + destruct m; [done|discriminate E].
    + rewrite contains_cons, <- E, startswith_app_self. done.
  - change (String c a +:+ m +:+ b) with (String c (a +:+ m +:+ b)).
    rewrite contains_cons, IH. apply orb_true_r.
Qed.

(** Where a longer string occurs, its beginning occurs. *)
Lemma contains_longer m x s :
  PyStr.contains (m +:+ x) s = true -> PyStr.contains m s = true.
Proof.
  intros (a & b & ->)%contains_app.
  rewrite (string_app_assoc m x b). apply contains_mid.
Qed.

Lemma occurrences_0 m s :
  Spec.occurrences m s = 0 <-> PyStr.contains m s = false.
Proof.
  induction s as [|c s IH].
  - cbn [Spec.occurrences PyStr.contains].
    destruct (PyStr.startswith m ""); cbn; split; (done || lia).
  - rewrite contains_cons. cbn [Spec.occurrences].
    destruct (PyStr.startswith m (String c s)); cbn [orb].
    + split; [lia|done].
    + rewrite <- IH. split; lia.
Qed.

Lemma occurrences_slice m k : forall s,
  Spec.occurrences m (PyStr.slice_from k s) <= Spec.occurrences m s.
Proof.
  induction k as [|k IH]; intros s; [done|].
  destruct s as [|c s]; [done|].
  cbn [PyStr.slice_from Spec.occurrences]. specialize (IH s). lia.
Qed.

Lemma replace_go_skip old k : forall s,
  PyStr.replace_go old "" k s
  = PyStr.replace_go old "" 0 (PyStr.slice_from k s).
Proof.
  induction k as [|k IH]; intros s; [done|].
  destruct s as [|c s]; [done|]. cbn [PyStr.replace_go PyStr.slice_from].
  apply IH.
Qed.

(** Where the marker occurs at most once, taking every occurrence out
    (as [replace] does) is taking the first one out. *)
Lemma replace_single s :
  Spec.occurrences ".nogz" s <= 1 ->
  PyStr.replace ".nogz" "" s = Spec.remove_first ".nogz" s.
Proof.
  unfold PyStr.replace.
  induction s as [|c s IH]; intros Hocc; [done|].
  change (PyStr.replace_go ".nogz" "" 0 (String c s))
    with (if PyStr.startswith ".nogz" (String c s)
          then "" +:+ PyStr.replace_go ".nogz" "" 4 s
          else String c (PyStr.replace_go ".nogz" "" 0 s)).
  change (Spec.remove_first ".nogz" (String c s))
    with (if PyStr.startswith ".nogz" (String c s)
          then PyStr.slice_from 4 s
          else String c (Spec.remove_first ".nogz" s)).
  change (Spec.occurrences ".nogz" (String c s))
    with ((if PyStr.startswith ".nogz" (String c s) then 1 else 0)
          + Spec.occurrences ".nogz" s) in Hocc.
  destruct (PyStr.startswith ".nogz" (String c s)).
  - change ("" +:+ ?x) with x. rewrite replace_go_skip.
    apply replace_nogz_absent, occurrences_0.
    pose proof (occurrences_slice ".nogz" 4 s). lia.
  - f_equal. apply IH. lia.
Qed.

(** C3.  On the names the specification gives a URL (the marker [.nogz]
    at most once, a period behind it), [index.html] has the URL [/],
    every other file has [/] and its name with the marker removed, and
    the gzip flag is false exactly when the name carries the marker.
    The four names of the specification are such names: [index.html] is
    served at [/], [style.css] at [/style.css], [app.nogz.js] at
    [/app.js] uncompressed, and [app.js] at [/app.js] compressed. *)
Theorem url_and_gzip_flag (uc : PyStr.Unicode) (zl : Zlib) (clock : nat -> N)
    (listing : list path) :
  Forall2 (fun f p =>
      Spec.marker_well_placed (name f) = true ->
      Page.url p
      = (if String.eqb (name f) "index.html" then "/"
         else "/" +:+ Spec.remove_first Spec.marker (name f))
      /\ (Page.gzip p = false <-> PyStr.contains Spec.marker (name f) = true))
    (Spec.sources listing) (gen_pages clock listing)
  /\ Forall (fun n => Spec.marker_well_placed n = true)
       ["index.html"; "style.css"; "app.nogz.js"; "app.js"]
  /\ (forall raw,
        (fun p => (Page.url p, Page.gzip p))
          <$> gen_pages clock [Path "index.html" (Some raw)] = [("/", true)])
  /\ (forall raw,
        (fun p => (Page.url p, Page.gzip p))
          <$> gen_pages clock [Path "style.css" (Some raw)]
        = [("/style.css", true)])
  /\ (forall raw,
        (fun p => (Page.url p, Page.gzip p, Page.data p))
          <$> gen_pages clock [Path "app.nogz.js" (Some raw)]
        = [("/app.js", false, raw)])
  /\ (forall raw,
        (fun p => (Page.url p, Page.gzip p))
          <$> gen_pages clock [Path "app.js" (Some raw)]
        = [("/app.js", true)]).
Proof.
  split; [|split; [repeat constructor|repeat split; reflexivity]].
  eapply Forall2_impl; [apply gen_pages_fields|].
  intros f p (Hurl & Hgz & _) Hdom.
  unfold Spec.marker_well_placed, Spec.marker in *.
  rewrite Hurl, Hgz. unfold url_of, is_nogz.
  destruct (Spec.occurrences ".nogz" (name f)) as [|[|n]] eqn:Hocc;
    [| |done].
  - rewrite replace_single by lia. split; [done|].
    assert (PyStr.contains ".nogz" (name f) = false) as Hno
      by (by apply occurrences_0).
    rewrite Hno.
    destruct (PyStr.contains ".nogz." (name f)) eqn:Hin; [|done].
    apply (contains_longer ".nogz" ".") in Hin. congruence.
  - rewrite replace_single by lia. split; [done|].
    change (".nogz" +:+ ".") with ".nogz." in Hdom. rewrite Hdom.
    destruct (PyStr.contains ".nogz" (name f)) eqn:Hno; [done|].
    apply occurrences_0 in Hno. lia.
Qed.

(** C9 (as amended).  The two uses of the marker read different
    strings: the gzip flag is false exactly when the name contains
    [.nogz.], while the URL of a file other than [index.html] is [/]
    and the name with every [.nogz] taken out, a period after it or
    not.  So a file whose name contains [.nogz] and nowhere [.nogz.] is
    compressed and still loses [.nogz] in its URL, as [a.nogzip.js],
    served compressed at [/aip.js]. *)
Theorem marker_strings_differ (uc : PyStr.Unicode) (zl : Zlib)
    (clock : nat -> N)
    (listing : list path) :
  Forall2 (fun f p =>
      (Page.gzip p = false <-> PyStr.contains ".nogz." (name f) = true)
      /\ (name f <> "index.html" ->
          Page.url p = "/" +:+ PyStr.replace ".nogz" "" (name f))
      /\ (PyStr.contains ".nogz" (name f) = true ->
          PyStr.contains ".nogz." (name f) = false ->
          Page.gzip p = true
          /\ Page.url p = "/" +:+ PyStr.replace ".nogz" "" (name f)
          /\ Page.url p <> "/" +:+ name f))
    (Spec.sources listing) (gen_pages clock listing)
  /\ (forall s, PyStr.contains ".nogz" s = false ->
                PyStr.replace ".nogz" "" s = s)
  /\ (forall a b,
        PyStr.replace ".nogz" "" (a +:+ ".nogz" +:+ b)
        = PyStr.replace ".nogz" "" a +:+ PyStr.replace ".nogz" "" b)
  /\ (forall raw,
        (fun p => (Page.url p, Page.gzip p))
          <$> gen_pages clock [Path "a.nogzip.js" (Some raw)]
        = [("/aip.js", true)]).
Proof.
  split; [|split; [apply replace_nogz_absent|
           split; [apply replace_nogz_app|reflexivity]]].
  eapply Forall2_impl; [apply gen_pages_fields|].
  intros f p (Hurl & Hgz & _).
  assert (name f <> "index.html" ->
          Page.url p = "/" +:+ PyStr.replace ".nogz" "" (name f)) as Hu.
  { intros Hne. rewrite Hurl. unfold url_of.
    by destruct (String.eqb_spec (name f) "index.html"). }
  split; [|split; [done|]].
  - rewrite Hgz. unfold is_nogz. destruct (PyStr.contains _ _); done.
  - intros Hin Hout.
    assert (name f <> "index.html") as Hne by (by intros Heq; rewrite Heq in Hin).
    split; [by rewrite Hgz; unfold is_nogz; rewrite Hout|].
    split; [auto|]. rewrite (Hu Hne). intros [= Heq].
    by apply replace_nogz_present in Heq.
Qed.

(** C9 as stated fails: one [.nogz] without a period behind it does not
    make a file compressed.  The name [a.nogz.b.nogzip.js] has such an
    occurrence (in [.nogzip]) and is stored uncompressed all the same,
    for [.nogz.] occurs in it too. *)
Lemma nogz_without_period_counterexample :
  ~ (exists uc : PyStr.Unicode,
       forall (zl : Zlib) (clock : nat -> N) (listing : list path),
         Forall2 (fun f p =>
             (exists a b, name f = a +:+ ".nogz" +:+ b
                          /\ PyStr.startswith "." b = false) ->
             Page.gzip p = true)
           (Spec.sources listing) (gen_pages clock listing)).
Proof.
  intros [uc H].
  specialize (H Stored.zlib (fun _ => 0%N)
                [Path "a.nogz.b.nogzip.js" (Some [])]).
  rewrite sources_singleton in H by reflexivity.
  apply Forall2_cons_inv_l in H as (p & ps & Hp & _ & Hpages).
  assert (Page.gzip p = true) as Hgz
    by (apply Hp; by exists "a.nogz.b", "ip.js").
  assert (Page.gzip <$> gen_pages (zl := Stored.zlib) (fun _ => 0%N)
                          [Path "a.nogz.b.nogzip.js" (Some [])]
          = [false]) as Hrun by reflexivity.
  rewrite Hpages in Hrun. cbn in Hrun. congruence.
Qed.

(** ** Reading the emitted arrays and constants back *)

Lemma read_array_element b rest :
  Spec.read_array ("0x" +:+ PyStr.format_02x b +:+ "," +:+ rest)
  = (b ::.) <$> Spec.read_array rest.
Proof. destruct b; cbn; by destruct (Spec.read_array rest). Qed.

Lemma read_array_nl rest :
  Spec.read_array (nl +:+ rest) = Spec.read_array rest.
Proof. reflexivity. Qed.

Lemma read_array_write_bytes data : forall i,
  Spec.read_array (write_bytes i data) = Some data.
Proof.
  induction data as [|b data IH]; intros i; [done|].
  cbn [write_bytes]. rewrite read_array_element.
  destruct (i mod 12 =? 11)%nat.
  - by rewrite read_array_nl, IH.
  - change ("" +:+ write_bytes (S i) data) with (write_bytes (S i) data).
    by rewrite IH.
Qed.

Lemma read_nat_str_of_nat n : Spec.read_nat (PyStr.str_of_nat n) = Some n.
Proof.
  unfold Spec.read_nat, PyStr.str_of_nat.
  rewrite NilEmpty.usu. simpl. f_equal. apply DecimalNat.Unsigned.of_to.
Qed.

(** C10.  For every page, the [len] of the dict is the number of bytes
    of its [data]: the size of the compressed bytes for a compressed
    asset, of the raw bytes for one that opted out.  The text written to
    [web_pages.cpp] for the page is an array whose elements read back as
    [data], followed by the constant [<symbol>_LEN] whose value reads
    back as that number; the row of the table names the same array and
    the same constant. *)
Theorem length_constant_matches_data (uc : PyStr.Unicode) (zl : Zlib)
    (clock : nat -> N)
    (listing : list path) :
  Forall2 (fun f p =>
      Page.len p = length (Page.data p)
      /\ (exists raw, file f = Some raw
          /\ (Page.gzip p = true ->
              exists t, Page.data p = Gzip.compress t raw 9)
          /\ (Page.gzip p = false ->
              Page.data p = raw /\ Page.len p = length raw))
      /\ (exists elements constant,
            write_page_cpp p
            = "const uint8_t " +:+ Page.symbol p +:+ "[] PROGMEM = {" +:+ nl
              +:+ elements +:+ nl +:+ "};" +:+ nl
              +:+ "const size_t " +:+ Page.symbol p +:+ "_LEN = "
              +:+ constant +:+ ";" +:+ nl +:+ nl
            /\ Spec.read_array elements = Some (Page.data p)
            /\ Spec.read_nat constant = Some (length (Page.data p)))
      /\ write_page_row p
         = "  { " +:+ dq +:+ Page.url p +:+ dq +:+ ", " +:+ Page.symbol p
           +:+ ", " +:+ Page.symbol p +:+ "_LEN, " +:+ dq +:+ Page.mime p
           +:+ dq +:+ ", " +:+ PyStr.str_of_bool_lower (Page.gzip p)
           +:+ " }," +:+ nl)
    (Spec.sources listing) (gen_pages clock listing)
  /\ web_pages_cpp (fst (gen clock listing))
     = Some ("#include <Arduino.h>" +:+ nl
             +:+ "#include " +:+ dq +:+ "web_pages.h" +:+ dq +:+ nl +:+ nl
             +:+ write_each write_page_cpp (gen_pages clock listing))
  /\ exists before after,
       page_router_cpp (fst (gen clock listing))
       = Some (before
               +:+ write_each write_page_row (gen_pages clock listing)
               +:+ after).
Proof.
  split; [|split; [reflexivity|]].
  2:{ exists ("#include <string.h>" +:+ nl
              +:+ "#include " +:+ dq +:+ "page_router.h" +:+ dq +:+ nl
              +:+ "#include " +:+ dq +:+ "web_pages.h" +:+ dq +:+ nl +:+ nl
              +:+ "static const Page pages[] = {" +:+ nl),
             ("};" +:+ nl +:+ nl +:+ findPage_source).
      reflexivity. }
  eapply Forall2_impl; [apply gen_pages_fields|].
  intros f p (_ & Hgz & _ & Hlen & raw & Hfile & Hraw & Hcomp).
  split; [done|]. split; [|split; [|done]].
  - exists raw. split; [done|]. rewrite Hgz.
    destruct (is_nogz (name f)); simpl.
    + split; [done|]. intros _. rewrite Hlen. by rewrite Hraw.
    + split; [auto|done].
  - exists (write_bytes 0 (Page.data p)), (PyStr.str_of_nat (Page.len p)).
    split; [done|]. split; [apply read_array_write_bytes|].
    rewrite Hlen. apply read_nat_str_of_nat.
Qed.

(** ** The gzip container *)

Lemma byte_of_N_to_N n : Byte.to_N (Struct.byte_of_N n) = (n mod 256)%N.
Proof.
  unfold Struct.byte_of_N.
  destruct (Byte.of_N (n mod 256)) as [b|] eqn:E; simpl.
  - by apply Byte.to_of_N.
  - apply Byte.of_N_None_iff in E.
    pose proof (N.mod_upper_bound n 256 ltac:(done)). lia.
Qed.

Lemma unpack_pack_L n rest :
  Struct.unpack_L (Struct.pack_L n ++ rest) = Some (n mod 4294967296)%N.
Proof.
  unfold Struct.pack_L, Struct.unpack_L. simpl. f_equal.
  rewrite !byte_of_N_to_N.
  assert (n / 65536 = n / 256 / 256)%N as -> by (by rewrite N.Div0.div_div).
  assert (n / 16777216 = n / 256 / 256 / 256)%N as ->
    by (by rewrite !N.Div0.div_div).
  pose proof (N.div_mod n 256 ltac:(done)) as E0.
  pose proof (N.div_mod (n / 256) 256 ltac:(done)) as E1.
  pose proof (N.div_mod (n / 256 / 256) 256 ltac:(done)) as E2.
  pose proof (N.div_mod (n / 256 / 256 / 256) 256 ltac:(done)) as E3.
  pose proof (N.mod_upper_bound n 256 ltac:(done)).
  pose proof (N.mod_upper_bound (n / 256) 256 ltac:(done)).
  pose proof (N.mod_upper_bound (n / 256 / 256) 256 ltac:(done)).
  pose proof (N.mod_upper_bound (n / 256 / 256 / 256) 256 ltac:(done)).
  apply N.mod_unique with (q := (n / 256 / 256 / 256 / 256)%N); lia.
Qed.

Lemma lxor_lt_pow2 a b n :
  (0 < n -> a < 2 ^ n -> b < 2 ^ n -> N.lxor a b < 2 ^ n)%N.
Proof.
  intros Hn Ha Hb.
  destruct (decide (a = 0%N)) as [->|Ha0]; [by rewrite N.lxor_0_l|].
  destruct (decide (b = 0%N)) as [->|Hb0]; [by rewrite N.lxor_0_r|].
  destruct (decide (N.lxor a b = 0%N)) as [->|Hx0]; [lia|].
  apply N.log2_lt_pow2; [lia|].
  apply N.log2_lt_pow2 in Ha; [|lia]. apply N.log2_lt_pow2 in Hb; [|lia].
  pose proof (N.log2_lxor a b). lia.
Qed.

Lemma crc32_bit_lt crc :
  (crc < 2 ^ 32 -> Gzip.crc32_bit crc < 2 ^ 32)%N.
Proof.
  intros H. unfold Gzip.crc32_bit.
  assert (N.shiftr crc 1 < 2 ^ 32)%N as Hs.
  { rewrite N.shiftr_div_pow2.
    pose proof (N.Div0.div_le_upper_bound crc (2 ^ 1) crc) as Hd.
    eapply N.le_lt_trans; [|exact H]. apply Hd. simpl. lia. }
  destruct (N.odd crc); [|done].
  by apply lxor_lt_pow2.
Qed.

Lemma crc32_byte_lt crc b :
  (crc < 2 ^ 32 -> Gzip.crc32_byte crc b < 2 ^ 32)%N.
Proof.
  intros H. unfold Gzip.crc32_byte.
  assert (N.lxor crc (Byte.to_N b) < 2 ^ 32)%N as Hx.
  { apply lxor_lt_pow2; [done..|].
    pose proof (Byte.to_N_bounded b). simpl. lia. }
  simpl. by do 8 apply crc32_bit_lt.
Qed.

(** The CRC fits the four bytes of the trailer. *)
Lemma crc32_lt data : (Gzip.crc32 data < 2 ^ 32)%N.
Proof.
  unfold Gzip.crc32. apply lxor_lt_pow2; [done| |done].
  assert (forall crc, (crc < 2 ^ 32)%N ->
            (fold_left Gzip.crc32_byte data crc < 2 ^ 32)%N) as Hfold.
  { induction data as [|b data IH]; intros crc Hcrc; [done|].
    simpl. by apply IH, crc32_byte_lt. }
  by apply Hfold.
Qed.

Section GzipRoundTrip.
Context {zl : Zlib} {laws : ZlibLaws zl}.

Lemma read_exact_app a b :
  Gzip.read_exact (length a) (a ++ b) = Gzip.Ok (a, b).
Proof.
  unfold Gzip.read_exact. rewrite decide_True by (rewrite length_app; lia).
  by rewrite take_app_length, drop_app_length.
Qed.

(** The header [compress] writes reads as a header without optional
    fields: what follows it is the deflate stream. *)
Lemma read_simple_header level t rest :
  Gzip.read_gzip_header (Gzip.create_simple_gzip_header level t ++ rest)
  = Gzip.Ok (Some ((t mod 4294967296)%N, rest)).
Proof.
  unfold Gzip.create_simple_gzip_header.
  set (xfl := if (level =? 9)%Z then x02
              else if (level =? 1)%Z then x04 else x00).
  unfold Struct.pack_L.
  set (b0 := Struct.byte_of_N t). set (b1 := Struct.byte_of_N (t / 256)).
  set (b2 := Struct.byte_of_N (t / 65536)).
  set (b3 := Struct.byte_of_N (t / 16777216)).
  change (([x1f; x8b; x08; x00] ++ [b0; b1; b2; b3] ++ [xfl; xff]) ++ rest)
    with (x1f :: x8b :: [x08; x00; b0; b1; b2; b3; xfl; xff] ++ rest).
  unfold Gzip.read_gzip_header.
  change (negb (Byte.eqb x1f x1f && Byte.eqb x8b x8b)) with false.
  cbv iota.
  rewrite (read_exact_app [x08; x00; b0; b1; b2; b3; xfl; xff] rest
           : Gzip.read_exact 8 _ = _).
  cbn -[Struct.unpack_L N.modulo].
  change [b0; b1; b2; b3; xfl; xff]
    with (Struct.pack_L t ++ [xfl; xff]).
  by rewrite unpack_pack_L.
Qed.

(** [gzip.decompress] undoes [gzip.compress], whatever the clock read. *)
Lemma gzip_roundtrip now raw level :
  Gzip.decompress (Gzip.compress now raw level) = Gzip.Ok raw.
Proof.
  unfold Gzip.decompress, Gzip.compress.
  set (trailer := Struct.pack_L (Gzip.crc32 raw)
                  ++ Struct.pack_L
                       (N.land (N.of_nat (length raw)) 4294967295)).
  set (body := raw_deflate level raw).
  assert (length trailer = 8) as Htl by done.
  destruct (length (Gzip.create_simple_gzip_header level now
                    ++ body ++ trailer)) as [|turns] eqn:Hlen.
  { rewrite !length_app in Hlen. lia. }
  cbn [Gzip.decompress_members].
  rewrite read_simple_header. cbn [Gzip.bind].
  unfold body. rewrite inflate_deflate. fold body.
  rewrite drop_app_length.
  rewrite Htl. change (8 <? 8)%nat with false. cbv iota.
  unfold trailer at 1. rewrite unpack_pack_L.
  replace (drop 4 trailer)
    with (Struct.pack_L (N.land (N.of_nat (length raw)) 4294967295) ++ [])
    by (by rewrite app_nil_r).
  rewrite unpack_pack_L. cbn [default from_option id].
  rewrite (N.mod_small (Gzip.crc32 raw)) by apply crc32_lt.
  rewrite N.eqb_refl. cbn [negb].
  rewrite N.mod_small.
  2:{ change 4294967295%N with (N.ones 32). rewrite N.land_ones.
      apply N.mod_upper_bound. done. }
  rewrite N.eqb_refl. cbn [negb].
  replace (drop 8 trailer) with (@nil byte) by done.
  simpl. by rewrite app_nil_r.
Qed.

End GzipRoundTrip.

(** ** The codec of stored blocks obeys the law of the interface *)

Section StoredCodec.
Import Stored.

Lemma block_max_N : N.of_nat block_max = 65535%N.
Proof. unfold block_max. by rewrite N2Nat.id. Qed.

Lemma block_max_pos : 0 < block_max.
Proof. pose proof block_max_N. lia. Qed.

Lemma unpack_pack_H n :
  (n <= 65535)%N -> Struct.unpack_H (pack_H n) = Some n.
Proof.
  intros Hn. unfold Struct.unpack_H, pack_H. f_equal.
  rewrite !byte_of_N_to_N.
  pose proof (N.div_mod n 256 ltac:(done)) as E0.
  assert (n / 256 < 256)%N as Hq
    by (apply N.Div0.div_lt_upper_bound; lia).
  rewrite (N.mod_small (n / 256)) by done. lia.
Qed.

Lemma length_block final chunk : length (block final chunk) = 5 + length chunk.
Proof. done. Qed.

(** Inflating one block. *)
Lemma inflate_go_block more final chunk d out consumed :
  length chunk <= block_max ->
  inflate_go (S more) (block final chunk ++ d) out consumed
  = if final then InflateEof (out ++ chunk) (consumed + 5 + length chunk)
    else inflate_go more d (out ++ chunk) (consumed + 5 + length chunk).
Proof.
  intros Hlen.
  assert (N.of_nat (length chunk) <= 65535)%N as HlenN
    by (pose proof block_max_N; lia).
  pose proof (unpack_pack_H (N.of_nat (length chunk)) HlenN) as E1.
  pose proof (unpack_pack_H (65535 - N.of_nat (length chunk)) ltac:(lia))
    as E2.
  unfold block. unfold pack_H in *.
  cbn [app inflate_go]. rewrite E1, E2. cbn [default from_option id].
  replace (N.of_nat (length chunk) + (65535 - N.of_nat (length chunk)))%N
    with 65535%N by lia.
  rewrite Nat2N.id.
  rewrite take_app_length, drop_app_length.
  assert ((length (chunk ++ d) <? length chunk)%nat = false) as ->.
  { apply Nat.ltb_ge. rewrite length_app. lia. }
  by destruct final.
Qed.

Lemma length_deflate_go more data :
  length data <= length (deflate_go more data).
Proof.
  revert data. induction more as [|more IH]; intros data; cbn [deflate_go].
  - rewrite length_block. lia.
  - case_decide; [rewrite length_block; lia|].
    rewrite length_app, length_block, length_take.
    specialize (IH (drop block_max data)). rewrite length_drop in IH. lia.
Qed.

Lemma inflate_go_deflate_go rest : forall more data out consumed fuel,
  length data <= S more * block_max ->
  more < fuel ->
  inflate_go fuel (deflate_go more data ++ rest) out consumed
  = InflateEof (out ++ data) (consumed + length (deflate_go more data)).
Proof.
  induction more as [|more IH]; intros data out consumed fuel Hlen Hfuel;
    destruct fuel as [|fuel]; try lia; cbn [deflate_go].
  - rewrite inflate_go_block by lia. rewrite length_block. f_equal. lia.
  - case_decide as Hsmall.
    + rewrite inflate_go_block by done. rewrite length_block. f_equal. lia.
    + rewrite <- app_assoc.
      assert (length (take block_max data) = block_max) as Htake
        by (rewrite length_take; lia).
      rewrite inflate_go_block by lia.
      rewrite IH; [|rewrite length_drop; lia|lia].
      rewrite <- app_assoc, take_drop.
      rewrite length_app, length_block, Htake. f_equal. lia.
Qed.

Lemma stored_laws : ZlibLaws Stored.zlib.
Proof.
  intros level raw rest. cbn [raw_inflate raw_deflate zlib].
  unfold inflate, deflate.
  rewrite inflate_go_deflate_go; [done| |].
  - pose proof block_max_pos. nia.
  - rewrite length_app. pose proof (length_deflate_go (length raw) raw). lia.
Qed.

End StoredCodec.

(** ** Compression: the round trip, and the clock *)

(** C4.  For every asset with the gzip flag set, [gzip.decompress] of
    the stored bytes gives back the bytes of the minified file; for
    every asset whose name carries the opt-out marker [.nogz.] the flag
    is off and the stored bytes are the bytes of the file.  (zlib enters
    through the law of its interface: a deflate stream inflates to what
    was deflated.) *)
Theorem stored_bytes_roundtrip (uc : PyStr.Unicode) (zl : Zlib)
    (laws : ZlibLaws zl)
    (clock : nat -> N) (listing : list path) :
  Forall2 (fun f p =>
      exists raw, file f = Some raw
        /\ (Page.gzip p = true ->
            Gzip.decompress (Page.data p) = Gzip.Ok raw)
        /\ (is_nogz (name f) = true ->
            Page.gzip p = false /\ Page.data p = raw))
    (Spec.sources listing) (gen_pages clock listing).
Proof.
  eapply Forall2_impl; [apply gen_pages_fields|].
  intros f p (_ & Hgz & _ & _ & raw & Hfile & Hraw & Hcomp).
  exists raw. split; [done|]. rewrite Hgz. split.
  - intros Hon. apply negb_true_iff in Hon.
    destruct (Hcomp Hon) as [t ->]. apply gzip_roundtrip.
  - intros Hoff. rewrite Hoff. auto.
Qed.

Lemma stored_bytes_roundtrip_witness :
  let listing :=
    [Path "index.html" (Some [x3c; x70; x3e]);
     Path "board.nogz.js" (Some [x78; x3d; x31]);
     Path "notes.txt" (Some [x68; x69])] in
  Forall2 (fun f p =>
      exists raw, file f = Some raw
        /\ (Page.gzip p = true ->
            Gzip.decompress (zl := Stored.zlib) (Page.data p) = Gzip.Ok raw)
        /\ (is_nogz (name f) = true ->
            Page.gzip p = false /\ Page.data p = raw))
    (Spec.sources listing)
    (gen_pages (uc := PyStr.caseless) (zl := Stored.zlib)
        (fun n => 1700000000 + N.of_nat n)%N
       listing).
Proof.
  apply (stored_bytes_roundtrip PyStr.caseless Stored.zlib stored_laws).
Defined.

(** With one clock for both, two runs over the entries of one directory
    write the same three files, in whatever order the entries are
    listed. *)
Lemma gen_listing_order (uc : PyStr.Unicode) (zl : Zlib)
    (clock : nat -> N) listing listing' :
  NoDup (name <$> listing) -> listing ≡ₚ listing' ->
  gen clock listing = gen clock listing'.
Proof.
  intros Hnd Hperm. unfold gen, gen_pages.
  by rewrite (sorted_listing_order listing listing').
Qed.

(** C1 fails on the code.  [gzip.compress] is called without [mtime],
    so the header of every compressed asset holds the time of the run:
    two runs over one and the same directory, the one file [a.js] in it,
    write different [web_pages.cpp] when the clock reads 1700000000 in
    one and a second more in the other, whatever the file holds and
    whatever deflate does. *)
Theorem build_time_in_output (uc : PyStr.Unicode) (zl : Zlib)
    (raw : list byte) :
  let w := World (Some [Path "a.js" (Some raw)]) (Generated None None None) in
  web_pages_cpp (src (script (fun _ => 1700000000%N) w))
  <> web_pages_cpp (src (script (fun _ => 1700000001%N) w)).
Proof.
  intros w H.
  apply (f_equal (fun o => o ≫= String.get 104)) in H.
  vm_compute in H. discriminate.
Qed.

(** ** [symbol] *)

(** Replacing one character by another goes character by character. *)
Lemma replace_char c d s :
  PyStr.replace (String c "") (String d "") s
  = PyStr.map_chars (fun x => if Ascii.eqb x c then d else x) s.
Proof.
  unfold PyStr.replace.
  induction s as [|x s IH]; [done|].
  cbn [PyStr.replace_go PyStr.map_chars]. unfold PyStr.startswith.
  rewrite prefix_cons, prefix_nil_l.
  destruct (ascii_dec c x) as [->|Hne].
  - rewrite Ascii.eqb_refl. cbn. by rewrite IH.
  - destruct (Ascii.eqb_spec x c) as [->|_]; [done|]. by rewrite IH.
Qed.

Lemma map_chars_map_chars f g s :
  PyStr.map_chars f (PyStr.map_chars g s) = PyStr.map_chars (fun c => f (g c)) s.
Proof. induction s; simpl; congruence. Qed.


Lemma map_chars_length f s :
  String.length (PyStr.map_chars f s) = String.length s.
Proof. induction s; simpl; congruence. Qed.


Lemma all_chars_impl (P Q : ascii -> bool) s :
  (forall c, P c = true -> Q c = true) ->
  Ident.all_chars P s = true -> Ident.all_chars Q s = true.
Proof.
  intros H. induction s as [|c s IH]; [done|]. simpl.
  rewrite !andb_true_iff. intros [Hc Hs]. auto.
Qed.

Lemma all_chars_map_chars (P Q : ascii -> bool) f s :
  (forall c, P c = true -> Q (f c) = true) ->
  Ident.all_chars P s = true -> Ident.all_chars Q (PyStr.map_chars f s) = true.
Proof.
  intros H. induction s as [|c s IH]; [done|]. simpl.
  rewrite !andb_true_iff. intros [Hc Hs]. auto.
Qed.

Lemma all_chars_true s : Ident.all_chars (fun _ => true) s = true.
Proof. induction s; simpl; auto. Qed.

Lemma isascii_all_chars s :
  PyStr.isascii s = Ident.all_chars (fun c => (N_of_ascii c <? 128)%N) s.
Proof. induction s as [|c s IH]; [done|]. simpl. by rewrite IH. Qed.



Lemma name_chars_ascii s :
  Ident.all_chars Ident.is_name_char s = true -> PyStr.isascii s = true.
Proof.
  rewrite isascii_all_chars. apply all_chars_impl.
  intros c. destruct c as [[] [] [] [] [] [] [] []]; vm_compute; congruence.
Qed.

(** On ASCII text [upper] maps the letters, whatever the database. *)
Lemma upper_ascii (uc : PyStr.Unicode) s :
  PyStr.isascii s = true -> PyStr.upper s = PyStr.map_chars PyStr.upper_char s.
Proof. unfold PyStr.upper. by intros ->. Qed.

(** [symbol] is one map over the characters of the upper-cased name. *)
Lemma symbol_after_upper (uc : PyStr.Unicode) name :
  symbol name
  = PyStr.map_chars
      (fun u =>
         let v := if Ascii.eqb u "."%char then "_"%char else u in
         if Ascii.eqb v "-"%char then "_"%char else v) (PyStr.upper name).
Proof. unfold symbol. by rewrite !replace_char, !map_chars_map_chars. Qed.

(** For an ASCII name it is one map over the characters of the name. *)
Lemma symbol_map_chars (uc : PyStr.Unicode) name :
  PyStr.isascii name = true ->
  symbol name
  = PyStr.map_chars
      (fun c =>
         let u := PyStr.upper_char c in
         let v := if Ascii.eqb u "."%char then "_"%char else u in
         if Ascii.eqb v "-"%char then "_"%char else v) name.
Proof.
  intros Ha. rewrite symbol_after_upper, upper_ascii by done.
  by rewrite map_chars_map_chars.
Qed.

(** X1. The symbol made of a file name holds no period and no hyphen,
    whatever the name.  For a name of ASCII characters it has the
    length of the name and no lower-case letter (beyond ASCII the
    upper-cased name may be longer); and when the name is made of
    letters, digits, periods, hyphens and underscores, the symbol is
    made of upper-case letters, digits and underscores only (it may
    still begin with a digit). *)
Theorem symbol_is_identifier_text (uc : PyStr.Unicode) (name : string) :
  Ident.all_chars
    (fun c => negb (Ascii.eqb c "."%char) && negb (Ascii.eqb c "-"%char))
    (symbol name) = true
  /\ (PyStr.isascii name = true ->
      String.length (symbol name) = String.length name
      /\ Ident.all_chars (fun c => negb (PyStr.is_ascii_lower c))
           (symbol name) = true)
  /\ (Ident.all_chars Ident.is_name_char name = true ->
      Ident.all_chars Ident.is_symbol_char (symbol name) = true).
Proof.
  split; [|split].
  - rewrite symbol_after_upper.
    apply (all_chars_map_chars (fun _ => true)); [|apply all_chars_true].
    intros c _. destruct c as [[] [] [] [] [] [] [] []]; reflexivity.
  - intros Ha. rewrite symbol_map_chars by done.
    split; [apply map_chars_length|].
    apply (all_chars_map_chars (fun _ => true)); [|apply all_chars_true].
    intros c _. destruct c as [[] [] [] [] [] [] [] []]; reflexivity.
  - intros Hn. rewrite symbol_map_chars by (by apply name_chars_ascii).
    revert Hn. apply all_chars_map_chars.
    intros c. destruct c as [[] [] [] [] [] [] [] []]; vm_compute; congruence.
Qed.

Lemma symbol_is_identifier_text_witness :
  String.length (symbol (uc := PyStr.caseless) "app-x.nogz.js")
  = String.length "app-x.nogz.js"
  /\ Ident.all_chars (fun c => negb (PyStr.is_ascii_lower c))
       (symbol (uc := PyStr.caseless) "app-x.nogz.js") = true.
Proof.
  apply (symbol_is_identifier_text PyStr.caseless "app-x.nogz.js").
  reflexivity.
Defined.





(** ** The emitted table read back *)

Lemma strip_prefix_app p s : Spec.strip_prefix p (p +:+ s) = Some s.
Proof.
  induction p as [|c p IH]; [done|].
  cbn [String.append Spec.strip_prefix]. by rewrite Ascii.eqb_refl.
Qed.

Lemma split_at_app c a b :
  Ident.all_chars (fun x => negb (Ascii.eqb x c)) a = true ->
  Spec.split_at c (a +:+ String c b) = Some (a, b).
Proof.
  induction a as [|x a IH]; cbn [Ident.all_chars String.append Spec.split_at].
  - by rewrite Ascii.eqb_refl.
  - intros [Hx Ha]%andb_true_iff. apply negb_true_iff in Hx.
    by rewrite Hx, IH.
Qed.

Lemma all_chars_app P a b :
  Ident.all_chars P (a +:+ b) = Ident.all_chars P a && Ident.all_chars P b.
Proof.
  induction a as [|c a IH]; [done|]. cbn. by rewrite IH, andb_assoc.
Qed.

(** What [replace] leaves is made of characters of the text. *)
Lemma all_chars_replace_go P old s : forall k,
  Ident.all_chars P s = true ->
  Ident.all_chars P (PyStr.replace_go old "" k s) = true.
Proof.
  induction s as [|c s IH]; intros k; [done|].
  cbn [Ident.all_chars]. intros [Hc Hs]%andb_true_iff.
  destruct k as [|k]; cbn [PyStr.replace_go]; [|by apply IH].
  destruct (PyStr.startswith old (String c s)).
  - change ("" +:+ ?x) with x. by apply IH.
  - cbn [Ident.all_chars]. rewrite Hc. by apply IH.
Qed.

(** The row a page is written as. *)
Lemma read_row_write p rest :
  Ident.all_chars (fun x => negb (Ascii.eqb x "034"%char)) (Page.url p) = true ->
  Ident.all_chars (fun x => negb (Ascii.eqb x ","%char)) (Page.symbol p) = true ->
  Ident.all_chars (fun x => negb (Ascii.eqb x "034"%char)) (Page.mime p) = true ->
  Spec.read_row (write_page_row p +:+ rest)
  = Some (Spec.Row (Page.url p) (Page.symbol p) (Page.symbol p +:+ "_LEN")
            (Page.mime p) (Page.gzip p), rest).
Proof.
  intros Hurl Hsym Hmime.
  assert (Ident.all_chars (fun x => negb (Ascii.eqb x ","%char))
            (Page.symbol p +:+ "_LEN") = true) as Hlen
    by (by rewrite all_chars_app, Hsym).
  unfold write_page_row, Spec.read_row.
  rewrite !string_app_assoc.
  rewrite strip_prefix_app, strip_prefix_app.
  change (dq +:+ ?x) with (String "034"%char x).
  rewrite (split_at_app _ _ _ Hurl).
  rewrite strip_prefix_app.
  change (", " +:+ ?x) with (String ","%char (" " +:+ x)).
  rewrite (split_at_app _ _ _ Hsym).
  rewrite strip_prefix_app.
  change (Page.symbol p +:+ "_LEN, " +:+ ?x)
    with (Page.symbol p +:+ "_LEN" +:+ String ","%char (" " +:+ x)).
  rewrite <- (string_app_assoc (Page.symbol p) "_LEN").
  rewrite (split_at_app _ _ _ Hlen).
  rewrite strip_prefix_app.
  rewrite strip_prefix_app.
  change (dq +:+ ?x) with (String "034"%char x).
  rewrite (split_at_app _ _ _ Hmime).
  rewrite strip_prefix_app.
  destruct (Page.gzip p); reflexivity.
Qed.

Lemma length_write_rows pages rest :
  length pages <= String.length (write_each write_page_row pages +:+ rest).
Proof.
  induction pages as [|p pages IH]; [cbn; lia|].
  cbn [write_each length]. rewrite string_app_assoc, string_app_length.
  unfold write_page_row at 1. rewrite string_app_length.
  cbn [String.length]. lia.
Qed.

Lemma read_rows_write pages rest : forall fuel,
  length pages <= fuel ->
  Forall (fun p =>
      Ident.all_chars (fun x => negb (Ascii.eqb x "034"%char)) (Page.url p)
      = true
      /\ Ident.all_chars (fun x => negb (Ascii.eqb x ","%char)) (Page.symbol p)
         = true
      /\ Ident.all_chars (fun x => negb (Ascii.eqb x "034"%char)) (Page.mime p)
         = true) pages ->
  Spec.read_rows fuel (write_each write_page_row pages +:+ "};" +:+ rest)
  = Some ((fun p => Spec.Row (Page.url p) (Page.symbol p)
                      (Page.symbol p +:+ "_LEN") (Page.mime p) (Page.gzip p))
          <$> pages).
Proof.
  induction pages as [|p pages IH]; intros fuel Hfuel Hok.
  - change (write_each write_page_row [] +:+ "};" +:+ rest)
      with ("};" +:+ rest).
    destruct fuel; cbn [Spec.read_rows]; by rewrite startswith_app_self.
  - apply Forall_cons in Hok as [(Hu & Hs & Hm) Hok].
    destruct fuel as [|fuel]; [cbn in Hfuel; lia|].
    cbn [write_each]. rewrite string_app_assoc.
    cbn [Spec.read_rows].
    assert (PyStr.startswith "};"
              (write_page_row p +:+ write_each write_page_row pages
               +:+ "};" +:+ rest) = false) as -> by reflexivity.
    rewrite (read_row_write p _ Hu Hs Hm).
    rewrite IH by (cbn in Hfuel; lia || done). done.
Qed.

Lemma read_table_write pages :
  Forall (fun p =>
      Ident.all_chars (fun x => negb (Ascii.eqb x "034"%char)) (Page.url p)
      = true
      /\ Ident.all_chars (fun x => negb (Ascii.eqb x ","%char)) (Page.symbol p)
         = true
      /\ Ident.all_chars (fun x => negb (Ascii.eqb x "034"%char)) (Page.mime p)
         = true) pages ->
  Spec.read_table (write_router_cpp pages)
  = Some ((fun p => Spec.Row (Page.url p) (Page.symbol p)
                      (Page.symbol p +:+ "_LEN") (Page.mime p) (Page.gzip p))
          <$> pages).
Proof.
  intros Hok. unfold Spec.read_table, write_router_cpp.
  rewrite <- !(string_app_assoc _ _ (write_each write_page_row pages +:+ _)).
  rewrite strip_prefix_app.
  apply read_rows_write; [apply length_write_rows|done].
Qed.

(** Plain names make rows that read back. *)
Lemma plain_ascii s : Spec.plain s = true -> PyStr.isascii s = true.
Proof.
  unfold Spec.plain. rewrite isascii_all_chars. apply all_chars_impl.
  intros c. destruct c as [[] [] [] [] [] [] [] []]; vm_compute; congruence.
Qed.

Lemma url_no_quote name :
  Spec.plain name = true ->
  Ident.all_chars (fun x => negb (Ascii.eqb x "034"%char)) (url_of name)
  = true.
Proof.
  intros Hp. unfold url_of. destruct (String.eqb name "index.html"); [done|].
  change ("/" +:+ ?x) with (String "/"%char x). cbn [Ident.all_chars].
  unfold PyStr.replace. apply all_chars_replace_go.
  revert Hp. apply all_chars_impl.
  intros c. destruct c as [[] [] [] [] [] [] [] []]; vm_compute; congruence.
Qed.

Lemma symbol_no_comma (uc : PyStr.Unicode) name :
  Spec.plain name = true ->
  Ident.all_chars (fun x => negb (Ascii.eqb x ","%char)) (symbol name) = true.
Proof.
  intros Hp. rewrite symbol_map_chars by (by apply plain_ascii).
  revert Hp. apply all_chars_map_chars.
  intros c. destruct c as [[] [] [] [] [] [] [] []]; vm_compute; congruence.
Qed.

Lemma mime_no_quote ext m :
  MIME !! ext = Some m ->
  Ident.all_chars (fun x => negb (Ascii.eqb x "034"%char)) m = true.
Proof.
  intros [[_ ->]|[[_ ->]|[_ ->]]]%MIME_lookup; reflexivity.
Qed.

Lemma rows_of_pages (uc : PyStr.Unicode) (zl : Zlib) fs pages :
  Forall2 (fun f p => exists t, Spec.made_from t f p) fs pages ->
  Forall (fun f => Spec.plain (name f) = true) fs ->
  Forall (fun p =>
      Ident.all_chars (fun x => negb (Ascii.eqb x "034"%char)) (Page.url p)
      = true
      /\ Ident.all_chars (fun x => negb (Ascii.eqb x ","%char)) (Page.symbol p)
         = true
      /\ Ident.all_chars (fun x => negb (Ascii.eqb x "034"%char)) (Page.mime p)
         = true) pages
  /\ Forall2 (fun f r =>
        Spec.row_url r = url_of (name f)
        /\ Spec.row_data r
           = symbol (name f)
             +:+ (if negb (is_nogz (name f)) then "_GZ" else "")
        /\ Spec.row_len r = Spec.row_data r +:+ "_LEN"
        /\ MIME !! PyStr.lower (Pathlib.suffix (name f))
           = Some (Spec.row_mime r)
        /\ Spec.row_gzip r = negb (is_nogz (name f)))
       fs
       ((fun p => Spec.Row (Page.url p) (Page.symbol p)
                    (Page.symbol p +:+ "_LEN") (Page.mime p) (Page.gzip p))
        <$> pages).
Proof.
  induction 1 as [|f p fs pages (t & raw & m & _ & Hm & Hp) _ IH];
    intros Hplain; [by split; constructor|].
  apply Forall_cons in Hplain as [Hf Hfs].
  destruct (IH Hfs) as [Hok Hrows]. cbv zeta in Hp. subst p.
  split.
  - constructor; [|done]. cbn [Page.url Page.symbol Page.mime].
    split; [by apply url_no_quote|]. split; [|by eapply mime_no_quote].
    rewrite all_chars_app, (symbol_no_comma uc (name f) Hf).
    by destruct (negb (is_nogz (name f))).
  - rewrite fmap_cons. constructor; [|done].
    cbn [Spec.row_url Spec.row_data Spec.row_len Spec.row_mime Spec.row_gzip
         Page.url Page.symbol Page.mime Page.gzip].
    done.
Qed.

(** The rows of the pages, written from the files they are made of. *)
Lemma rows_text (uc : PyStr.Unicode) (zl : Zlib) fs pages :
  Forall2 (fun f p => exists t, Spec.made_from t f p) fs pages ->
  write_each write_page_row pages
  = write_each (fun f =>
      let data :=
        symbol (name f) +:+ (if is_nogz (name f) then "" else "_GZ") in
      "  { " +:+ dq +:+ url_of (name f) +:+ dq +:+ ", "
      +:+ data +:+ ", " +:+ data +:+ "_LEN, "
      +:+ dq +:+ default "" (MIME !! PyStr.lower (Pathlib.suffix (name f)))
      +:+ dq +:+ ", "
      +:+ (if is_nogz (name f) then "false" else "true")
      +:+ " }," +:+ nl) fs.
Proof.
  induction 1 as [|f p fs pages (t & raw & m & _ & Hm & Hp) _ IH]; [done|].
  cbn [write_each]. rewrite IH. f_equal.
  cbv zeta in Hp. subst p. unfold write_page_row.
  cbn [Page.url Page.symbol Page.mime Page.gzip]. rewrite Hm.
  by destruct (is_nogz (name f)).
Qed.

(** C6.  The table follows the ascending order of the file names: the
    qualifying entries of the directory, arranged so that their names
    ascend, are one by one the files the pages are made from.  The
    text written to [page_router.cpp] holds the rows of these files in
    this order, one behind the other; and read back from that text
    (where the names are plain, so that the text can be read
    unambiguously) the rows of the table are one by one the rows of
    these files: each has the URL of its file, the names of its array
    and of the length of that array, its MIME type and its flag. *)
Theorem table_in_filename_order (uc : PyStr.Unicode) (zl : Zlib)
    (clock : nat -> N) (listing : list path) :
  let fs := Spec.sources listing in
  let pages := gen_pages clock listing in
  fs ≡ₚ filter Spec.qualifies listing
  /\ StronglySorted String.le (name <$> fs)
  /\ Forall2 (fun f p => exists t, Spec.made_from t f p) fs pages
  /\ (exists text,
        page_router_cpp (fst (gen clock listing)) = Some text
        /\ (exists before after,
              text
              = before
                +:+ write_each (fun f =>
                      let data :=
                        symbol (name f)
                        +:+ (if is_nogz (name f) then "" else "_GZ") in
                      "  { " +:+ dq +:+ url_of (name f) +:+ dq +:+ ", "
                      +:+ data +:+ ", " +:+ data +:+ "_LEN, "
                      +:+ dq
                      +:+ default ""
                            (MIME !! PyStr.lower (Pathlib.suffix (name f)))
                      +:+ dq +:+ ", "
                      +:+ (if is_nogz (name f) then "false" else "true")
                      +:+ " }," +:+ nl) fs
                +:+ after)
        /\ (Forall (fun f => Spec.plain (name f) = true) fs ->
            exists rows,
              Spec.read_table text = Some rows
              /\ Forall2 (fun f r =>
                    Spec.row_url r = url_of (name f)
                    /\ Spec.row_data r
                       = symbol (name f)
                         +:+ (if negb (is_nogz (name f)) then "_GZ" else "")
                    /\ Spec.row_len r = Spec.row_data r +:+ "_LEN"
                    /\ MIME !! PyStr.lower (Pathlib.suffix (name f))
                       = Some (Spec.row_mime r)
                    /\ Spec.row_gzip r = negb (is_nogz (name f)))
                   fs rows))
  /\ PageRouter.Page.path <$> PageRouter.table_of pages
     = (fun f => url_of (name f)) <$> fs.
Proof.
  intros fs pages.
  split; [apply sources_Permutation|].
  split.
  { apply (StronglySorted_fmap name path_le String.le); [done|].
    apply sources_StronglySorted. }
  pose proof (gen_pages_spec clock listing) as HF.
  split; [done|]. split.
  { exists (write_router_cpp pages). split; [done|]. split.
    - exists ("#include <string.h>" +:+ nl
              +:+ "#include " +:+ dq +:+ "page_router.h" +:+ dq +:+ nl
              +:+ "#include " +:+ dq +:+ "web_pages.h" +:+ dq +:+ nl +:+ nl
              +:+ "static const Page pages[] = {" +:+ nl),
             ("};" +:+ nl +:+ nl +:+ findPage_source).
      rewrite <- (rows_text uc zl fs pages HF). reflexivity.
    - intros Hplain.
      destruct (rows_of_pages uc zl fs pages HF Hplain) as [Hok Hrows].
      eexists. split; [by apply read_table_write|done]. }
  unfold PageRouter.table_of. fold fs pages in HF.
  clearbody fs pages. induction HF as [|f p fs pages Hfp HF IH]; [done|].
  simpl. f_equal; [|done].
  destruct Hfp as (t & raw & m & _ & _ & ->). done.
Qed.

Lemma table_in_filename_order_witness :
  let listing := [Path "index.html" (Some [x3c; x70; x3e]);
                  Path "foo.js" (Some [x78]);
                  Path "notes.txt" (Some [x68; x69]);
                  Path "foo.nogz.css" (Some [x61])] in
  exists text rows,
    page_router_cpp
      (fst (gen (uc := PyStr.caseless) (zl := Stored.zlib) (fun _ => 0%N)
              listing)) = Some text
    /\ Spec.read_table text = Some rows
    /\ Spec.row_url <$> rows = ["/foo.js"; "/foo.css"; "/"]
    /\ Spec.row_data <$> rows = ["FOO_JS_GZ"; "FOO_NOGZ_CSS"; "INDEX_HTML_GZ"].
Proof.
  intros listing.
  destruct (table_in_filename_order PyStr.caseless Stored.zlib (fun _ => 0%N)
              listing) as (_ & _ & _ & (text & Htext & _ & Hread) & _).
  destruct Hread as (rows & Hrows & HF); [by repeat constructor|].
  exists text, rows. split; [done|]. split; [done|].
  change (Spec.sources listing)
    with [Path "foo.js" (Some [x78]); Path "foo.nogz.css" (Some [x61]);
          Path "index.html" (Some [x3c; x70; x3e])] in HF.
  apply Forall2_cons_inv_l in HF as (r1 & k1 & (U1 & D1 & _) & HF & ->).
  apply Forall2_cons_inv_l in HF as (r2 & k2 & (U2 & D2 & _) & HF & ->).
  apply Forall2_cons_inv_l in HF as (r3 & k3 & (U3 & D3 & _) & HF & ->).
  apply Forall2_nil_inv_l in HF as ->.
  cbn [fmap list_fmap]. rewrite U1, U2, U3, D1, D2, D3. done.
Defined.

(** ** The lines of an array *)

Lemma write_bytes_shift data : forall i,
  write_bytes (i + 12) data = write_bytes i data.
Proof.
  induction data as [|b data IH]; intros i; [done|].
  cbn [write_bytes].
  replace ((i + 12) mod 12) with (i mod 12)
    by (symmetry; apply (Nat.Div0.mod_add i 1 12)).
  by rewrite <- (IH (S i)).
Qed.

Lemma write_bytes_no_break data : forall i,
  i + length data < 12 ->
  write_bytes i data
  = write_each (fun b => "0x" +:+ PyStr.format_02x b +:+ ",") data.
Proof.
  induction data as [|b data IH]; intros i Hi; [done|].
  cbn [write_bytes write_each]. simpl in Hi.
  rewrite Nat.mod_small by lia.
  destruct (Nat.eqb_spec i 11) as [->|_]; [lia|].
  rewrite IH by lia. by rewrite !string_app_assoc.
Qed.

Lemma write_bytes_break rest chunk : forall i,
  i + length chunk = 12 -> chunk <> [] ->
  write_bytes i (chunk ++ rest)
  = write_each (fun b => "0x" +:+ PyStr.format_02x b +:+ ",") chunk
    +:+ nl +:+ write_bytes 0 rest.
Proof.
  induction chunk as [|b chunk IH]; intros i Hi Hne; [done|].
  simpl in Hi. cbn [app write_bytes write_each].
  rewrite Nat.mod_small by lia.
  destruct chunk as [|b' chunk].
  - simpl in Hi. assert (i = 11) as -> by lia.
    change ((11 =? 11)%nat) with true. cbv iota. cbn [app write_each].
    rewrite <- (write_bytes_shift rest 0).
    by rewrite string_app_nil_r, !string_app_assoc.
  - destruct (Nat.eqb_spec i 11) as [->|_]; [simpl in Hi; lia|].
    rewrite (IH (S i)) by (simpl in *; done || lia).
    by rewrite !string_app_assoc.
Qed.

(** X3. The array text of web_pages.cpp has twelve elements to a line:
    twelve bytes are written as twelve elements and a line break, then
    the rest follows; fewer than twelve bytes are written without a
    line break (so an array of twelve bytes ends in one, an empty array
    is empty). *)
Theorem array_lines_of_twelve (chunk rest data : list byte) :
  (length chunk = 12 ->
   write_bytes 0 (chunk ++ rest)
   = write_each (fun b => "0x" +:+ PyStr.format_02x b +:+ ",") chunk
     +:+ nl +:+ write_bytes 0 rest)
  /\ (length data < 12 ->
      write_bytes 0 data
      = write_each (fun b => "0x" +:+ PyStr.format_02x b +:+ ",") data).
Proof.
  split.
  - intros Hlen. apply write_bytes_break; [done|]. by intros ->.
  - intros Hlen. by apply write_bytes_no_break.
Qed.

(** ** More on the route matcher *)

(** The index [findPage] returns, in one equivalence. *)
Lemma findPage_index_iff path pages i :
  fst (PageRouter.findPage path pages) = Some i <->
  exists d, pages !! i = Some d /\ Spec.matches path d
    /\ forall j d', j < i -> pages !! j = Some d' -> ~ Spec.matches path d'.
Proof.
  unfold PageRouter.findPage.
  destruct (findPage_loop_spec path pages (length pages) 0 ltac:(lia))
    as [_ Hfst].
  destruct (fst (PageRouter.findPage_loop path (length pages) 0 pages))
    as [k|].
  - destruct Hfst as (_ & (d & Hd & Hm) & Hfirst). split.
    + intros [= <-]. exists d. split; [done|]. split; [done|].
      intros j d' Hj. apply Hfirst. lia.
    + intros (d' & Hd' & Hm' & Hfirst'). f_equal.
      destruct (Nat.lt_trichotomy k i) as [Hlt | [-> | Hgt]]; [|done|].
      * destruct (Hfirst' k d Hlt Hd Hm).
      * destruct (Hfirst i d' ltac:(lia) Hd' Hm').
  - split; [done|]. intros (d & Hd & Hm & _).
    destruct (Hfst i d ltac:(lia) Hd Hm).
Qed.

Lemma findPage_None_iff path pages :
  fst (PageRouter.findPage path pages) = None <->
  forall d, d ∈ pages -> ~ Spec.matches path d.
Proof.
  unfold PageRouter.findPage.
  destruct (findPage_loop_spec path pages (length pages) 0 ltac:(lia))
    as [_ Hfst].
  destruct (fst (PageRouter.findPage_loop path (length pages) 0 pages))
    as [k|].
  - destruct Hfst as (_ & (d & Hd & Hm) & _). split; [done|].
    intros Hno. destruct (Hno d); [|done]. by eapply list_elem_of_lookup_2.
  - split; [|done]. intros _ d [j Hj]%list_elem_of_lookup.
    apply (Hfst j d); [lia|done].
Qed.

(** Some element matches: then one is returned. *)
Lemma findPage_finds path pages k d :
  pages !! k = Some d -> Spec.matches path d ->
  exists i d', i <= k /\ fst (PageRouter.findPage path pages) = Some i
    /\ pages !! i = Some d' /\ Spec.matches path d'.
Proof.
  intros Hk Hm.
  destruct (fst (PageRouter.findPage path pages)) as [i|] eqn:Hf.
  - pose proof Hf as Hf'.
    apply findPage_index_iff in Hf' as (d' & Hd' & Hm' & Hfirst).
    exists i, d'. split; [|done].
    destruct (decide (i <= k)); [done|].
    destruct (Hfirst k d ltac:(lia) Hk Hm).
  - destruct (proj1 (findPage_None_iff path pages) Hf d); [|done].
    by eapply list_elem_of_lookup_2.
Qed.

Lemma matches_dotted path d :
  ~ Spec.no_dot path ->
  Spec.matches path d <-> PageRouter.Page.path d = path.
Proof.
  intros Hdot. unfold Spec.matches. split; [|auto].
  intros [?|[? _]]; done.
Qed.

(** X4. A request path that holds a period is only ever matched as a
    whole: findPage returns the first descriptor whose URL is the path,
    and the rule for paths without extension never applies. *)
Theorem findPage_dotted_path path pages i :
  ~ Spec.no_dot path ->
  fst (PageRouter.findPage path pages) = Some i <->
  exists d, pages !! i = Some d /\ PageRouter.Page.path d = path
    /\ forall j d', j < i -> pages !! j = Some d' ->
                    PageRouter.Page.path d' <> path.
Proof.
  intros Hdot. rewrite findPage_index_iff.
  split; intros (d & Hd & Hm & Hfirst); exists d; split; try done.
  - split; [by apply matches_dotted|].
    intros j d' Hj Hd'. rewrite <- (matches_dotted path d' Hdot). eauto.
  - split; [by apply matches_dotted|].
    intros j d' Hj Hd'. rewrite (matches_dotted path d' Hdot). eauto.
Qed.

Lemma findPage_dotted_path_witness :
  fst (PageRouter.findPage "/app.js"
         [PageRouter.Page.Make "/app.css" [] 0 "text/css" false;
          PageRouter.Page.Make "/app.js" [] 0 "application/javascript" false])
  = Some 1 <->
  exists d,
    [PageRouter.Page.Make "/app.css" [] 0 "text/css" false;
     PageRouter.Page.Make "/app.js" [] 0 "application/javascript" false]
      !! 1 = Some d
    /\ PageRouter.Page.path d = "/app.js"
    /\ forall j d', j < 1 ->
         [PageRouter.Page.Make "/app.css" [] 0 "text/css" false;
          PageRouter.Page.Make "/app.js" [] 0 "application/javascript" false]
           !! j = Some d' ->
         PageRouter.Page.path d' <> "/app.js".
Proof.
  apply findPage_dotted_path.
  intros H. by apply (H 4).
Defined.

(** X5. Rows appended to a table never change the answer for a path
    the table already answers: findPage over [l1 ++ l2] is findPage
    over [l1] when that finds a descriptor, else findPage over [l2],
    its index moved by the length of [l1]. *)
Theorem findPage_app path l1 l2 :
  fst (PageRouter.findPage path (l1 ++ l2))
  = match fst (PageRouter.findPage path l1) with
    | Some i => Some i
    | None => (fun j => length l1 + j) <$> fst (PageRouter.findPage path l2)
    end.
Proof.
  destruct (fst (PageRouter.findPage path l1)) as [i|] eqn:H1.
  - apply findPage_index_iff in H1 as (d & Hd & Hm & Hfirst).
    apply findPage_index_iff. exists d.
    split; [by apply lookup_app_l_Some|]. split; [done|].
    intros j d' Hj Hd'. apply (Hfirst j d' Hj).
    rewrite lookup_app_l in Hd'; [done|].
    apply lookup_lt_Some in Hd. lia.
  - pose proof (proj1 (findPage_None_iff path l1) H1) as Hno1.
    destruct (fst (PageRouter.findPage path l2)) as [j|] eqn:H2; simpl.
    + apply findPage_index_iff in H2 as (d & Hd & Hm & Hfirst).
      apply findPage_index_iff. exists d.
      split; [by rewrite lookup_app_r, Nat.add_comm, Nat.add_sub by lia|].
      split; [done|]. intros k d' Hk Hd'.
      destruct (decide (k < length l1)) as [Hlt|Hge].
      * rewrite lookup_app_l in Hd' by done.
        apply Hno1. by eapply list_elem_of_lookup_2.
      * rewrite lookup_app_r in Hd' by lia.
        apply (Hfirst (k - length l1) d'); [lia|done].
    + apply findPage_None_iff. intros d [Hd|Hd]%elem_of_app.
      * by apply Hno1.
      * by apply (proj1 (findPage_None_iff path l2) H2).
Qed.

(** ** The suffix of a name and the period of a URL *)

Lemma rfind_go_dot s : forall i last,
  (PyStr.rfind_go "."%char s i last = last /\ Spec.no_dot s)
  \/ exists pre post,
       s = pre +:+ String "."%char post
       /\ PyStr.rfind_go "."%char s i last
          = (i + Z.of_nat (String.length pre))%Z
       /\ Spec.no_dot post.
Proof.
  induction s as [|d s IH]; intros i last; simpl.
  - left. split; [done|apply no_dot_nil].
  - destruct (IH (i + 1)%Z (if Ascii.eqb d "."%char then i else last))
      as [[Hr Hnd] | (pre & post & -> & Hr & Hnd)].
    + rewrite Hr. destruct (Ascii.eqb_spec d "."%char) as [->|Hd].
      * right. exists "", s. simpl. split; [done|]. split; [lia|done].
      * left. split; [done|]. by apply no_dot_cons.
    + right. exists (String d pre), post. split; [done|]. split; [|done].
      rewrite Hr. simpl String.length. lia.
Qed.

Lemma slice_from_app pre s :
  PyStr.slice_from (String.length pre) (pre +:+ s) = s.
Proof. induction pre; simpl; [by destruct s|done]. Qed.

(** A name with a suffix: a non-empty stem, a period, and an extension
    that is not empty and has no period. *)
Lemma suffix_inv name :
  Pathlib.suffix name <> "" ->
  exists pre e,
    name = pre +:+ String "."%char e /\ Spec.no_dot e
    /\ Pathlib.suffix name = String "."%char e /\ pre <> "" /\ e <> "".
Proof.
  unfold Pathlib.suffix, PyStr.rfind.
  destruct (rfind_go_dot name 0 (-1))
    as [[-> _] | (pre & e & -> & -> & Hnd)]; [done|].
  rewrite string_app_length. simpl String.length.
  destruct (_ && _) eqn:Hc; [|done]. intros _.
  apply andb_true_iff in Hc as [H1 H2].
  apply Z.ltb_lt in H1, H2.
  exists pre, e. split; [done|]. split; [done|].
  replace (Z.to_nat (0 + Z.of_nat (String.length pre)))
    with (String.length pre) by lia.
  rewrite slice_from_app. split; [done|].
  split; [destruct pre | destruct e]; simpl in *; try done; lia.
Qed.

Lemma qualifies_name f :
  Spec.qualifies f = true ->
  exists pre e,
    name f = pre +:+ String "."%char e /\ Spec.no_dot e
    /\ PyStr.lower (String "."%char e) ∈ [".html"; ".css"; ".js"].
Proof.
  intros [_ Hin]%qualifies_iff.
  destruct (suffix_inv (name f)) as (pre & e & Hn & Hnd & Hs & _).
  { intros Hs. rewrite Hs in Hin.
    repeat (apply elem_of_cons in Hin as [Hin|Hin]; [discriminate Hin|]).
    by apply elem_of_nil in Hin. }
  rewrite Hs in Hin. eauto.
Qed.

Lemma no_dot_app_dot x e : ~ Spec.no_dot (x +:+ String "."%char e).
Proof.
  induction x as [|c x IH]; simpl.
  - intros H. by apply (H 0).
  - intros [_ H]%no_dot_cons. by apply IH.
Qed.

Lemma no_dot_contains_nogz s :
  Spec.no_dot s -> PyStr.contains ".nogz" s = false.
Proof.
  induction s as [|c s IH]; intros Hnd; [done|].
  apply no_dot_cons in Hnd as [Hc Hnd].
  change (PyStr.startswith ".nogz" (String c s) || PyStr.contains ".nogz" s
          = false).
  rewrite (IH Hnd), orb_false_r. unfold PyStr.startswith.
  rewrite prefix_cons. by destruct (ascii_dec "." c) as [<-|].
Qed.

(** An occurrence of [.nogz] that starts before a period ends before
    it. *)
Lemma startswith_nogz_dot c a b :
  PyStr.startswith ".nogz" (String c a +:+ String "."%char b)
  = PyStr.startswith ".nogz" (String c a).
Proof.
  unfold PyStr.startswith.
  destruct a as [|c1 [|c2 [|c3 [|c4 a]]]]; cbn [String.append];
    repeat (rewrite ?prefix_cons, ?prefix_nil_r, ?prefix_nil_l;
            try match goal with
            | |- context [ascii_dec ?x ?y] =>
                destruct (ascii_dec x y) as [E|E];
                [try discriminate E; subst|]
            end; try done).
Qed.

Lemma replace_go_nogz_dot e : forall a k,
  k <= String.length a ->
  PyStr.replace_go ".nogz" "" k (a +:+ String "."%char e)
  = PyStr.replace_go ".nogz" "" k a
    +:+ PyStr.replace_go ".nogz" "" 0 (String "."%char e).
Proof.
  induction a as [|c a IH]; intros k Hk.
  - simpl in Hk. by replace k with 0 by lia.
  - destruct k as [|k].
    + change (PyStr.replace_go ".nogz" "" 0 (String c a +:+ String "."%char e))
        with (if PyStr.startswith ".nogz" (String c a +:+ String "."%char e)
              then "" +:+ PyStr.replace_go ".nogz" "" 4
                            (a +:+ String "."%char e)
              else String c
                     (PyStr.replace_go ".nogz" "" 0 (a +:+ String "."%char e))).
      change (PyStr.replace_go ".nogz" "" 0 (String c a))
        with (if PyStr.startswith ".nogz" (String c a)
              then "" +:+ PyStr.replace_go ".nogz" "" 4 a
              else String c (PyStr.replace_go ".nogz" "" 0 a)).
      rewrite startswith_nogz_dot.
      destruct (PyStr.startswith ".nogz" (String c a)) eqn:Hs.
      * apply startswith_length in Hs. simpl in Hs.
        simpl. apply IH. lia.
      * simpl. f_equal. apply IH. lia.
    + simpl in *. apply IH. lia.
Qed.

(** The URL of a qualifying file other than [index.html] keeps the
    extension of the name, period and all. *)
Lemma url_keeps_extension f :
  Spec.qualifies f = true -> name f <> "index.html" ->
  exists x e, url_of (name f) = x +:+ String "."%char e.
Proof.
  intros (pre & e & Hn & Hnd & Hin)%qualifies_name Hne.
  unfold url_of. destruct (String.eqb_spec (name f) "index.html"); [done|].
  rewrite Hn. unfold PyStr.replace.
  rewrite replace_go_nogz_dot by lia.
  assert (PyStr.replace ".nogz" "" (String "."%char e) = String "."%char e)
    as Hkeep.
  { apply replace_nogz_absent.
    change (PyStr.startswith ".nogz" (String "."%char e)
            || PyStr.contains ".nogz" e = false).
    rewrite (no_dot_contains_nogz e Hnd), orb_false_r.
    unfold PyStr.startswith. rewrite prefix_cons.
    destruct (ascii_dec "." ".") as [_|]; [|done].
    destruct e as [|c e]; [done|]. rewrite prefix_cons.
    destruct (ascii_dec "n" c) as [<-|]; [|done].
    exfalso. clear -Hin.
    repeat (apply elem_of_cons in Hin as [Hin|Hin]; [discriminate Hin|]).
    by apply elem_of_nil in Hin. }
  unfold PyStr.replace in Hkeep. rewrite Hkeep.
  exists ("/" +:+ PyStr.replace_go ".nogz" "" 0 pre), e.
  by rewrite string_app_assoc.
Qed.

Lemma url_has_dot f :
  Spec.qualifies f = true -> name f <> "index.html" ->
  ~ Spec.no_dot (url_of (name f)).
Proof.
  intros Hq Hne. destruct (url_keeps_extension f Hq Hne) as (x & e & ->).
  apply no_dot_app_dot.
Qed.

(** The element of the table made from a qualifying entry. *)
Lemma table_entry (uc : PyStr.Unicode) (zl : Zlib)
    (clock : nat -> N) listing f :
  f ∈ listing -> Spec.qualifies f = true ->
  exists k d,
    Spec.sources listing !! k = Some f
    /\ PageRouter.table_of (gen_pages clock listing) !! k = Some d
    /\ PageRouter.Page.path d = url_of (name f).
Proof.
  intros Hin Hq.
  assert (f ∈ Spec.sources listing) as [k Hk]%list_elem_of_lookup.
  { rewrite sources_Permutation. apply list_elem_of_filter.
    split; [by apply Is_true_true|done]. }
  destruct (Forall2_lookup_l _ _ _ k f (gen_pages_fields uc zl clock listing) Hk)
    as (p & Hp & Hurl & _).
  exists k. eexists. split; [done|].
  unfold PageRouter.table_of. rewrite list_lookup_fmap, Hp. simpl.
  split; [done|]. done.
Qed.

Lemma table_entry_source (uc : PyStr.Unicode) (zl : Zlib)
    (clock : nat -> N) listing i d :
  PageRouter.table_of (gen_pages clock listing) !! i = Some d ->
  exists f, Spec.sources listing !! i = Some f
    /\ Spec.qualifies f = true
    /\ PageRouter.Page.path d = url_of (name f).
Proof.
  unfold PageRouter.table_of. rewrite list_lookup_fmap.
  destruct (gen_pages clock listing !! i) as [p|] eqn:Hp; [|done].
  intros [= <-].
  destruct (Forall2_lookup_r _ _ _ i p (gen_pages_fields uc zl clock listing) Hp)
    as (f & Hf & Hurl & _).
  exists f. split; [done|]. split; [|done].
  apply list_elem_of_lookup_2 in Hf.
  unfold Spec.sources in Hf. apply list_elem_of_filter in Hf as [Hq _].
  by apply Is_true_true.
Qed.

(** X6. Every asset but index.html is found under its own URL: its URL
    keeps the extension of the file, so it holds a period, and findPage
    on it returns a descriptor of exactly that URL. *)
Theorem asset_found_at_its_url (uc : PyStr.Unicode) (zl : Zlib)
    (clock : nat -> N) listing f :
  f ∈ listing -> Spec.qualifies f = true -> name f <> "index.html" ->
  let table := PageRouter.table_of (gen_pages clock listing) in
  exists i d,
    fst (PageRouter.findPage (url_of (name f)) table) = Some i
    /\ table !! i = Some d
    /\ PageRouter.Page.path d = url_of (name f).
Proof.
  intros Hin Hq Hne table.
  destruct (table_entry uc zl clock listing f Hin Hq) as (k & d & _ & Hd & Hurl).
  destruct (findPage_finds (url_of (name f)) table k d Hd (or_introl Hurl))
    as (i & d' & _ & Hf & Hd' & Hm).
  exists i, d'. split; [done|]. split; [done|].
  by apply (matches_dotted _ _ (url_has_dot f Hq Hne)).
Qed.

Lemma StronglySorted_lookup {A} (R : relation A) l : forall i j x y,
  StronglySorted R l -> l !! i = Some x -> l !! j = Some y -> i < j -> R x y.
Proof.
  induction l as [|a l IH]; intros i j x y Hs Hi Hj Hlt; [done|].
  apply StronglySorted_inv in Hs as [Hs Ha].
  destruct j as [|j]; [lia|]. simpl in Hj.
  destruct i as [|i]; simpl in Hi.
  - injection Hi as ->. rewrite Forall_forall in Ha.
    apply Ha. by eapply list_elem_of_lookup_2.
  - apply (IH i j); [done..|lia].
Qed.

(** Only [index.html] is served at [/]. *)
Lemma url_root f :
  Spec.qualifies f = true -> url_of (name f) = "/" -> name f = "index.html".
Proof.
  intros Hq Hurl.
  destruct (decide (name f = "index.html")) as [|Hne]; [done|].
  destruct (url_has_dot f Hq Hne). rewrite Hurl.
  intros [|[|i]]; done.
Qed.

(** X7. An asset whose file name begins with a period (.eslintrc.js,
    say; not .nogz) has a URL of the form /.rest, which the rule for
    paths without extension matches against the path /.  Such a file
    makes findPage answer the request for / with a descriptor other
    than the one of index.html, which sorts behind it. *)
Theorem dotfile_takes_root (uc : PyStr.Unicode) (zl : Zlib)
    (clock : nat -> N) listing g :
  g ∈ listing -> Spec.qualifies g = true ->
  PyStr.startswith "." (name g) = true ->
  PyStr.startswith ".nogz" (name g) = false ->
  let table := PageRouter.table_of (gen_pages clock listing) in
  exists i d rest,
    fst (PageRouter.findPage "/" table) = Some i
    /\ table !! i = Some d
    /\ PageRouter.Page.path d = "/." +:+ rest.
Proof.
  intros Hin Hq Hdot Hnogz table.
  destruct (table_entry uc zl clock listing g Hin Hq) as (k & dg & Hk & Hdg & Hurl).
  destruct (startswith_app "." (name g) Hdot) as [r Hr].
  assert (name g <> "index.html") as Hne by (by rewrite Hr).
  assert (PageRouter.Page.path dg
          = "/." +:+ PyStr.replace ".nogz" "" r) as Hpath.
  { rewrite Hurl. unfold url_of.
    destruct (String.eqb_spec (name g) "index.html"); [done|].
    rewrite Hr in Hnogz |- *. unfold PyStr.replace.
    change (PyStr.replace_go ".nogz" "" 0 ("." +:+ r))
      with (if PyStr.startswith ".nogz" ("." +:+ r)
            then "" +:+ PyStr.replace_go ".nogz" "" 4 r
            else String "."%char (PyStr.replace_go ".nogz" "" 0 r)).
    by rewrite Hnogz. }
  assert (Spec.no_dot "/") as Hroot by (intros [|[|i]]; done).
  assert (Spec.matches "/" dg) as Hm.
  { right. split; [done|]. rewrite Hpath. eauto. }
  destruct (findPage_finds "/" table k dg Hdg Hm)
    as (i & d & Hik & Hf & Hd & [Hexact | (_ & rest & Hrest)]).
  2:{ exists i, d, rest. done. }
  exfalso.
  destruct (table_entry_source uc zl clock listing i d Hd)
    as (f & Hfi & Hqf & Hurlf).
  assert (name f = "index.html") as Hindex
    by (apply url_root; [done|congruence]).
  destruct (decide (i = k)) as [->|Hik'].
  - rewrite Hk in Hfi. injection Hfi as ->. done.
  - assert (path_le f g) as Hle.
    { apply (StronglySorted_lookup path_le (Spec.sources listing) i k);
        [apply sources_StronglySorted|done..|lia]. }
    unfold path_le in Hle. rewrite Hindex, Hr in Hle. done.
Qed.

Lemma asset_found_at_its_url_witness :
  let listing := [Path "style.css" (Some [x61]); Path "index.html" (Some []);
                  Path "app.nogz.js" (Some [x62])] in
  let table :=
    PageRouter.table_of
      (gen_pages (uc := PyStr.caseless) (zl := Stored.zlib)
          (fun _ => 1700000000%N) listing) in
  exists i d,
    fst (PageRouter.findPage (url_of "app.nogz.js") table) = Some i
    /\ table !! i = Some d
    /\ PageRouter.Page.path d = url_of "app.nogz.js".
Proof.
  apply (asset_found_at_its_url PyStr.caseless Stored.zlib (fun _ => 1700000000%N)
           [Path "style.css" (Some [x61]); Path "index.html" (Some []);
            Path "app.nogz.js" (Some [x62])]
           (Path "app.nogz.js" (Some [x62]))).
  - do 2 apply list_elem_of_further. apply list_elem_of_here.
  - reflexivity.
  - discriminate.
Defined.

Lemma dotfile_takes_root_witness :
  let listing := [Path "index.html" (Some [x61]);
                  Path ".eslintrc.js" (Some [x62])] in
  let table :=
    PageRouter.table_of
      (gen_pages (uc := PyStr.caseless) (zl := Stored.zlib)
          (fun _ => 1700000000%N) listing) in
  exists i d rest,
    fst (PageRouter.findPage "/" table) = Some i
    /\ table !! i = Some d
    /\ PageRouter.Page.path d = "/." +:+ rest.
Proof.
  apply (dotfile_takes_root PyStr.caseless Stored.zlib (fun _ => 1700000000%N)
           [Path "index.html" (Some [x61]); Path ".eslintrc.js" (Some [x62])]
           (Path ".eslintrc.js" (Some [x62]))).
  - apply list_elem_of_further, list_elem_of_here.
  - reflexivity.
  - reflexivity.
  - reflexivity.
Defined.

(** ** Sizes *)

Lemma length_pack_L n : length (Struct.pack_L n) = 4.
Proof. done. Qed.

Lemma length_compress (zl : Zlib) now raw level :
  length (Gzip.compress now raw level)
  = 18 + length (raw_deflate level raw).
Proof.
  unfold Gzip.compress, Gzip.create_simple_gzip_header.
  rewrite !length_app, !length_pack_L. simpl. lia.
Qed.

(** X8. A compressed asset is stored as a gzip member: its data begin
    with 1f 8b 08 00 and are 18 bytes longer than the deflate stream of
    the file (10 of header, 8 of trailer).  So a compressed asset is
    never empty: the length is 0 exactly for an empty file that opted
    out of compression. *)
Theorem compressed_size (uc : PyStr.Unicode) (zl : Zlib)
    (clock : nat -> N) (listing : list path) :
  Forall2 (fun f p =>
      exists raw, file f = Some raw
        /\ (Page.gzip p = true ->
            take 4 (Page.data p) = [x1f; x8b; x08; x00]
            /\ Page.len p = 18 + length (raw_deflate 9 raw))
        /\ (Page.len p = 0 <-> Page.gzip p = false /\ raw = []))
    (Spec.sources listing) (gen_pages clock listing).
Proof.
  eapply Forall2_impl; [apply gen_pages_fields|].
  intros f p (_ & Hgz & _ & Hlen & raw & Hfile & Hraw & Hcomp).
  exists raw. split; [done|]. rewrite Hgz, Hlen.
  destruct (is_nogz (name f)); simpl.
  - rewrite (Hraw eq_refl). split; [done|].
    split; [intros ?%nil_length_inv; done|by intros [_ ->]].
  - destruct (Hcomp eq_refl) as [t ->]. rewrite length_compress.
    split; [done|]. split; [lia|by intros [? _]].
Qed.

(** X9. The fallback of generate_pages.py looks at the entries of
    src/web/build, not at the assets among them: a directory that is
    not empty but holds no .html, .css or .js file makes the script
    write the three sources with an empty table (and print that 0
    assets were generated); findPage over that table finds nothing. *)
Theorem regenerates_without_assets (uc : PyStr.Unicode) (zl : Zlib)
    (clock : nat -> N)
    (listing : list path) (old : generated) :
  listing <> [] -> filter Spec.qualifies listing = [] ->
  script clock (World (Some listing) old)
  = {| stdout := ["Generated 0 web assets"];
       src := {| web_pages_h := Some (write_pages_h []);
                 web_pages_cpp := Some (write_pages_cpp []);
                 page_router_cpp := Some (write_router_cpp []) |};
       exited := None |}
  /\ forall path,
       PageRouter.findPage path (PageRouter.table_of (gen_pages clock listing))
       = (None, []).
Proof.
  intros Hne Hnone.
  assert (gen_pages clock listing = []) as Hpages.
  { pose proof (gen_pages_spec clock listing) as HF.
    assert (Spec.sources listing = []) as Hs.
    { apply Permutation_nil_r. by rewrite sources_Permutation, Hnone. }
    rewrite Hs in HF. by apply Forall2_nil_inv_l in HF. }
  split; [|by rewrite Hpages].
  unfold script, gen. destruct listing as [|f listing]; [done|].
  cbn [nothing_to_do WEB default from_option id]. by rewrite Hpages.
Qed.

Lemma regenerates_without_assets_witness :
  let listing := [Path "logo.png" (Some [x89]); Path "fonts" None] in
  let old := Generated (Some "old h") (Some "old cpp") (Some "old router") in
  script (uc := PyStr.caseless) (zl := Stored.zlib)
      (fun _ => 0%N) (World (Some listing) old)
  = {| stdout := ["Generated 0 web assets"];
       src := {| web_pages_h := Some (write_pages_h []);
                 web_pages_cpp := Some (write_pages_cpp []);
                 page_router_cpp := Some (write_router_cpp []) |};
       exited := None |}
  /\ forall path,
       PageRouter.findPage path
         (PageRouter.table_of
            (gen_pages (uc := PyStr.caseless) (zl := Stored.zlib)
                (fun _ => 0%N) listing))
       = (None, []).
Proof.
  apply (regenerates_without_assets PyStr.caseless Stored.zlib);
    [discriminate|reflexivity].
Defined.

(** ** convert_v8.py: the pixel format *)

Lemma channel_range c : (0 <= ConvertV8.channel c < 256)%Z.
Proof.
  unfold ConvertV8.channel. pose proof (Byte.to_N_bounded c). lia.
Qed.

Lemma channel_field5 c :
  Z.land (Z.shiftr (ConvertV8.channel c) 3) 31 = (ConvertV8.channel c / 8)%Z.
Proof. by destruct c. Qed.

Lemma channel_field6 c :
  Z.land (Z.shiftr (ConvertV8.channel c) 2) 63 = (ConvertV8.channel c / 4)%Z.
Proof. by destruct c. Qed.

Lemma rgb565_fields_check :
  forallb (fun r5 => forallb (fun g6 => forallb (fun b5 =>
    Z.eqb (Z.lor (Z.lor (Z.shiftl (Z.of_nat r5) 11) (Z.shiftl (Z.of_nat g6) 5))
                 (Z.of_nat b5))
          (2048 * Z.of_nat r5 + 32 * Z.of_nat g6 + Z.of_nat b5))
    (seq 0 32)) (seq 0 64)) (seq 0 32) = true.
Proof. vm_compute. reflexivity. Qed.

Lemma rgb565_fields_sum (r5 g6 b5 : Z) :
  (0 <= r5 < 32)%Z -> (0 <= g6 < 64)%Z -> (0 <= b5 < 32)%Z ->
  Z.lor (Z.lor (Z.shiftl r5 11) (Z.shiftl g6 5)) b5
  = (2048 * r5 + 32 * g6 + b5)%Z.
Proof.
  intros Hr Hg Hb.
  pose proof rgb565_fields_check as H.
  rewrite forallb_forall in H.
  specialize (H (Z.to_nat r5)). rewrite in_seq in H.
  specialize (H ltac:(lia)). rewrite forallb_forall in H.
  specialize (H (Z.to_nat g6)). rewrite in_seq in H.
  specialize (H ltac:(lia)). rewrite forallb_forall in H.
  specialize (H (Z.to_nat b5)). rewrite in_seq in H.
  specialize (H ltac:(lia)). apply Z.eqb_eq in H.
  by rewrite !Z2Nat.id in H by lia.
Qed.

Lemma rgb565_value r g b :
  ConvertV8.rgb565 (ConvertV8.channel r) (ConvertV8.channel g)
    (ConvertV8.channel b)
  = (2048 * (ConvertV8.channel r / 8) + 32 * (ConvertV8.channel g / 4)
     + ConvertV8.channel b / 8)%Z.
Proof.
  unfold ConvertV8.rgb565. cbv zeta.
  rewrite !channel_field5, channel_field6.
  pose proof (channel_range r). pose proof (channel_range g).
  pose proof (channel_range b).
  apply rgb565_fields_sum.
  - split; [apply Z.div_pos; lia | apply Z.div_lt_upper_bound; lia].
  - split; [apply Z.div_pos; lia | apply Z.div_lt_upper_bound; lia].
  - split; [apply Z.div_pos; lia | apply Z.div_lt_upper_bound; lia].
Qed.

Lemma rgb565_range r g b :
  (0 <= ConvertV8.rgb565 (ConvertV8.channel r) (ConvertV8.channel g)
          (ConvertV8.channel b) < 65536)%Z.
Proof.
  rewrite rgb565_value.
  pose proof (channel_range r). pose proof (channel_range g).
  pose proof (channel_range b).
  assert (0 <= ConvertV8.channel r / 8 < 32)%Z
    by (split; [apply Z.div_pos; lia | apply Z.div_lt_upper_bound; lia]).
  assert (0 <= ConvertV8.channel g / 4 < 64)%Z
    by (split; [apply Z.div_pos; lia | apply Z.div_lt_upper_bound; lia]).
  assert (0 <= ConvertV8.channel b / 8 < 32)%Z
    by (split; [apply Z.div_pos; lia | apply Z.div_lt_upper_bound; lia]).
  lia.
Qed.

Lemma pixel_bytes_value r g b a :
  let v := ConvertV8.rgb565 (ConvertV8.channel r) (ConvertV8.channel g)
             (ConvertV8.channel b) in
  ConvertV8.pixel_bytes (r, g, b, a)
  = [(v mod 256)%Z; (v / 256)%Z; ConvertV8.channel a].
Proof.
  intros v. unfold ConvertV8.pixel_bytes. fold v.
  pose proof (rgb565_range r g b) as Hv. fold v in Hv.
  change 255%Z with (Z.ones 8).
  rewrite !Z.land_ones, Z.shiftr_div_pow2 by lia.
  change (2 ^ 8)%Z with 256%Z.
  rewrite (Z.mod_small (v / 256)); [done|].
  split; [apply Z.div_pos; lia | apply Z.div_lt_upper_bound; lia].
Qed.

Lemma pixel_bytes_range px :
  Forall (fun x => 0 <= x < 256)%Z (ConvertV8.pixel_bytes px).
Proof.
  destruct px as [[[r g] b] a]. rewrite pixel_bytes_value.
  pose proof (rgb565_range r g b).
  repeat constructor.
  - apply Z.mod_pos_bound; lia.
  - apply Z.mod_pos_bound; lia.
  - apply Z.div_pos; lia.
  - apply Z.div_lt_upper_bound; lia.
  - apply channel_range.
  - apply channel_range.
Qed.

(** X10. convert_v8.py packs a pixel as RGB565: the number is
    2048 * (r / 8) + 32 * (g / 4) + b / 8, the three array elements of
    the pixel are its low byte, its high byte and alpha, and each lies
    in 0..255. *)
Theorem pixel_is_rgb565_le_alpha (r g b a : byte) :
  let v := (2048 * (ConvertV8.channel r / 8) + 32 * (ConvertV8.channel g / 4)
            + ConvertV8.channel b / 8)%Z in
  ConvertV8.rgb565 (ConvertV8.channel r) (ConvertV8.channel g)
    (ConvertV8.channel b) = v /\
  ConvertV8.pixel_bytes (r, g, b, a)
  = [(v mod 256)%Z; (v / 256)%Z; ConvertV8.channel a] /\
  Forall (fun x => 0 <= x < 256)%Z (ConvertV8.pixel_bytes (r, g, b, a)).
Proof.
  intros v. split; [apply rgb565_value|]. split.
  - rewrite pixel_bytes_value. by rewrite rgb565_value.
  - apply pixel_bytes_range.
Qed.

(** ** convert_v8.py: the rows of the array *)

Lemma succ_mod_next (i w : nat) :
  (i mod w + 1 < w)%nat -> (S i mod w)%nat = S (i mod w).
Proof.
  intros H. symmetry. apply (Nat.mod_unique (S i) w (i / w)); [lia|].
  pose proof (Nat.div_mod_eq i w). lia.
Qed.

Lemma succ_mod_wrap (i w : nat) :
  (i mod w + 1 = w)%nat -> (S i mod w)%nat = 0%nat.
Proof.
  intros H. symmetry. apply (Nat.mod_unique (S i) w (S (i / w))); [lia|].
  pose proof (Nat.div_mod_eq i w). rewrite Nat.mul_succ_r. lia.
Qed.

Lemma rows_loop_step (w i : nat) px rest lines rb :
  (0 < w)%nat ->
  ConvertV8.rows_loop (Z.of_nat w) (Z.of_nat i) (px :: rest) lines rb
  = if (S i mod w =? 0)%nat
    then ConvertV8.rows_loop (Z.of_nat w) (Z.of_nat (S i)) rest
           (lines ++ [ConvertV8.row_line (rb ++ ConvertV8.pixel_bytes px)]) []
    else ConvertV8.rows_loop (Z.of_nat w) (Z.of_nat (S i)) rest lines
           (rb ++ ConvertV8.pixel_bytes px).
Proof.
  intros Hw. cbn [ConvertV8.rows_loop].
  destruct (Z.eqb_spec (Z.of_nat w) 0) as [|_]; [lia|].
  replace (Z.of_nat i + 1)%Z with (Z.of_nat (S i)) by lia.
  rewrite <- Nat2Z.inj_mod.
  destruct (Nat.eqb_spec (S i mod w) 0) as [E|E].
  - rewrite E. done.
  - destruct (Z.eqb_spec (Z.of_nat (S i mod w)) 0); [lia|done].
Qed.

Lemma rows_loop_within (w : nat) part : forall i lines rb rest,
  (0 < w)%nat ->
  (i mod w + length part < w)%nat ->
  ConvertV8.rows_loop (Z.of_nat w) (Z.of_nat i) (part ++ rest) lines rb
  = ConvertV8.rows_loop (Z.of_nat w) (Z.of_nat (i + length part)) rest lines
      (rb ++ flat_map ConvertV8.pixel_bytes part).
Proof.
  induction part as [|px part IH]; intros i lines rb rest Hw Hlen.
  - cbn. by rewrite Nat.add_0_r, app_nil_r.
  - cbn [app length flat_map] in *.
    rewrite rows_loop_step by done.
    rewrite succ_mod_next by lia.
    cbn [Nat.eqb].
    rewrite IH; [|done|rewrite succ_mod_next; lia].
    rewrite <- app_assoc. f_equal. f_equal. lia.
Qed.

Lemma rows_loop_row (w : nat) row rest k lines :
  (0 < w)%nat -> length row = w ->
  ConvertV8.rows_loop (Z.of_nat w) (Z.of_nat (k * w)) (row ++ rest) lines []
  = ConvertV8.rows_loop (Z.of_nat w) (Z.of_nat (S k * w)) rest
      (lines ++ [ConvertV8.row_line (flat_map ConvertV8.pixel_bytes row)]) [].
Proof.
  intros Hw Hlen.
  destruct (decide (row = [])) as [->|Hne]; [cbn in Hlen; lia|].
  destruct (exists_last Hne) as (part & px & ->).
  rewrite length_app in Hlen. cbn in Hlen.
  rewrite <- app_assoc. cbn [app].
  assert ((k * w) mod w = 0)%nat as Hmod by apply Nat.Div0.mod_mul.
  rewrite rows_loop_within by lia.
  rewrite rows_loop_step by done.
  assert ((k * w + length part) mod w + 1 = w)%nat as Hlast.
  { rewrite (Nat.add_comm (k * w)), Nat.Div0.mod_add, Nat.mod_small; lia. }
  rewrite succ_mod_wrap by done. cbn [Nat.eqb app].
  rewrite flat_map_app. cbn [flat_map]. rewrite app_nil_r.
  f_equal. f_equal. lia.
Qed.

Lemma rows_loop_rows (w : nat) rows : forall k lines,
  (0 < w)%nat -> Forall (fun row => length row = w) rows ->
  ConvertV8.rows_loop (Z.of_nat w) (Z.of_nat (k * w)) (concat rows) lines []
  = Some (lines
          ++ ((fun row => ConvertV8.row_line
                            (flat_map ConvertV8.pixel_bytes row)) <$> rows)).
Proof.
  induction rows as [|row rows IH]; intros k lines Hw Hrows.
  - cbn. by rewrite app_nil_r.
  - apply Forall_cons in Hrows as [Hrow Hrows].
    cbn [concat]. rewrite rows_loop_row by done.
    rewrite IH by done. by rewrite <- app_assoc.
Qed.

Lemma split_rows (w : nat) : forall (h : nat) {A} (pixels : list A),
  length pixels = (w * h)%nat ->
  exists rows, pixels = concat rows /\ length rows = h /\
               Forall (fun row => length row = w) rows.
Proof.
  induction h as [|h IH]; intros A pixels Hlen.
  - exists []. rewrite Nat.mul_0_r in Hlen.
    apply length_zero_iff_nil in Hlen. by subst.
  - destruct (IH A (drop w pixels)) as (rows & Hrows & Hh & Hall).
    { rewrite length_drop. lia. }
    exists (take w pixels :: rows). split; [|split].
    + cbn [concat]. by rewrite <- Hrows, take_drop.
    + cbn. by rewrite Hh.
    + constructor; [|done]. rewrite length_take. lia.
Qed.

(** X11. For an image of width w > 0 whose pixels come row after row,
    convert_v8.py succeeds and the array text has one line per image
    row, in order: the line of a row holds the bytes of its pixels and
    nothing of another row. *)
Theorem one_line_per_row (uc : PyStr.Unicode)
    (w : nat) (rows : list (list (byte * byte * byte * byte)))
    (basename out_path name : string) :
  (0 < w)%nat -> Forall (fun row => length row = w) rows ->
  exists c,
    ConvertV8.png_to_lvgl_v8
      (ConvertV8.Image (Z.of_nat w, Z.of_nat (length rows)) (concat rows))
      basename out_path name = Some c /\
    ConvertV8.data_str c
    = String.concat ConvertV8.nl
        ((fun row => ConvertV8.row_line (flat_map ConvertV8.pixel_bytes row))
         <$> rows).
Proof.
  intros Hw Hrows. unfold ConvertV8.png_to_lvgl_v8.
  cbn [ConvertV8.size ConvertV8.getdata].
  change 0%Z with (Z.of_nat (0 * w)).
  rewrite rows_loop_rows by done. cbn [app].
  eexists. split; [reflexivity|]. done.
Qed.

Lemma one_line_per_row_witness :
  exists c,
    ConvertV8.png_to_lvgl_v8 (uc := PyStr.caseless)
      (ConvertV8.Image (Z.of_nat 2, Z.of_nat 2)
         (concat [[(xff, x00, x00, xff); (x00, xff, x00, x80)];
                  [(x00, x00, xff, x00); (x12, x34, x56, x78)]]))
      "wK.png" "/p/wK.c" "wK" = Some c /\
    ConvertV8.data_str c
    = String.concat ConvertV8.nl
        ((fun row => ConvertV8.row_line (flat_map ConvertV8.pixel_bytes row))
         <$> [[(xff, x00, x00, xff); (x00, xff, x00, x80)];
              [(x00, x00, xff, x00); (x12, x34, x56, x78)]]).
Proof.
  apply (one_line_per_row PyStr.caseless 2
           [[(xff, x00, x00, xff); (x00, xff, x00, x80)];
            [(x00, x00, xff, x00); (x12, x34, x56, x78)]]).
  - lia.
  - repeat constructor.
Defined.

(** ** convert_v8.py: the array read back *)

Lemma format_02x_byte (b : byte) :
  ConvertV8.format_02x (Z.of_N (Byte.to_N b)) = PyStr.format_02x b.
Proof. destruct b; vm_compute; reflexivity. Qed.

Lemma format_02x_in_range (z : Z) :
  (0 <= z < 256)%Z ->
  ConvertV8.format_02x z = PyStr.format_02x (ConvertV8.byte_of_Z z).
Proof.
  intros Hz. rewrite <- format_02x_byte. f_equal.
  unfold ConvertV8.byte_of_Z. rewrite byte_of_N_to_N.
  rewrite N.mod_small by lia. lia.
Qed.

Lemma read_hex_element b rest :
  ConvertV8.read_hex_text ("0x" +:+ PyStr.format_02x b +:+ "," +:+ rest)
  = (b ::.) <$> ConvertV8.read_hex_text rest.
Proof. destruct b; cbn; by destruct (ConvertV8.read_hex_text rest). Qed.

Lemma concat_comma (f : Z -> string) zs rest :
  zs <> [] ->
  String.concat "," (f <$> zs) +:+ "," +:+ rest
  = write_each (fun z => f z +:+ ",") zs +:+ rest.
Proof.
  induction zs as [|z zs IH]; intros Hne; [done|].
  destruct zs as [|z' zs].
  - cbn [fmap list_fmap String.concat write_each].
    by rewrite string_app_nil_r, !string_app_assoc.
  - change (String.concat "," (f <$> z :: z' :: zs))
      with (f z +:+ "," +:+ String.concat "," (f <$> z' :: zs)).
    rewrite !string_app_assoc, IH by done.
    cbn [write_each]. by rewrite !string_app_assoc.
Qed.

Lemma read_hex_elements zs rest :
  Forall (fun x => 0 <= x < 256)%Z zs ->
  ConvertV8.read_hex_text
    (write_each (fun z => ("0x" +:+ ConvertV8.format_02x z) +:+ ",") zs
     +:+ rest)
  = ((ConvertV8.byte_of_Z <$> zs) ++.) <$> ConvertV8.read_hex_text rest.
Proof.
  induction 1 as [|z zs Hz _ IH].
  - cbn. by destruct (ConvertV8.read_hex_text rest).
  - cbn [write_each]. rewrite !string_app_assoc.
    rewrite format_02x_in_range by done.
    rewrite read_hex_element, IH.
    by destruct (ConvertV8.read_hex_text rest).
Qed.

Lemma read_hex_row_line zs rest :
  zs <> [] -> Forall (fun x => 0 <= x < 256)%Z zs ->
  ConvertV8.read_hex_text (ConvertV8.row_line zs +:+ rest)
  = ((ConvertV8.byte_of_Z <$> zs) ++.) <$> ConvertV8.read_hex_text rest.
Proof.
  intros Hne Hzs. unfold ConvertV8.row_line.
  rewrite !string_app_assoc.
  rewrite (concat_comma (fun z => "0x" +:+ ConvertV8.format_02x z)) by done.
  change ("    " +:+ ?s) with (String " " (String " " (String " " (String " " s)))).
  cbn [ConvertV8.read_hex_text Ascii.eqb Bool.eqb orb].
  by apply read_hex_elements.
Qed.

Lemma read_hex_lines zss :
  Forall (fun zs => zs <> [] /\ Forall (fun x => 0 <= x < 256)%Z zs) zss ->
  ConvertV8.read_hex_text
    (String.concat ConvertV8.nl (ConvertV8.row_line <$> zss))
  = Some (ConvertV8.byte_of_Z <$> concat zss).
Proof.
  induction 1 as [|zs zss [Hne Hzs] _ IH]; [done|].
  destruct zss as [|zs' zss].
  - cbn [fmap list_fmap String.concat concat].
    rewrite <- (string_app_nil_r (ConvertV8.row_line zs)).
    rewrite read_hex_row_line by done. cbn. by rewrite !app_nil_r.
  - change (String.concat ConvertV8.nl (ConvertV8.row_line <$> zs :: zs' :: zss))
      with (ConvertV8.row_line zs +:+ ConvertV8.nl
            +:+ String.concat ConvertV8.nl (ConvertV8.row_line <$> zs' :: zss)).
    rewrite read_hex_row_line by done.
    change (ConvertV8.read_hex_text (ConvertV8.nl +:+ ?s))
      with (ConvertV8.read_hex_text s).
    rewrite IH. cbn [concat]. by rewrite (fmap_app _ zs).
Qed.

Lemma flat_map_concat {A B} (f : A -> list B) (ls : list (list A)) :
  flat_map f (concat ls) = concat (flat_map f <$> ls).
Proof.
  induction ls as [|l ls IH]; [done|].
  cbn [concat fmap list_fmap]. by rewrite flat_map_app, IH.
Qed.

Lemma length_flat_map_pixel_bytes pixels :
  length (flat_map ConvertV8.pixel_bytes pixels) = (3 * length pixels)%nat.
Proof.
  induction pixels as [|[[[r g] b] a] pixels IH]; [done|].
  cbn [flat_map]. rewrite length_app, IH. cbn. lia.
Qed.

Lemma png_to_lvgl_v8_array (uc : PyStr.Unicode) img basename out_path name :
  ConvertV8.well_formed img ->
  exists c,
    ConvertV8.png_to_lvgl_v8 img basename out_path name = Some c /\
    ConvertV8.read_hex_text (ConvertV8.data_str c)
    = Some (ConvertV8.byte_of_Z
            <$> flat_map ConvertV8.pixel_bytes (ConvertV8.getdata img)) /\
    ConvertV8.data_size c
    = Z.of_nat (length (flat_map ConvertV8.pixel_bytes (ConvertV8.getdata img)))
    /\
    ConvertV8.c_code c
    = ConvertV8.template name (PyStr.upper name) basename
        (ConvertV8.str_of_Z (fst (ConvertV8.size img)))
        (ConvertV8.str_of_Z (snd (ConvertV8.size img)))
        (ConvertV8.data_str c) (ConvertV8.str_of_Z (ConvertV8.data_size c)).
Proof.
  destruct img as [[w h] pixels]. unfold ConvertV8.well_formed.
  cbn [ConvertV8.size ConvertV8.getdata fst snd].
  intros (Hw & Hh & Hlen).
  unfold ConvertV8.png_to_lvgl_v8. cbn [ConvertV8.size ConvertV8.getdata].
  rewrite length_flat_map_pixel_bytes.
  destruct (decide (w = 0%Z)) as [->|Hw0].
  - destruct pixels; [|cbn in Hlen; lia].
    cbn [ConvertV8.rows_loop]. eexists. split; [reflexivity|].
    cbn [ConvertV8.data_str ConvertV8.data_size ConvertV8.c_code].
    split; [done|]. split; [cbn; lia|done].
  - destruct (split_rows (Z.to_nat w) (Z.to_nat h) pixels)
      as (rows & -> & Hrows & Hall); [lia|].
    rewrite <- (Z2Nat.id w) by lia.
    change 0%Z with (Z.of_nat (0 * Z.to_nat w)).
    rewrite rows_loop_rows by (done || lia). cbn [app].
    eexists. split; [reflexivity|].
    cbn [ConvertV8.data_str ConvertV8.data_size ConvertV8.c_code].
    split; [|split; [lia|done]].
    rewrite flat_map_concat.
    rewrite <- read_hex_lines.
    + by rewrite <- list_fmap_compose.
    + apply Forall_fmap. eapply Forall_impl; [exact Hall|].
      intros row Hrow. cbn. split.
      * destruct row as [|[[[r g] b] a] row]; [cbn in Hrow; lia|done].
      * clear Hrow. induction row as [|px row IH]; [constructor|].
        cbn [flat_map]. apply Forall_app. split; [apply pixel_bytes_range|done].
Qed.

Lemma unlines_app l1 l2 : unlines (l1 ++ l2) = unlines l1 +:+ unlines l2.
Proof.
  induction l1 as [|l l1 IH]; [done|].
  cbn [app unlines]. by rewrite IH, !string_app_assoc.
Qed.

(** X12. For every image PIL can open (both sides positive, as many
    pixels as the size says) the conversion succeeds, and the text it
    writes to the .c file holds the array [<name>_map], whose elements
    read back as the bytes of the pixels in order, three per pixel, and
    the constant [.data_size], which reads back as the number of these
    elements. *)
Theorem data_size_counts_array (uc : PyStr.Unicode) img basename out_path
    name :
  ConvertV8.opened img ->
  exists c before elements between constant after,
    ConvertV8.png_to_lvgl_v8 img basename out_path name = Some c /\
    ConvertV8.c_code c
    = before
      +:+ "uint8_t " +:+ name +:+ "_map[] = {" +:+ ConvertV8.nl
      +:+ elements +:+ ConvertV8.nl
      +:+ "};" +:+ ConvertV8.nl
      +:+ between
      +:+ "  .data_size = " +:+ constant +:+ "," +:+ ConvertV8.nl
      +:+ after /\
    ConvertV8.read_hex_text elements
    = Some (ConvertV8.byte_of_Z
            <$> flat_map ConvertV8.pixel_bytes (ConvertV8.getdata img)) /\
    Spec.read_nat constant = Some (3 * length (ConvertV8.getdata img)).
Proof.
  intros (Hwf & _ & _).
  destruct (png_to_lvgl_v8_array uc img basename out_path name Hwf)
    as (c & Hc & Hread & Hsize & Hcode).
  exists c.
  exists (unlines
            [ "/*";
              " * Auto-generated LVGL v8 image: " +:+ name;
              " * Source: " +:+ basename;
              " * Size: " +:+ ConvertV8.str_of_Z (fst (ConvertV8.size img))
                +:+ "x" +:+ ConvertV8.str_of_Z (snd (ConvertV8.size img))
                +:+ ", True color with alpha";
              " */";
              "#ifdef LV_LVGL_H_INCLUDE_SIMPLE";
              "#include " +:+ ConvertV8.dq +:+ "lvgl.h" +:+ ConvertV8.dq;
              "#else";
              "#include " +:+ ConvertV8.dq +:+ "lvgl/lvgl.h" +:+ ConvertV8.dq;
              "#endif";
              "";
              "#ifndef LV_ATTRIBUTE_MEM_ALIGN";
              "#define LV_ATTRIBUTE_MEM_ALIGN";
              "#endif";
              "";
              "#ifndef LV_ATTRIBUTE_" +:+ PyStr.upper name;
              "#define LV_ATTRIBUTE_" +:+ PyStr.upper name;
              "#endif";
              "";
              "static const";
              "LV_ATTRIBUTE_MEM_ALIGN LV_ATTRIBUTE_LARGE_CONST LV_ATTRIBUTE_"
                +:+ PyStr.upper name ]).
  exists (ConvertV8.data_str c).
  exists (unlines
            [ "";
              "const lv_img_dsc_t " +:+ name +:+ " = {";
              "  .header.always_zero = 0,";
              "  .header.w = "
                +:+ ConvertV8.str_of_Z (fst (ConvertV8.size img)) +:+ ",";
              "  .header.h = "
                +:+ ConvertV8.str_of_Z (snd (ConvertV8.size img)) +:+ ",";
              "  .header.cf = LV_IMG_CF_TRUE_COLOR_ALPHA," ]).
  exists (ConvertV8.str_of_Z (ConvertV8.data_size c)).
  exists (unlines [ "  .data = " +:+ name +:+ "_map,"; "};" ]).
  split; [done|]. split; [|split; [done|]].
  - rewrite Hcode. unfold ConvertV8.template.
    cbn [unlines]. fold ConvertV8.nl.
    by rewrite !string_app_assoc, ?string_app_nil_r.
  - rewrite Hsize. unfold ConvertV8.str_of_Z.
    rewrite Nat2Z.id, read_nat_str_of_nat.
    by rewrite length_flat_map_pixel_bytes.
Qed.

Lemma data_size_counts_array_witness :
  exists c before elements between constant after,
    ConvertV8.png_to_lvgl_v8 (uc := PyStr.caseless)
      (ConvertV8.Image (2, 1)%Z [(xff, x00, x00, xff); (x12, x34, x56, x78)])
      "wK.png" "/p/wK.c" "wK" = Some c /\
    ConvertV8.c_code c
    = before
      +:+ "uint8_t " +:+ "wK" +:+ "_map[] = {" +:+ ConvertV8.nl
      +:+ elements +:+ ConvertV8.nl
      +:+ "};" +:+ ConvertV8.nl
      +:+ between
      +:+ "  .data_size = " +:+ constant +:+ "," +:+ ConvertV8.nl
      +:+ after /\
    ConvertV8.read_hex_text elements
    = Some (ConvertV8.byte_of_Z
            <$> flat_map ConvertV8.pixel_bytes
                  [(xff, x00, x00, xff); (x12, x34, x56, x78)]) /\
    Spec.read_nat constant = Some (3 * 2).
Proof.
  apply (data_size_counts_array PyStr.caseless
           (ConvertV8.Image (2, 1)%Z
              [(xff, x00, x00, xff); (x12, x34, x56, x78)])).
  unfold ConvertV8.opened, ConvertV8.well_formed. cbn. lia.
Defined.

(** ** convert_v8.py: the run over the pieces *)

Section ConvertMain.
Context (uc : PyStr.Unicode).

Variable PIECES_DIR : string.
Variable fs : string -> ConvertV8.png_file.

Hypothesis readable : forall p, fs p <> ConvertV8.Unreadable.
Hypothesis images : forall p img,
  fs p = ConvertV8.Png img -> ConvertV8.well_formed img.

(** The file written for a piece whose PNG is there. *)
Let converts (name : string) (file : string * string) : Prop :=
  let png := ConvertV8.path_join PIECES_DIR (name +:+ ".png") in
  let out := ConvertV8.path_join PIECES_DIR (name +:+ ".c") in
  exists img c,
    fs png = ConvertV8.Png img /\
    ConvertV8.png_to_lvgl_v8 img (ConvertV8.basename png) out name = Some c /\
    file = (out, ConvertV8.c_code c).

Lemma main_loop_spec names : forall written stdout,
  exists files,
    ConvertV8.raised (ConvertV8.main_loop PIECES_DIR fs names written stdout)
    = false /\
    ConvertV8.written (ConvertV8.main_loop PIECES_DIR fs names written stdout)
    = written ++ files /\
    Forall2 converts
      (filter (fun name => ConvertV8.png_exists fs
                 (ConvertV8.path_join PIECES_DIR (name +:+ ".png"))) names)
      files.
Proof.
  induction names as [|name names IH]; intros written stdout.
  - exists []. cbn. by rewrite app_nil_r.
  - cbn [ConvertV8.main_loop]. unfold ConvertV8.png_exists at 1.
    rewrite filter_cons. unfold ConvertV8.png_exists at 1.
    destruct (fs (ConvertV8.path_join PIECES_DIR (name +:+ ".png")))
      as [| |img] eqn:Hfs.
    + rewrite decide_False by (intros []).
      apply IH.
    + by destruct (readable _ Hfs).
    + rewrite decide_True by done.
      destruct (png_to_lvgl_v8_array uc img
                  (ConvertV8.basename
                     (ConvertV8.path_join PIECES_DIR (name +:+ ".png")))
                  (ConvertV8.path_join PIECES_DIR (name +:+ ".c")) name
                  (images _ _ Hfs)) as (c & Hc & _).
      rewrite Hc.
      destruct (IH (written ++ [(ConvertV8.path_join PIECES_DIR (name +:+ ".c"),
                                 ConvertV8.c_code c)])
                   (stdout ++ [ConvertV8.printed c]))
        as (files & Hr & Hw & Hall).
      exists ((ConvertV8.path_join PIECES_DIR (name +:+ ".c"),
               ConvertV8.c_code c) :: files).
      split; [done|]. split.
      * by rewrite Hw, <- app_assoc.
      * constructor; [|done]. exists img, c. by rewrite Hfs.
Qed.

End ConvertMain.

(** X13. When every PNG that is there can be read, a run of
    convert_v8.py ends without an exception; it writes one .c file for
    each of the twelve pieces whose PNG exists, in the order of the
    list, and then pieces.h, whose text declares all twelve pieces
    whether their PNG exists or not. *)
Theorem header_declares_every_piece (uc : PyStr.Unicode)
    (PIECES_DIR : string)
    (fs : string -> ConvertV8.png_file) :
  (forall p, fs p <> ConvertV8.Unreadable) ->
  (forall p img, fs p = ConvertV8.Png img -> ConvertV8.well_formed img) ->
  let r := ConvertV8.main PIECES_DIR fs in
  ConvertV8.raised r = false /\
  exists files,
    ConvertV8.written r
    = files ++ [(ConvertV8.path_join PIECES_DIR "pieces.h",
                 ConvertV8.header_text ConvertV8.piece_names)] /\
    Forall2
      (fun name file =>
         let png := ConvertV8.path_join PIECES_DIR (name +:+ ".png") in
         let out := ConvertV8.path_join PIECES_DIR (name +:+ ".c") in
         exists img c,
           fs png = ConvertV8.Png img /\
           ConvertV8.png_to_lvgl_v8 img (ConvertV8.basename png) out name
           = Some c /\
           file = (out, ConvertV8.c_code c))
      (filter (fun name => ConvertV8.png_exists fs
                 (ConvertV8.path_join PIECES_DIR (name +:+ ".png")))
         ConvertV8.piece_names)
      files.
Proof.
  intros Hread Himg r. subst r. unfold ConvertV8.main, ConvertV8.main_of.
  destruct (main_loop_spec uc PIECES_DIR fs Hread Himg ConvertV8.piece_names []
              ["Converting "
               +:+ PyStr.str_of_nat (length ConvertV8.piece_names)
               +:+ " pieces to LVGL v8 C arrays..."])
    as (files & Hr & Hw & Hall).
  rewrite Hr. cbn [ConvertV8.raised ConvertV8.written]. split; [done|].
  exists files. rewrite Hw. split; [done|]. exact Hall.
Qed.

Lemma header_declares_every_piece_witness :
  let fs := fun p : string =>
    if String.eqb p "/p/wQ.png"
    then ConvertV8.Png (ConvertV8.Image (1, 1)%Z [(xff, x00, x00, xff)])
    else ConvertV8.Missing in
  ConvertV8.raised (ConvertV8.main (uc := PyStr.caseless) "/p" fs) = false /\
  exists files,
    ConvertV8.written (ConvertV8.main (uc := PyStr.caseless) "/p" fs)
    = files ++ [(ConvertV8.path_join "/p" "pieces.h",
                 ConvertV8.header_text ConvertV8.piece_names)] /\
    Forall2
      (fun name file =>
         let png := ConvertV8.path_join "/p" (name +:+ ".png") in
         let out := ConvertV8.path_join "/p" (name +:+ ".c") in
         exists img c,
           fs png = ConvertV8.Png img /\
           ConvertV8.png_to_lvgl_v8 (uc := PyStr.caseless) img (ConvertV8.basename png) out name
           = Some c /\
           file = (out, ConvertV8.c_code c))
      (filter (fun name => ConvertV8.png_exists fs
                 (ConvertV8.path_join "/p" (name +:+ ".png")))
         ConvertV8.piece_names)
      files.
Proof.
  intros fs. apply (header_declares_every_piece PyStr.caseless "/p" fs).
  - intros p. unfold fs. by destruct (String.eqb p "/p/wQ.png").
  - intros p img. unfold fs. destruct (String.eqb p "/p/wQ.png"); [|done].
    intros [= <-]. unfold ConvertV8.well_formed. cbn. lia.
Defined.

(** ** minify.py *)

Lemma command_exists_iff (sh : Minify.Shell) cmd :
  Minify.command_exists cmd = true
  <-> exists rc, Minify.probe cmd = Minify.CompletedProcess rc.
Proof.
  unfold Minify.command_exists.
  destruct (Minify.probe cmd) as [rc| |].
  - split; [eauto|done].
  - split; [done|by intros [? ?]].
  - split; [done|by intros [? ?]].
Qed.

Lemma script_Exit (sh : Minify.Shell) t code b out :
  Minify.script t = Minify.Exit code b out ->
  code = 0%Z /\ b = Minify.entries_of (Minify.build t)
  /\ Minify.web t <> None /\ Minify.build t <> Minify.NotDir
  /\ (Minify.command_exists "html-minifier-terser --version"
      && Minify.command_exists "cleancss --version"
      && Minify.command_exists "terser --version") = false.
Proof.
  unfold Minify.script, Minify.mkdir.
  destruct (Minify.web t) as [ws|]; [|done].
  destruct (Minify.build t) as [| |es] eqn:Hb; [|done|].
  - destruct (_ && _ && _) eqn:Hall; cbn [negb].
    + by destruct (Minify.loop _ _ _).
    + intros [= <- <- _]. done.
  - destruct (_ && _ && _) eqn:Hall; cbn [negb].
    + by destruct (Minify.loop _ _ _).
    + intros [= <- <- _]. done.
Qed.

(** X14. minify.py takes its fallback branch exactly when a version
    probe raises (a timeout, or no shell): the exit status of a probe
    is never looked at, so a tool the shell cannot find (status 127)
    counts as installed and the fallback is not taken. *)
Theorem exit_status_of_probe_is_ignored (sh : Minify.Shell) (t : Minify.tree) :
  Minify.web t <> None -> Minify.build t <> Minify.NotDir ->
  (forall cmd, cmd ∈ Minify.version_cmds ->
     exists rc, Minify.probe cmd = Minify.CompletedProcess rc)
  <-> (forall code b out, Minify.script t <> Minify.Exit code b out).
Proof.
  intros Hweb Hbuild. split.
  - intros Hall code b out Hexit.
    apply script_Exit in Hexit as (_ & _ & _ & _ & Hfalse).
    assert (forall cmd, cmd ∈ Minify.version_cmds ->
              Minify.command_exists cmd = true) as Hex.
    { intros cmd Hin. apply command_exists_iff. by apply Hall. }
    rewrite !Hex in Hfalse; [done| | |]; unfold Minify.version_cmds;
      repeat (apply list_elem_of_here || apply list_elem_of_further).
  - intros Hno cmd Hin. apply command_exists_iff.
    destruct (Minify.command_exists cmd) eqn:Hc; [done|]. exfalso.
    revert Hno. unfold Minify.script, Minify.mkdir.
    destruct (Minify.web t) as [ws|]; [|done].
    assert ((Minify.command_exists "html-minifier-terser --version"
             && Minify.command_exists "cleancss --version"
             && Minify.command_exists "terser --version") = false) as ->.
    { unfold Minify.version_cmds in Hin.
      apply elem_of_cons in Hin as [->|Hin]; [by rewrite Hc|].
      apply elem_of_cons in Hin as [->|Hin];
        [rewrite Hc; by rewrite andb_false_r|].
      apply elem_of_cons in Hin as [->|Hin];
        [rewrite Hc; by rewrite andb_false_r|].
      by apply elem_of_nil in Hin. }
    cbn [negb].
    destruct (Minify.build t); [|done|]; intros Hno; by eapply Hno.
Qed.

Lemma exit_status_of_probe_is_ignored_witness :
  let t := Minify.Tree (Some [Path "index.html" (Some [x3c; x70; x3e])])
             Minify.Absent in
  (forall cmd, cmd ∈ Minify.version_cmds ->
     exists rc,
       Minify.probe (Shell := Minify.NoTools.shell) cmd
       = Minify.CompletedProcess rc)
  <-> (forall code b out,
         Minify.script (sh := Minify.NoTools.shell) t
         <> Minify.Exit code b out).
Proof.
  intros t.
  apply (exit_status_of_probe_is_ignored Minify.NoTools.shell t); done.
Defined.

(** X15. A run of minify.py that takes the fallback branch ends with
    exit(0) and is invisible to generate_pages.py: the entries of
    src/web/build are as before (a missing directory has become an
    empty one), and generate_pages.py does on them what it would have
    done without the run. *)
Theorem skipped_minify_is_invisible (sh : Minify.Shell) (uc : PyStr.Unicode)
    (zl : Zlib)
    (clock : nat -> N) (t : Minify.tree) (old : generated)
    code b out :
  Minify.script t = Minify.Exit code b out ->
  code = 0%Z /\ b = Minify.entries_of (Minify.build t) /\
  script clock (World (Some b) old)
  = script clock (World (Minify.listing_of (Minify.build t)) old).
Proof.
  intros (-> & -> & _ & Hb & _)%script_Exit.
  split; [done|]. split; [done|].
  by destruct (Minify.build t).
Qed.

Lemma skipped_minify_is_invisible_witness :
  let t := Minify.Tree (Some [Path "index.html" (Some [x3c; x70; x3e])])
             Minify.Absent in
  let old := Generated (Some "h") (Some "cpp") (Some "router") in
  0%Z = 0%Z /\ [] = Minify.entries_of (Minify.build t) /\
  script (uc := PyStr.caseless) (zl := Stored.zlib)
      (fun _ => 0%N) (World (Some []) old)
  = script (uc := PyStr.caseless) (zl := Stored.zlib) (fun _ => 0%N)
      (World (Minify.listing_of (Minify.build t)) old).
Proof.
  intros t old.
  apply (skipped_minify_is_invisible Minify.SlowTools.shell PyStr.caseless
           Stored.zlib
           (fun _ => 0%N) t old 0 []
           ["Warning: Minifiers not found. Skipping minification.";
            "Using existing pre-generated files from repository.";
            "  - html-minifier-terser: not installed";
            "  - clean-css-cli: not installed"; "  - terser: not installed";
            "To enable minification, install: npm install -g html-minifier-terser clean-css-cli terser"]).
  reflexivity.
Defined.

(** ** minify.py: what a finished run leaves in src/web/build *)

Lemma copy_keeps name data build e :
  e ∈ build ->
  exists e', e' ∈ Minify.copy name data build
             /\ Fs.name e' = Fs.name e /\ is_file e' = is_file e.
Proof.
  induction build as [|x build IH]; intros Hin; [by apply elem_of_nil in Hin|].
  cbn [Minify.copy].
  destruct (String.eqb_spec (Fs.name x) name) as [Hx|Hx].
  - apply elem_of_cons in Hin as [->|Hin].
    + destruct (is_file x) eqn:Hf.
      * exists (Path name (Some data)). split; [apply list_elem_of_here|].
        by rewrite Hx.
      * exists x. split; [apply list_elem_of_here|done].
    + exists e. split; [by apply list_elem_of_further|done].
  - apply elem_of_cons in Hin as [->|Hin].
    + exists x. split; [apply list_elem_of_here|done].
    + destruct (IH Hin) as (e' & He' & Hn).
      exists e'. split; [by apply list_elem_of_further|done].
Qed.

Lemma copy_has_entry name data build :
  exists e', e' ∈ Minify.copy name data build /\ Fs.name e' = name.
Proof.
  induction build as [|x build IH]; cbn [Minify.copy].
  - exists (Path name (Some data)). split; [apply list_elem_of_here|done].
  - destruct (String.eqb_spec (Fs.name x) name) as [Hx|Hx].
    + destruct (is_file x).
      * exists (Path name (Some data)). split; [apply list_elem_of_here|done].
      * exists x. split; [apply list_elem_of_here|done].
    + destruct IH as (e' & He' & Hn).
      exists e'. split; [by apply list_elem_of_further|done].
Qed.

Lemma copy_other name data build e :
  Fs.name e <> name -> e ∈ build -> e ∈ Minify.copy name data build.
Proof.
  intros Hne. induction build as [|x build IH]; intros Hin;
    [by apply elem_of_nil in Hin|].
  cbn [Minify.copy].
  destruct (String.eqb_spec (Fs.name x) name) as [Hx|Hx].
  - apply elem_of_cons in Hin as [->|Hin]; [done|].
    by apply list_elem_of_further.
  - apply elem_of_cons in Hin as [->|Hin]; [apply list_elem_of_here|].
    apply list_elem_of_further. by apply IH.
Qed.

Lemma copy_writes name data build :
  (forall e, e ∈ build -> Fs.name e = name -> is_file e = true) ->
  Path name (Some data) ∈ Minify.copy name data build.
Proof.
  induction build as [|x build IH]; intros Hfiles; cbn [Minify.copy].
  - apply list_elem_of_here.
  - destruct (String.eqb_spec (Fs.name x) name) as [Hx|Hx].
    + rewrite (Hfiles x) by (apply list_elem_of_here || done).
      apply list_elem_of_here.
    + apply list_elem_of_further. apply IH.
      intros e He. apply Hfiles. by apply list_elem_of_further.
Qed.

Lemma copy_files name data build n :
  (forall e, e ∈ build -> Fs.name e = n -> is_file e = true) ->
  forall e, e ∈ Minify.copy name data build -> Fs.name e = n ->
            is_file e = true.
Proof.
  induction build as [|x build IH]; intros Hfiles e; cbn [Minify.copy].
  - intros ->%list_elem_of_singleton. done.
  - destruct (String.eqb_spec (Fs.name x) name) as [Hx|Hx].
    + destruct (is_file x) eqn:Hf.
      * intros [->|Hin]%elem_of_cons Hn; [done|].
        apply Hfiles; [by apply list_elem_of_further|done].
      * intros Hin. by apply Hfiles.
    + intros [->|Hin]%elem_of_cons Hn.
      * apply Hfiles; [apply list_elem_of_here|done].
      * apply IH; [|done..].
        intros e' He'. apply Hfiles. by apply list_elem_of_further.
Qed.

Section MinifyLoop.
Context (sh : Minify.Shell) (laws : Minify.MinifierLaws sh).

(** One turn of the loop leaves the entries as they are or writes one
    file, named after the entry visited. *)
Lemma loop_step web f todo build build' :
  Minify.loop web (f :: todo) build = Some build' ->
  exists build1,
    Minify.loop web todo build1 = Some build'
    /\ ((file f = None /\ build1 = build)
        \/ exists raw data, file f = Some raw
             /\ build1 = Minify.copy (name f) data build
             /\ (Pathlib.suffix (name f) ∉ [".html"; ".css"; ".js"]
                 -> data = raw)).
Proof.
  cbn [Minify.loop].
  destruct (file f) as [raw|] eqn:Hfile; [|by eauto].
  destruct (String.eqb_spec (Pathlib.suffix (name f)) ".html") as [Hs|Hs1].
  { destruct (Minify.check_call _ web build) as [b1|] eqn:Hc; [|done].
    intros Hl. exists b1. split; [done|]. right.
    destruct (laws (name f) web build b1) as [data ->]; [by left|].
    exists raw, data. split; [done|]. split; [done|].
    intros Hn. destruct Hn. rewrite Hs. apply list_elem_of_here. }
  destruct (String.eqb_spec (Pathlib.suffix (name f)) ".css") as [Hs|Hs2].
  { destruct (Minify.check_call _ web build) as [b1|] eqn:Hc; [|done].
    intros Hl. exists b1. split; [done|]. right.
    destruct (laws (name f) web build b1) as [data ->]; [by (right; left)|].
    exists raw, data. split; [done|]. split; [done|].
    intros Hn. destruct Hn. rewrite Hs.
    apply list_elem_of_further, list_elem_of_here. }
  destruct (String.eqb_spec (Pathlib.suffix (name f)) ".js") as [Hs|Hs3].
  { destruct (Minify.check_call _ web build) as [b1|] eqn:Hc; [|done].
    intros Hl. exists b1. split; [done|]. right.
    destruct (laws (name f) web build b1) as [data ->]; [by (right; right)|].
    exists raw, data. split; [done|]. split; [done|].
    intros Hn. destruct Hn. rewrite Hs.
    apply list_elem_of_further, list_elem_of_further, list_elem_of_here. }
  intros Hl. exists (Minify.copy (name f) raw build). split; [done|].
  right. exists raw, raw. done.
Qed.

Lemma loop_keeps web todo : forall build build' e,
  Minify.loop web todo build = Some build' -> e ∈ build ->
  exists e', e' ∈ build' /\ name e' = name e /\ is_file e' = is_file e.
Proof.
  induction todo as [|f todo IH]; intros build build' e Hl Hin.
  - cbn in Hl. injection Hl as <-. by exists e.
  - apply loop_step in Hl as (b1 & Hl & [[_ ->]|(raw & data & _ & -> & _)]).
    + by eapply IH.
    + destruct (copy_keeps (name f) data build e Hin) as (e1 & He1 & Hn1 & Hf1).
      destruct (IH _ _ e1 Hl He1) as (e' & He' & Hn & Hf).
      exists e'. split; [done|]. by rewrite Hn, Hf.
Qed.

Lemma loop_writes web todo : forall build build' f,
  Minify.loop web todo build = Some build' ->
  f ∈ todo -> is_file f = true ->
  exists e', e' ∈ build' /\ name e' = name f.
Proof.
  induction todo as [|g todo IH]; intros build build' f Hl Hin Hf;
    [by apply elem_of_nil in Hin|].
  apply loop_step in Hl as (b1 & Hl & Hstep).
  apply elem_of_cons in Hin as [->|Hin]; [|by eapply IH].
  destruct Hstep as [[Hnone _]|(raw & data & _ & -> & _)].
  - unfold is_file in Hf. by rewrite Hnone in Hf.
  - destruct (copy_has_entry (name g) data build) as (e1 & He1 & Hn1).
    destruct (loop_keeps _ _ _ _ e1 Hl He1) as (e' & He' & Hn & _).
    exists e'. split; [done|]. by rewrite Hn.
Qed.

Lemma loop_leaves web todo : forall build build' e,
  Minify.loop web todo build = Some build' ->
  name e ∉ name <$> todo -> e ∈ build -> e ∈ build'.
Proof.
  induction todo as [|g todo IH]; intros build build' e Hl Hnot Hin.
  - cbn in Hl. by injection Hl as <-.
  - rewrite fmap_cons, not_elem_of_cons in Hnot. destruct Hnot as [Hne Hnot].
    apply loop_step in Hl as (b1 & Hl & [[_ ->]|(raw & data & _ & -> & _)]).
    + by eapply IH.
    + eapply IH; [done..|]. by apply copy_other.
Qed.

Lemma loop_copies web todo : forall build build' f raw,
  Minify.loop web todo build = Some build' ->
  NoDup (name <$> todo) -> f ∈ todo -> file f = Some raw ->
  Pathlib.suffix (name f) ∉ [".html"; ".css"; ".js"] ->
  (forall e, e ∈ build -> name e = name f -> is_file e = true) ->
  Path (name f) (Some raw) ∈ build'.
Proof.
  induction todo as [|g todo IH];
    intros build build' f raw Hl Hnd Hin Hfile Hsuf Hfiles;
    [by apply elem_of_nil in Hin|].
  rewrite fmap_cons in Hnd. apply NoDup_cons in Hnd as [Hg Hnd].
  apply loop_step in Hl as (b1 & Hl & Hstep).
  apply elem_of_cons in Hin as [->|Hin].
  - destruct Hstep as [[Hnone _]|(raw' & data & Hraw & -> & Hdata)];
      [congruence|].
    specialize (Hdata Hsuf). subst data.
    assert (raw' = raw) as -> by congruence.
    eapply loop_leaves; [done|done|]. by apply copy_writes.
  - destruct Hstep as [[_ ->]|(raw' & data & _ & -> & _)].
    + by eapply IH.
    + eapply IH; [done..|]. by apply copy_files.
Qed.

Lemma script_Finish t build' out :
  Minify.script t = Minify.Finish build' out ->
  exists ws,
    Minify.web t = Some ws /\
    Minify.loop ws ws (Minify.entries_of (Minify.build t)) = Some build'.
Proof.
  unfold Minify.script, Minify.mkdir.
  destruct (Minify.web t) as [ws|]; [|done].
  destruct (Minify.build t) as [| |es]; [|done|].
  - destruct (negb _); [done|]. cbn.
    destruct (Minify.loop ws ws []) as [b|] eqn:Hl; [|done].
    intros [= <- _]. by exists ws.
  - destruct (negb _); [done|]. cbn.
    destruct (Minify.loop ws ws es) as [b|] eqn:Hl; [|done].
    intros [= <- _]. by exists ws.
Qed.

End MinifyLoop.

Lemma string_app_inv_head (p x y : string) : p +:+ x = p +:+ y -> x = y.
Proof. induction p as [|c p IH]; cbn; [done|]. intros [= H]. auto. Qed.

Lemma string_app_inj_length (a b x y : string) :
  String.length a = String.length b -> a +:+ x = b +:+ y -> a = b.
Proof.
  revert b. induction a as [|c a IH]; intros [|d b]; cbn; try done.
  intros [= Hlen] [= -> H]. f_equal. by apply IH.
Qed.

Lemma cmd_name_inj (p q r a b : string) :
  p +:+ (a +:+ (q +:+ (a +:+ r))) = p +:+ (b +:+ (q +:+ (b +:+ r))) ->
  a = b.
Proof.
  intros H%string_app_inv_head.
  apply (string_app_inj_length _ _ _ _) in H as Hab; [done|].
  apply (f_equal String.length) in H.
  rewrite !string_app_length in H. lia.
Qed.

Lemma html_cmd_inj a b : Minify.html_cmd a = Minify.html_cmd b -> a = b.
Proof.
  intros H.
  apply (cmd_name_inj
           ("html-minifier-terser " +:+ Minify.dq +:+ "src/web/")
           (Minify.dq +:+ " --collapse-whitespace --remove-comments --minify-css true --minify-js true -o "
            +:+ Minify.dq +:+ "src/web/build/")
           Minify.dq).
  exact H.
Qed.

Lemma css_cmd_inj a b : Minify.css_cmd a = Minify.css_cmd b -> a = b.
Proof.
  intros H.
  apply (cmd_name_inj
           ("cleancss -O2 " +:+ Minify.dq +:+ "src/web/")
           (Minify.dq +:+ " -o " +:+ Minify.dq +:+ "src/web/build/")
           Minify.dq).
  exact H.
Qed.

Lemma js_cmd_inj a b : Minify.js_cmd a = Minify.js_cmd b -> a = b.
Proof.
  intros H.
  apply (cmd_name_inj
           ("terser " +:+ Minify.dq +:+ "src/web/")
           (Minify.dq +:+ " -c -m -o " +:+ Minify.dq +:+ "src/web/build/")
           Minify.dq).
  exact H.
Qed.

Lemma cat_run n cmd web : forall build build',
  cmd ∈ [Minify.html_cmd n; Minify.css_cmd n; Minify.js_cmd n] ->
  Minify.Cat.run cmd web build = Some build' ->
  exists data, build' = Minify.copy n data build.
Proof.
  intros build build' Hcmd.
  induction web as [|f web IH]; [done|]. cbn [Minify.Cat.run].
  destruct (file f) as [data|]; [|done].
  destruct (_ || _ || _) eqn:Heq; [|done].
  intros [= <-]. exists data.
  assert (name f = n) as ->; [|done].
  rewrite !orb_true_iff in Heq. rewrite !String.eqb_eq in Heq.
  rewrite !elem_of_cons in Hcmd.
  destruct Hcmd as [->|[->|[->|Hcmd]]]; [| | |by apply elem_of_nil in Hcmd];
    destruct Heq as [[Heq|Heq]|Heq];
    solve [ by apply html_cmd_inj in Heq
          | by apply css_cmd_inj in Heq
          | by apply js_cmd_inj in Heq
          | discriminate Heq ].
Qed.

Lemma cat_laws : Minify.MinifierLaws Minify.Cat.shell.
Proof.
  intros n web build build' H. cbn [Minify.check_call Minify.Cat.shell] in H.
  destruct H as [H|[H|H]]; (eapply cat_run; [|exact H]);
    rewrite !elem_of_cons; auto.
Qed.

(** X16. A run of minify.py that reaches its last line deletes nothing:
    every entry src/web/build had is still there under its name (a file
    still a file), and every regular file of src/web has an entry of
    its name in src/web/build.  So an asset removed from src/web stays
    in src/web/build. *)
Theorem finished_minify_deletes_nothing (sh : Minify.Shell)
    (laws : Minify.MinifierLaws sh) (t : Minify.tree) build' out :
  Minify.script t = Minify.Finish build' out ->
  (forall e, e ∈ Minify.entries_of (Minify.build t) ->
     exists e', e' ∈ build' /\ name e' = name e /\ is_file e' = is_file e)
  /\ (forall ws f, Minify.web t = Some ws -> f ∈ ws -> is_file f = true ->
        exists e', e' ∈ build' /\ name e' = name f).
Proof.
  intros (ws & Hws & Hl)%script_Finish. split.
  - intros e He. by eapply loop_keeps.
  - intros ws' f Hws' Hf Hfile. assert (ws' = ws) as -> by congruence.
    by eapply loop_writes.
Qed.

Lemma finished_minify_deletes_nothing_witness :
  let t := Minify.Tree
             (Some [Path "index.html" (Some [x3c; x70; x3e]);
                    Path "img" None;
                    Path "logo.png" (Some [x89; x50])])
             (Minify.Dir [Path "old.js" (Some [x78]);
                          Path "logo.png" (Some [x00])]) in
  let build' := [Path "old.js" (Some [x78]);
                 Path "logo.png" (Some [x89; x50]);
                 Path "index.html" (Some [x3c; x70; x3e])] in
  (forall e, e ∈ Minify.entries_of (Minify.build t) ->
     exists e', e' ∈ build' /\ name e' = name e /\ is_file e' = is_file e)
  /\ (forall ws f, Minify.web t = Some ws -> f ∈ ws -> is_file f = true ->
        exists e', e' ∈ build' /\ name e' = name f).
Proof.
  intros t build'.
  apply (finished_minify_deletes_nothing Minify.Cat.shell cat_laws t build'
           ["Web assets minified"]).
  reflexivity.
Defined.

(** X17. minify.py compares the suffix as written, generate_pages.py in
    lower case.  A regular file of src/web whose suffix is none of
    .html, .css, .js as written (A.HTML, say) is copied to
    src/web/build byte for byte; if its lower-cased suffix is one of
    the three, generate_pages.py still makes an asset of it, from the
    bytes that were never minified. *)
Theorem suffix_case_skips_minifier (sh : Minify.Shell)
    (laws : Minify.MinifierLaws sh) (uc : PyStr.Unicode) (zl : Zlib) (clock : nat -> N)
    (t : Minify.tree) ws f raw build' out :
  Minify.web t = Some ws -> NoDup (name <$> ws) ->
  f ∈ ws -> file f = Some raw ->
  Pathlib.suffix (name f) ∉ [".html"; ".css"; ".js"] ->
  (forall e, e ∈ Minify.entries_of (Minify.build t) ->
     name e = name f -> is_file e = true) ->
  Minify.script t = Minify.Finish build' out ->
  f ∈ build' /\
  (Spec.qualifies f = true ->
   exists p, p ∈ gen_pages clock build'
     /\ Page.url p = url_of (name f)
     /\ MIME !! PyStr.lower (Pathlib.suffix (name f)) = Some (Page.mime p)
     /\ (is_nogz (name f) = true -> Page.data p = raw)
     /\ (is_nogz (name f) = false ->
         exists time, Page.data p = Gzip.compress time raw 9)).
Proof.
  intros Hws Hnd Hin Hfile Hsuf Hfiles (ws' & Hws' & Hl)%script_Finish.
  assert (ws' = ws) as -> by congruence.
  assert (f ∈ build') as Hf.
  { replace f with (Path (name f) (Some raw))
      by (destruct f; cbn in *; congruence).
    by eapply loop_copies. }
  split; [done|]. intros Hq.
  assert (f ∈ Spec.sources build') as [k Hk]%list_elem_of_lookup.
  { rewrite sources_Permutation. apply list_elem_of_filter.
    split; [by apply Is_true_true|done]. }
  destruct (Forall2_lookup_l _ _ _ k f (gen_pages_fields uc zl clock build') Hk)
    as (p & Hp & Hurl & _ & Hmime & _ & raw' & Hraw' & Hoff & Hon).
  assert (raw' = raw) as -> by congruence.
  exists p. split; [by eapply list_elem_of_lookup_2|]. done.
Qed.

Lemma suffix_case_skips_minifier_witness :
  let f := Path "A.HTML" (Some [x3c; x70; x3e; x20; x20; x3c; x2f; x70; x3e]) in
  let t := Minify.Tree (Some [Path "index.html" (Some [x3c; x70; x3e]); f])
             Minify.Absent in
  let build' := [Path "index.html" (Some [x3c; x70; x3e]); f] in
  f ∈ build' /\
  (Spec.qualifies f = true ->
   exists p, p ∈ gen_pages (uc := PyStr.caseless) (zl := Stored.zlib)
       (fun _ => 0%N) build'
     /\ Page.url p = url_of (name f)
     /\ MIME !! PyStr.lower (Pathlib.suffix (name f)) = Some (Page.mime p)
     /\ (is_nogz (name f) = true ->
         Page.data p = [x3c; x70; x3e; x20; x20; x3c; x2f; x70; x3e])
     /\ (is_nogz (name f) = false ->
         exists time,
           Page.data p
           = Gzip.compress (zl := Stored.zlib) time
               [x3c; x70; x3e; x20; x20; x3c; x2f; x70; x3e] 9)).
Proof.
  intros f t build'.
  apply (suffix_case_skips_minifier Minify.Cat.shell cat_laws PyStr.caseless
           Stored.zlib
           (fun _ => 0%N) t
           [Path "index.html" (Some [x3c; x70; x3e]); f] f
           [x3c; x70; x3e; x20; x20; x3c; x2f; x70; x3e] build'
           ["Web assets minified"]).
  - reflexivity.
  - repeat constructor; rewrite ?elem_of_cons, ?elem_of_nil;
      intros H; repeat destruct H as [H|H]; done.
  - apply list_elem_of_further, list_elem_of_here.
  - reflexivity.
  - rewrite !elem_of_cons, elem_of_nil. intros [H|[H|[H|H]]]; done.
  - intros e He. by apply elem_of_nil in He.
  - reflexivity.
Defined.

(** ** Two assets under one URL *)

Lemma matches_same_path path d d' :
  PageRouter.Page.path d = PageRouter.Page.path d' ->
  Spec.matches path d' -> Spec.matches path d.
Proof. unfold Spec.matches. by intros ->. Qed.

Lemma findPage_shadowed path pages i j d d' :
  i < j -> pages !! i = Some d -> pages !! j = Some d' ->
  PageRouter.Page.path d = PageRouter.Page.path d' ->
  fst (PageRouter.findPage path pages) <> Some j.
Proof.
  intros Hlt Hi Hj Hpath (d'' & Hj' & Hm & Hfirst)%findPage_index_iff.
  assert (d'' = d') as -> by congruence.
  apply (Hfirst i d Hlt Hi). by eapply matches_same_path.
Qed.

(** X18. Two assets can share a URL (app.js and app.nogz.js are both
    served at /app.js).  The one whose file name sorts later is then in
    the table but never returned by findPage, whatever the request
    path. *)
Theorem same_url_later_file_never_served (uc : PyStr.Unicode) (zl : Zlib)
    (clock : nat -> N)
    (listing : list path) (f g : path) (j : nat) :
  f ∈ listing -> Spec.qualifies f = true ->
  Spec.sources listing !! j = Some g ->
  url_of (name f) = url_of (name g) ->
  ~ path_le g f ->
  let table := PageRouter.table_of (gen_pages clock listing) in
  (exists d, table !! j = Some d
             /\ PageRouter.Page.path d = url_of (name g))
  /\ forall path, fst (PageRouter.findPage path table) <> Some j.
Proof.
  intros Hf Hq Hg Hurl Hlt table.
  destruct (table_entry uc zl clock listing f Hf Hq) as (i & d & Hi & Hd & Hpd).
  destruct (Forall2_lookup_l _ _ _ j g (gen_pages_fields uc zl clock listing) Hg)
    as (p & Hp & Hpurl & _).
  assert (table !! j
          = Some (PageRouter.Page.Make (Page.url p) (Page.data p) (Page.len p)
                    (Page.mime p) (Page.gzip p))) as Hj.
  { unfold table, PageRouter.table_of. by rewrite list_lookup_fmap, Hp. }
  split; [eexists; split; [exact Hj|done]|].
  intros path.
  assert (i < j) as Hij.
  { destruct (Nat.lt_trichotomy i j) as [Hlt'|[->|Hgt]]; [done| |].
    - assert (f = g) as -> by congruence.
      destruct Hlt. destruct (path_le_total g g); done.
    - destruct Hlt.
      by apply (StronglySorted_lookup path_le (Spec.sources listing) j i g f
                  (sources_StronglySorted listing)). }
  eapply findPage_shadowed; [exact Hij|exact Hd|exact Hj|].
  cbn. by rewrite Hpd, Hpurl.
Qed.

Lemma same_url_later_file_never_served_witness :
  let f := Path "app.js" (Some [x61]) in
  let g := Path "app.nogz.js" (Some [x62]) in
  let table :=
    PageRouter.table_of
      (gen_pages (uc := PyStr.caseless) (zl := Stored.zlib)
          (fun _ => 0%N) [g; f]) in
  (exists d, table !! 1 = Some d
             /\ PageRouter.Page.path d = url_of (name g))
  /\ forall path, fst (PageRouter.findPage path table) <> Some 1.
Proof.
  intros f g.
  apply (same_url_later_file_never_served PyStr.caseless Stored.zlib (fun _ => 0%N)
           [g; f] f g 1).
  - apply list_elem_of_further, list_elem_of_here.
  - reflexivity.
  - reflexivity.
  - reflexivity.
  - unfold path_le. by vm_compute.
Defined.

(** ** master_emulator.py: the console commands *)

Lemma rstrip_cons c s :
  MasterEmulator.rstrip (String c s)
  = match MasterEmulator.rstrip s with
    | EmptyString =>
        if MasterEmulator.is_space c then EmptyString else String c EmptyString
    | String d r => String c (String d r)
    end.
Proof. reflexivity. Qed.

Lemma rstrip_idemp s :
  MasterEmulator.rstrip (MasterEmulator.rstrip s) = MasterEmulator.rstrip s.
Proof.
  induction s as [|c s IH]; [done|]. rewrite rstrip_cons.
  destruct (MasterEmulator.rstrip s) as [|d r] eqn:E.
  - destruct (MasterEmulator.is_space c) eqn:Hc; [done|].
    rewrite rstrip_cons. cbn [MasterEmulator.rstrip]. by rewrite Hc.
  - rewrite rstrip_cons, IH. done.
Qed.

Lemma rstrip_app_keep p s :
  MasterEmulator.rstrip s <> "" ->
  MasterEmulator.rstrip (p +:+ s) = p +:+ MasterEmulator.rstrip s.
Proof.
  intros Hne. induction p as [|c p IH]; [done|].
  change (String c p +:+ s) with (String c (p +:+ s)).
  rewrite rstrip_cons, IH.
  change (String c p +:+ MasterEmulator.rstrip s)
    with (String c (p +:+ MasterEmulator.rstrip s)).
  destruct (p +:+ MasterEmulator.rstrip s) as [|d r] eqn:E; [|done].
  destruct p; [by destruct Hne|done].
Qed.

Lemma rstrip_app_drop p s :
  MasterEmulator.rstrip s = "" ->
  MasterEmulator.rstrip (p +:+ s) = MasterEmulator.rstrip p.
Proof.
  intros He. induction p as [|c p IH]; [done|].
  change (String c p +:+ s) with (String c (p +:+ s)).
  by rewrite !rstrip_cons, IH.
Qed.

Lemma lstrip_keep c s :
  MasterEmulator.is_space c = false ->
  MasterEmulator.lstrip (String c s) = String c s.
Proof. intros H. cbn. by rewrite H. Qed.

Lemma strip_fixed s : MasterEmulator.rstrip (MasterEmulator.strip s)
                      = MasterEmulator.strip s.
Proof. apply rstrip_idemp. Qed.

Lemma startswith_slice m s :
  PyStr.startswith m s = true ->
  s = m +:+ PyStr.slice_from (String.length m) s.
Proof.
  intros [b ->]%startswith_app. by rewrite slice_from_app.
Qed.

(** The body of a command: what follows the command word [word] in a
    stripped line is not empty and ends in no blank. *)
Lemma command_body word line :
  MasterEmulator.rstrip line = line ->
  MasterEmulator.rstrip (word +:+ " ") = word ->
  PyStr.startswith (word +:+ " ") line = true ->
  let body := PyStr.slice_from (String.length (word +:+ " ")) line in
  body <> "" /\ MasterEmulator.rstrip body = body.
Proof.
  intros Hline Hword [b ->]%startswith_app body. subst body.
  rewrite slice_from_app.
  destruct (MasterEmulator.rstrip b) as [|d r] eqn:Hb.
  - exfalso. rewrite rstrip_app_drop in Hline by done.
    rewrite Hword in Hline.
    apply (f_equal String.length) in Hline.
    rewrite !string_app_length in Hline. cbn in Hline. lia.
  - rewrite rstrip_app_keep in Hline by (by rewrite Hb).
    apply string_app_inv_head in Hline. rewrite Hb in Hline.
    split; [|done]. intros Hnil. by rewrite Hnil in Hb.
Qed.

(** X19. Whatever line is read, a payload the emulator sends is the
    command's prefix, a body and one line feed, and the body is never
    empty and ends in no blank: a command word alone (state, hint or
    raw, with or without blanks behind it) sends nothing. *)
Theorem payload_has_a_body (read payload : string) :
  MasterEmulator.command read = MasterEmulator.Payload payload ->
  exists body,
    body <> "" /\ MasterEmulator.rstrip body = body /\
    ((MasterEmulator.strip read = "state " +:+ body
      /\ payload = "STATE|fen=" +:+ body +:+ MasterEmulator.nl)
     \/ (MasterEmulator.strip read = "hint " +:+ body
         /\ payload = "HINT|move=" +:+ body +:+ MasterEmulator.nl)
     \/ (MasterEmulator.strip read = "raw " +:+ body
         /\ payload = body +:+ MasterEmulator.nl)).
Proof.
  unfold MasterEmulator.command. cbv zeta.
  pose proof (strip_fixed read) as Hfix.
  destruct (String.eqb _ ""); [done|].
  destruct (PyStr.startswith "state " _) eqn:H1.
  { intros [= <-].
    destruct (command_body "state" _ Hfix eq_refl H1) as [Hne Hb].
    eexists. split; [exact Hne|]. split; [exact Hb|]. left.
    split; [|done]. by apply (startswith_slice "state "). }
  destruct (PyStr.startswith "hint " _) eqn:H2.
  { intros [= <-].
    destruct (command_body "hint" _ Hfix eq_refl H2) as [Hne Hb].
    eexists. split; [exact Hne|]. split; [exact Hb|]. right. left.
    split; [|done]. by apply (startswith_slice "hint "). }
  destruct (PyStr.startswith "raw " _) eqn:H3; [|done].
  intros [= <-].
  destruct (command_body "raw" _ Hfix eq_refl H3) as [Hne Hb].
  eexists. split; [exact Hne|]. split; [exact Hb|]. right. right.
  split; [|done]. by apply (startswith_slice "raw ").
Qed.

Lemma payload_has_a_body_witness :
  exists body,
    body <> "" /\ MasterEmulator.rstrip body = body /\
    ((MasterEmulator.strip ("  hint e2e4 " +:+ MasterEmulator.nl)
      = "state " +:+ body
      /\ "HINT|move=e2e4" +:+ MasterEmulator.nl
         = "STATE|fen=" +:+ body +:+ MasterEmulator.nl)
     \/ (MasterEmulator.strip ("  hint e2e4 " +:+ MasterEmulator.nl)
         = "hint " +:+ body
         /\ "HINT|move=e2e4" +:+ MasterEmulator.nl
            = "HINT|move=" +:+ body +:+ MasterEmulator.nl)
     \/ (MasterEmulator.strip ("  hint e2e4 " +:+ MasterEmulator.nl)
         = "raw " +:+ body
         /\ "HINT|move=e2e4" +:+ MasterEmulator.nl
            = body +:+ MasterEmulator.nl)).
Proof.
  apply (payload_has_a_body ("  hint e2e4 " +:+ MasterEmulator.nl)
           ("HINT|move=e2e4" +:+ MasterEmulator.nl)).
  reflexivity.
Defined.

Lemma strip_command_line c w body :
  MasterEmulator.is_space c = false ->
  body <> "" -> MasterEmulator.rstrip body = body ->
  MasterEmulator.strip (String c w +:+ body +:+ MasterEmulator.nl)
  = String c w +:+ body.
Proof.
  intros Hc Hne Hb. unfold MasterEmulator.strip.
  change (String c w +:+ body +:+ MasterEmulator.nl)
    with (String c (w +:+ body +:+ MasterEmulator.nl)).
  rewrite lstrip_keep by done.
  change (String c (w +:+ body +:+ MasterEmulator.nl))
    with (String c w +:+ body +:+ MasterEmulator.nl).
  rewrite <- !string_app_assoc.
  rewrite rstrip_app_drop by done.
  rewrite rstrip_app_keep by (by rewrite Hb).
  by rewrite Hb.
Qed.

(** X20. A command typed with a body that is not empty and ends in no
    blank reaches the clients as it was typed: [state <fen>] sends
    STATE|fen=<fen>, [hint <uci>] sends HINT|move=<uci>, [raw <text>]
    sends <text>, each followed by one line feed; blanks at the front
    of the body are kept. *)
Theorem typed_body_is_sent (body : string) :
  body <> "" -> MasterEmulator.rstrip body = body ->
  MasterEmulator.command ("state " +:+ body +:+ MasterEmulator.nl)
  = MasterEmulator.Payload ("STATE|fen=" +:+ body +:+ MasterEmulator.nl)
  /\ MasterEmulator.command ("hint " +:+ body +:+ MasterEmulator.nl)
     = MasterEmulator.Payload ("HINT|move=" +:+ body +:+ MasterEmulator.nl)
  /\ MasterEmulator.command ("raw " +:+ body +:+ MasterEmulator.nl)
     = MasterEmulator.Payload (body +:+ MasterEmulator.nl).
Proof.
  intros Hne Hb. unfold MasterEmulator.command. cbv zeta.
  rewrite (strip_command_line "s" "tate " body eq_refl Hne Hb).
  rewrite (strip_command_line "h" "int " body eq_refl Hne Hb).
  rewrite (strip_command_line "r" "aw " body eq_refl Hne Hb).
  rewrite (slice_from_app "state " body), (slice_from_app "hint " body),
    (slice_from_app "raw " body).
  rewrite !startswith_app_self.
  change ("state " +:+ body =? "") with false.
  change ("hint " +:+ body =? "") with false.
  change ("raw " +:+ body =? "") with false.
  change (PyStr.startswith "state " ("hint " +:+ body)) with false.
  change (PyStr.startswith "state " ("raw " +:+ body)) with false.
  change (PyStr.startswith "hint " ("raw " +:+ body)) with false.
  done.
Qed.

Lemma typed_body_is_sent_witness :
  MasterEmulator.command ("state " +:+ "8/8/8/8/8/8/8/K6k w - - 0 1"
                          +:+ MasterEmulator.nl)
  = MasterEmulator.Payload ("STATE|fen=" +:+ "8/8/8/8/8/8/8/K6k w - - 0 1"
                            +:+ MasterEmulator.nl)
  /\ MasterEmulator.command ("hint " +:+ "8/8/8/8/8/8/8/K6k w - - 0 1"
                             +:+ MasterEmulator.nl)
     = MasterEmulator.Payload ("HINT|move=" +:+ "8/8/8/8/8/8/8/K6k w - - 0 1"
                               +:+ MasterEmulator.nl)
  /\ MasterEmulator.command ("raw " +:+ "8/8/8/8/8/8/8/K6k w - - 0 1"
                             +:+ MasterEmulator.nl)
     = MasterEmulator.Payload ("8/8/8/8/8/8/8/K6k w - - 0 1"
                               +:+ MasterEmulator.nl).
Proof.
  apply (typed_body_is_sent "8/8/8/8/8/8/8/K6k w - - 0 1"); [done|reflexivity].
Defined.
